(** * ROHC library: scaled RTP timestamp encoder, feedback builder,
      IP header walker and ESP profile encoder

    A shallow embedding of four translation units of the ROHC library
    (ts_sc_comp.c, feedback.c, ip.c and c_esp.c) and of the packet generator
    and trace buffer of its fuzzer (fuzzer.c), together with the properties
    their specification states about them and further properties that the
    code itself shows.

    Conventions of the embedding:
    - a C unsigned integer of width w is a [Z] in [0, 2^w); every operation
      that can leave the range is wrapped explicitly ([wrap8], [wrap16],
      [wrap32]);
    - a byte pointer is the list of the bytes that lie between the pointed
      address and the end of the underlying buffer, so pointer arithmetic is
      [skipn] and a read past the last byte of the buffer is visible;
    - a C function that can abort on [assert] or touch memory outside an
      object returns a [result]: [Ok v] for a defined run, [Fault f]
      otherwise. *)

From Stdlib Require Import ZArith List Bool Lia.
Import ListNotations.
Open Scope Z_scope.

(** ** Machine integers *)

Definition wrap8 (x : Z) : Z := x mod 2 ^ 8.
Definition wrap16 (x : Z) : Z := x mod 2 ^ 16.
Definition wrap32 (x : Z) : Z := x mod 2 ^ 32.

Definition uint8 (x : Z) : Prop := 0 <= x < 2 ^ 8.
Definition uint16 (x : Z) : Prop := 0 <= x < 2 ^ 16.
Definition uint32 (x : Z) : Prop := 0 <= x < 2 ^ 32.

(** ** Defined and undefined runs *)

Inductive fault : Type :=
| OutOfBounds     (* an access outside the object the pointer belongs to *)
| AssertFailure   (* an [assert] of the source does not hold *)
| OutOfFuel.      (* the bound given to a loop of the embedding is used up *)

Inductive result (A : Type) : Type :=
| Ok (a : A)
| Fault (f : fault).

Arguments Ok {A} a.
Arguments Fault {A} f.

Definition bind {A B : Type} (r : result A) (k : A -> result B) : result B :=
  match r with
  | Ok a => k a
  | Fault f => Fault f
  end.

Notation "x <- r ;; k" := (bind r (fun x => k))
  (at level 61, r at next level, right associativity).
Notation "' p <- r ;; k" := (bind r (fun p => k))
  (at level 61, p pattern, r at next level, right associativity).

(** [assert(b)] of <assert.h>. *)
Definition assert (b : bool) : result unit :=
  if b then Ok tt else Fault AssertFailure.

(** [p[i]] for a byte pointer [p]. *)
Definition load (p : list Z) (i : Z) : result Z :=
  if i <? 0 then Fault OutOfBounds
  else match nth_error p (Z.to_nat i) with
       | Some b => Ok b
       | None => Fault OutOfBounds
       end.

(** The [n] bytes that [memcpy(dst, p, n)] reads from [p]. *)
Definition memcpy (p : list Z) (n : Z) : result (list Z) :=
  if (n <? 0) || (Z.of_nat (length p) <? n) then Fault OutOfBounds
  else Ok (firstn (Z.to_nat n) p).

(** [p + n] for a byte pointer [p]. *)
Definition ptr_add (p : list Z) (n : Z) : list Z := skipn (Z.to_nat n) p.

(** ** The scaled RTP timestamp encoder (ts_sc_comp.c, ts_sc_comp.h) *)

Module TsSc.

Inductive ts_sc_state : Type :=
| INIT_TS
| INIT_STRIDE
| SEND_SCALED.

Definition ts_sc_state_eqb (a b : ts_sc_state) : bool :=
  match a, b with
  | INIT_TS, INIT_TS => true
  | INIT_STRIDE, INIT_STRIDE => true
  | SEND_SCALED, SEND_SCALED => true
  | _, _ => false
  end.

(** [struct ts_sc_comp]. The W-LSB window and the trace callback are left
    out: [c_add_ts] reads and writes neither of them. *)
Record ts_sc_comp : Type := mk_ts_sc {
  ts_stride : Z;
  ts_scaled : Z;
  ts_offset : Z;
  ts : Z;
  old_ts : Z;
  sn : Z;
  old_sn : Z;
  is_deducible : bool;
  state : ts_sc_state;
  are_old_val_init : bool;
  nr_init_stride_packets : Z;
  ts_delta : Z
}.

Definition set_ts_stride (v : Z) (s : ts_sc_comp) : ts_sc_comp :=
  mk_ts_sc v (ts_scaled s) (ts_offset s) (ts s) (old_ts s) (sn s) (old_sn s)
    (is_deducible s) (state s) (are_old_val_init s)
    (nr_init_stride_packets s) (ts_delta s).
Definition set_ts_scaled (v : Z) (s : ts_sc_comp) : ts_sc_comp :=
  mk_ts_sc (ts_stride s) v (ts_offset s) (ts s) (old_ts s) (sn s) (old_sn s)
    (is_deducible s) (state s) (are_old_val_init s)
    (nr_init_stride_packets s) (ts_delta s).
Definition set_ts_offset (v : Z) (s : ts_sc_comp) : ts_sc_comp :=
  mk_ts_sc (ts_stride s) (ts_scaled s) v (ts s) (old_ts s) (sn s) (old_sn s)
    (is_deducible s) (state s) (are_old_val_init s)
    (nr_init_stride_packets s) (ts_delta s).
Definition set_ts (v : Z) (s : ts_sc_comp) : ts_sc_comp :=
  mk_ts_sc (ts_stride s) (ts_scaled s) (ts_offset s) v (old_ts s) (sn s)
    (old_sn s) (is_deducible s) (state s) (are_old_val_init s)
    (nr_init_stride_packets s) (ts_delta s).
Definition set_old_ts (v : Z) (s : ts_sc_comp) : ts_sc_comp :=
  mk_ts_sc (ts_stride s) (ts_scaled s) (ts_offset s) (ts s) v (sn s)
    (old_sn s) (is_deducible s) (state s) (are_old_val_init s)
    (nr_init_stride_packets s) (ts_delta s).
Definition set_sn (v : Z) (s : ts_sc_comp) : ts_sc_comp :=
  mk_ts_sc (ts_stride s) (ts_scaled s) (ts_offset s) (ts s) (old_ts s) v
    (old_sn s) (is_deducible s) (state s) (are_old_val_init s)
    (nr_init_stride_packets s) (ts_delta s).
Definition set_old_sn (v : Z) (s : ts_sc_comp) : ts_sc_comp :=
  mk_ts_sc (ts_stride s) (ts_scaled s) (ts_offset s) (ts s) (old_ts s) (sn s)
    v (is_deducible s) (state s) (are_old_val_init s)
    (nr_init_stride_packets s) (ts_delta s).
Definition set_is_deducible (v : bool) (s : ts_sc_comp) : ts_sc_comp :=
  mk_ts_sc (ts_stride s) (ts_scaled s) (ts_offset s) (ts s) (old_ts s) (sn s)
    (old_sn s) v (state s) (are_old_val_init s)
    (nr_init_stride_packets s) (ts_delta s).
Definition set_state (v : ts_sc_state) (s : ts_sc_comp) : ts_sc_comp :=
  mk_ts_sc (ts_stride s) (ts_scaled s) (ts_offset s) (ts s) (old_ts s) (sn s)
    (old_sn s) (is_deducible s) v (are_old_val_init s)
    (nr_init_stride_packets s) (ts_delta s).
Definition set_are_old_val_init (v : bool) (s : ts_sc_comp) : ts_sc_comp :=
  mk_ts_sc (ts_stride s) (ts_scaled s) (ts_offset s) (ts s) (old_ts s) (sn s)
    (old_sn s) (is_deducible s) (state s) v
    (nr_init_stride_packets s) (ts_delta s).
Definition set_nr_init_stride_packets (v : Z) (s : ts_sc_comp) : ts_sc_comp :=
  mk_ts_sc (ts_stride s) (ts_scaled s) (ts_offset s) (ts s) (old_ts s) (sn s)
    (old_sn s) (is_deducible s) (state s) (are_old_val_init s)
    v (ts_delta s).
Definition set_ts_delta (v : Z) (s : ts_sc_comp) : ts_sc_comp :=
  mk_ts_sc (ts_stride s) (ts_scaled s) (ts_offset s) (ts s) (old_ts s) (sn s)
    (old_sn s) (is_deducible s) (state s) (are_old_val_init s)
    (nr_init_stride_packets s) v.

(** Modelled from the spec: sdvl.c is not among the sources. An SDVL value
    takes at most 4 bytes carrying 29 bits, so encoding "fails when the value
    exceeds 2^29 - 1". *)
Definition sdvl_can_value_be_encoded (value : Z) : bool :=
  value <=? 2 ^ 29 - 1.

(** [c_create_sc], without the allocation of the W-LSB window. *)
Definition c_create_sc : ts_sc_comp :=
  mk_ts_sc 0 0 0 0 0 0 0 false INIT_TS false 0 0.

(** The absolute difference that [c_add_ts] stores in [ts_delta]. *)
Definition abs_delta (new_ts prev_ts : Z) : Z :=
  if new_ts >=? prev_ts then wrap32 (new_ts - prev_ts)
  else wrap32 (prev_ts - new_ts).

(** [sn - old_sn] on two [uint16_t]: computed on [int], then converted to
    [uint32_t] by the comparison with a [uint32_t] operand. *)
Definition sn_increment (new_sn prev_sn : Z) : Z := wrap32 (new_sn - prev_sn).

(** The INIT_STRIDE branch of [c_add_ts]. *)
Definition c_add_ts_init_stride (s : ts_sc_comp) : result ts_sc_comp :=
  let s :=
    if negb (ts_delta s =? ts_stride s)
       || negb (ts s mod ts_delta s =? ts_offset s)
    then set_nr_init_stride_packets 0 s
    else s in
  let s := set_ts_stride (ts_delta s) s in
  _ <- assert (negb (ts_stride s =? 0)) ;;
  let s := set_ts_offset (ts s mod ts_stride s) s in
  _ <- assert (negb (ts_stride s =? 0)) ;;
  Ok (set_ts_scaled (wrap32 (ts s - ts_offset s) / ts_stride s) s).

(** The SEND_SCALED branch of [c_add_ts]. *)
Definition c_add_ts_send_scaled (s : ts_sc_comp) : result ts_sc_comp :=
  let old_scaled := ts_scaled s in
  let old_offset := ts_offset s in
  s <- (if negb (ts_delta s =? ts_stride s) then
          _ <- assert (negb (ts_stride s =? 0)) ;;
          if negb (ts_delta s mod ts_stride s =? 0) then
            Ok (set_ts_stride (ts_delta s)
                  (set_nr_init_stride_packets 0 (set_state INIT_STRIDE s)))
          else if negb (ts_delta s / ts_stride s
                        =? sn_increment (sn s) (old_sn s)) then
            Ok (set_nr_init_stride_packets 0 (set_state INIT_STRIDE s))
          else Ok s
        else Ok s) ;;
  _ <- assert (negb (ts_stride s =? 0)) ;;
  let s := set_ts_offset (ts s mod ts_stride s) s in
  _ <- assert (negb (ts_stride s =? 0)) ;;
  let s := set_ts_scaled (wrap32 (ts s - ts_offset s) / ts_stride s) s in
  let s :=
    if ts_sc_state_eqb (state s) SEND_SCALED
       && (wrap32 (ts_scaled s - old_scaled)
           =? sn_increment (sn s) (old_sn s))
    then set_is_deducible true s
    else set_is_deducible false s in
  if ts s <? old_ts s then
    if negb (old_offset =? ts_offset s) then
      Ok (set_nr_init_stride_packets 0 (set_state INIT_STRIDE s))
    else Ok s
  else Ok s.

(** [c_add_ts]: store the new TS and SN, compute the new values and update
    the state. *)
Definition c_add_ts (ts_sc : ts_sc_comp) (new_ts new_sn : Z)
  : result ts_sc_comp :=
  let s := set_is_deducible false ts_sc in
  let s := set_old_ts (ts s) s in
  let s := set_old_sn (sn s) s in
  let s := set_ts new_ts s in
  let s := set_sn new_sn s in
  if negb (are_old_val_init s) then
    _ <- assert (ts_sc_state_eqb (state s) INIT_TS) ;;
    Ok (set_are_old_val_init true s)
  else
    let s := set_ts_delta (abs_delta (ts s) (old_ts s)) s in
    if ts_delta s =? 0 then Ok (set_state INIT_TS s)
    else if negb (sdvl_can_value_be_encoded (ts_delta s)) then
      Ok (set_state INIT_TS s)
    else
      let s :=
        if ts_sc_state_eqb (state s) INIT_TS
        then set_nr_init_stride_packets 0 (set_state INIT_STRIDE s)
        else s in
      match state s with
      | INIT_STRIDE => c_add_ts_init_stride s
      | SEND_SCALED => c_add_ts_send_scaled s
      | INIT_TS => Fault AssertFailure
      end.

(** The accessors of the encoder. *)
Definition get_ts_stride (s : ts_sc_comp) : Z := ts_stride s.
Definition get_ts_scaled (s : ts_sc_comp) : Z := ts_scaled s.
Definition rohc_ts_sc_is_deducible (s : ts_sc_comp) : bool := is_deducible s.

End TsSc.

(** ** The feedback builder (feedback.c) *)

Module Feedback.

(** Modelled from the spec: feedback.h, rohc.h and crc.h are not among the
    sources. The option types are the ones of the FEEDBACK-2 format ("CRC
    (opt type 1)", "REJECT (2)", "SN-NOT-VALID (3)", "SN (4)"), the small and
    large CID bounds are the ones of the CID name space ([0,15] and
    [0,16383]), and the CRC-8 initial value is 0xFF. The capacity of the
    [data] array of [struct d_feedback] is the 30 bytes that [f_append_cid]
    itself checks the large CID against. *)
Definition OPT_TYPE_CRC : Z := 1.
Definition OPT_TYPE_REJECT : Z := 2.
Definition OPT_TYPE_SN_NOT_VALID : Z := 3.
Definition OPT_TYPE_SN : Z := 4.
Definition ROHC_SMALL_CID_MAX : Z := 15.
Definition ROHC_LARGE_CID_MAX : Z := 16383.
Definition CRC_INIT_8 : Z := 0xff.
Definition FEEDBACK_DATA_MAX_LEN : Z := 30.

Inductive rohc_status : Type :=
| ROHC_OK
| ROHC_ERROR.

Inductive rohc_cid_type_t : Type :=
| ROHC_LARGE_CID
| ROHC_SMALL_CID.

Inductive rohc_crc_type_t : Type :=
| ROHC_CRC_TYPE_2
| ROHC_CRC_TYPE_3
| ROHC_CRC_TYPE_6
| ROHC_CRC_TYPE_7
| ROHC_CRC_TYPE_8.

(** [struct d_feedback]: the feedback type (1 or 2), the [data] array and the
    number of bytes of it that are in use. A byte is kept as its bit pattern
    in [0, 256), whatever the signedness of the element type. *)
Record d_feedback : Type := mk_feedback {
  type : Z;
  data : list Z;
  size : Z
}.

Definition set_type (v : Z) (f : d_feedback) : d_feedback :=
  mk_feedback v (data f) (size f).
Definition set_size (v : Z) (f : d_feedback) : d_feedback :=
  mk_feedback (type f) (data f) v.

(** The bytes of the feedback packet under construction. *)
Definition packet_bytes (f : d_feedback) : list Z :=
  firstn (Z.to_nat (size f)) (data f).

Fixpoint list_set (l : list Z) (n : nat) (v : Z) : list Z :=
  match l, n with
  | [], _ => []
  | _ :: t, O => v :: t
  | h :: t, S m => h :: list_set t m v
  end.

(** [p[i] = v] on an array [p]. *)
Definition store (p : list Z) (i v : Z) : result (list Z) :=
  if (i <? 0) || (Z.of_nat (length p) <=? i) then Fault OutOfBounds
  else Ok (list_set p (Z.to_nat i) v).

(** [feedback->data[i] = v]; the value is converted to the byte type. *)
Definition set_data (i v : Z) (f : d_feedback) : result d_feedback :=
  d <- store (data f) i (wrap8 v) ;;
  Ok (mk_feedback (type f) d (size f)).

(** [f_feedback1] *)
Definition f_feedback1 (sn : Z) (feedback : d_feedback)
  : result (Z * d_feedback) :=
  let fb := set_type 1 feedback in
  let fb := set_size 1 fb in
  fb <- set_data 0 (Z.land sn 0xff) fb ;;
  Ok (1, fb).

(** [f_add_option]; [opt_data] is [None] for a NULL [data] pointer. *)
Definition f_add_option (feedback : d_feedback) (opt_type : Z)
    (opt_data : option (list Z)) (data_len : Z)
  : result (rohc_status * d_feedback) :=
  let is_null := match opt_data with None => true | Some _ => false end in
  _ <- assert (type feedback =? 2) ;;
  fb <- set_data (size feedback) (Z.land opt_type 0xf) feedback ;;
  d <- load (data fb) (size fb) ;;
  fb <- set_data (size fb) (Z.shiftl d 4) fb ;;
  fb <- (if (opt_type =? OPT_TYPE_CRC) || negb is_null then
           _ <- assert ((data_len =? 0) || (data_len =? 1)) ;;
           d <- load (data fb) (size fb) ;;
           set_data (size fb) (Z.lor d 1) fb
         else Ok fb) ;;
  let fb := set_size (size fb + 1) fb in
  if opt_type =? OPT_TYPE_CRC then
    _ <- assert is_null ;;
    _ <- assert (data_len =? 0) ;;
    fb <- set_data (size fb) 0 fb ;;
    Ok (ROHC_OK, set_size (size fb + 1) fb)
  else
    match opt_data with
    | Some bytes =>
        _ <- assert (data_len =? 1) ;;
        if size fb + data_len >? FEEDBACK_DATA_MAX_LEN then Ok (ROHC_ERROR, fb)
        else
          b <- load bytes 0 ;;
          fb <- set_data (size fb) b fb ;;
          Ok (ROHC_OK, set_size (size fb + 1) fb)
    | None =>
        _ <- assert (data_len =? 0) ;;
        Ok (ROHC_OK, fb)
    end.

(** One SN option of [f_feedback2]: the call of [f_add_option] and the test
    of its return code, with the continuation [k] for the code after it. *)
Definition add_sn_option (fb : d_feedback) (sn_opt : Z)
    (k : d_feedback -> result (rohc_status * d_feedback))
  : result (rohc_status * d_feedback) :=
  '(ret, fb) <- f_add_option fb OPT_TYPE_SN (Some [sn_opt]) 1 ;;
  match ret with
  | ROHC_OK => k fb
  | ROHC_ERROR => Ok (ROHC_ERROR, fb)
  end.

(** [data[0] |= v] *)
Definition or_data0 (v : Z) (fb : d_feedback) : result d_feedback :=
  d0 <- load (data fb) 0 ;;
  set_data 0 (Z.lor d0 v) fb.

(** [f_feedback2] *)
Definition f_feedback2 (acktype mode sn : Z) (feedback : d_feedback)
  : result (rohc_status * d_feedback) :=
  let fb := set_type 2 feedback in
  let fb := set_size 2 fb in
  fb <- set_data 0 (Z.lor (Z.shiftl (Z.land acktype 0x3) 6)
                          (Z.shiftl (Z.land mode 0x3) 4)) fb ;;
  if sn <? Z.shiftl 1 12 then
    fb <- or_data0 (Z.land (Z.shiftr sn 8) 0xf) fb ;;
    fb <- set_data 1 (Z.land sn 0xff) fb ;;
    Ok (ROHC_OK, fb)
  else if sn <? Z.shiftl 1 (12 + 8) then
    let sn_opt := wrap8 (Z.land sn 0xff) in
    fb <- or_data0 (Z.land (Z.shiftr sn 16) 0xf) fb ;;
    fb <- set_data 1 (Z.land (Z.shiftr sn 8) 0xff) fb ;;
    add_sn_option fb sn_opt (fun fb => Ok (ROHC_OK, fb))
  else if sn <? Z.shiftl 1 (12 + 8 + 8) then
    let sn_opt1 := wrap8 (Z.land (Z.shiftr sn 8) 0xff) in
    let sn_opt2 := wrap8 (Z.land sn 0xff) in
    fb <- or_data0 (Z.land (Z.shiftr sn 24) 0xf) fb ;;
    fb <- set_data 1 (Z.land (Z.shiftr sn 16) 0xff) fb ;;
    add_sn_option fb sn_opt1 (fun fb =>
    add_sn_option fb sn_opt2 (fun fb => Ok (ROHC_OK, fb)))
  else
    let sn_opt1 := wrap8 (Z.land (Z.shiftr sn 16) 0xff) in
    let sn_opt2 := wrap8 (Z.land (Z.shiftr sn 8) 0xff) in
    let sn_opt3 := wrap8 (Z.land sn 0xff) in
    fb <- or_data0 0 fb ;;
    fb <- set_data 1 (Z.land (Z.shiftr sn 24) 0xff) fb ;;
    add_sn_option fb sn_opt1 (fun fb =>
    add_sn_option fb sn_opt2 (fun fb =>
    add_sn_option fb sn_opt3 (fun fb => Ok (ROHC_OK, fb)))).

(** Modelled from the spec: sdvl.c is not among the sources. "SDVL encodes an
    unsigned integer in 1-4 bytes using prefix codes: 0xxxxxxx (7 bits),
    10xxxxxx xxxxxxxx (14 bits), 110xxxxx xxxxxxxx xxxxxxxx (21 bits),
    111xxxxx xxxxxxxx xxxxxxxx xxxxxxxx (29 bits)"; the length detection
    answers 5 for a value that does not fit. *)
Definition c_bytesSdvl (value : Z) : Z :=
  if value <=? 2 ^ 7 - 1 then 1
  else if value <=? 2 ^ 14 - 1 then 2
  else if value <=? 2 ^ 21 - 1 then 3
  else if value <=? 2 ^ 29 - 1 then 4
  else 5.

(** Modelled from the spec: the SDVL prefix codes quoted above; [None] when
    the value cannot be encoded. *)
Definition c_encodeSdvl (value : Z) : option (list Z) :=
  match c_bytesSdvl value with
  | 1 => Some [Z.land value 0x7f]
  | 2 => Some [Z.lor 0x80 (Z.land (Z.shiftr value 8) 0x3f);
               Z.land value 0xff]
  | 3 => Some [Z.lor 0xc0 (Z.land (Z.shiftr value 16) 0x1f);
               Z.land (Z.shiftr value 8) 0xff; Z.land value 0xff]
  | 4 => Some [Z.lor 0xe0 (Z.land (Z.shiftr value 24) 0x1f);
               Z.land (Z.shiftr value 16) 0xff;
               Z.land (Z.shiftr value 8) 0xff; Z.land value 0xff]
  | _ => None
  end.

(** [for(i = n; i > 0; i--) d[i - 1 + k] = d[i - 1];] *)
Fixpoint move_data (k : Z) (i : nat) (d : list Z) : result (list Z) :=
  match i with
  | O => Ok d
  | S j =>
      b <- load d (Z.of_nat j) ;;
      d <- store d (Z.of_nat j + k) b ;;
      move_data k j d
  end.

(** [memcpy(d, src, length src)] onto the start of the array [d]. *)
Fixpoint copy_to (d : list Z) (i : Z) (src : list Z) : result (list Z) :=
  match src with
  | [] => Ok d
  | b :: rest => d <- store d i b ;; copy_to d (i + 1) rest
  end.

(** [f_append_cid]; [acid_alloc] tells whether the [malloc] of the buffer for
    the SDVL-encoded large CID succeeds. *)
Definition f_append_cid (acid_alloc : bool) (feedback : d_feedback) (cid : Z)
    (cid_type : rohc_cid_type_t) : result (Z * d_feedback) :=
  match cid_type with
  | ROHC_LARGE_CID =>
      _ <- assert (cid <=? ROHC_LARGE_CID_MAX) ;;
      let largecidsize := c_bytesSdvl cid in
      _ <- assert ((largecidsize >? 0) && (largecidsize <=? 5)) ;;
      if (largecidsize <=? 0) || (largecidsize >? 4) then Ok (0, feedback)
      else if size feedback + largecidsize >? 30 then Ok (0, feedback)
      else
        _ <- assert (size feedback >=? 1) ;;
        d <- move_data largecidsize (Z.to_nat (size feedback))
               (data feedback) ;;
        let fb := mk_feedback (type feedback) d (size feedback) in
        if negb acid_alloc then Ok (0, set_size 0 fb)
        else
          match c_encodeSdvl cid with
          | None => Ok (0, fb)
          | Some acid =>
              d <- copy_to (data fb) 0 (firstn (Z.to_nat largecidsize) acid) ;;
              Ok (1, mk_feedback (type fb) d (size fb + largecidsize))
          end
  | ROHC_SMALL_CID =>
      _ <- assert (cid <=? ROHC_SMALL_CID_MAX) ;;
      if negb (cid =? 0) then
        _ <- assert (size feedback >=? 1) ;;
        d <- move_data 1 (Z.to_nat (size feedback)) (data feedback) ;;
        let fb := mk_feedback (type feedback) d (size feedback) in
        fb <- set_data 0 0xe0 fb ;;
        d0 <- load (data fb) 0 ;;
        fb <- set_data 0 (Z.lor (Z.land cid 0xf) d0) fb ;;
        Ok (1, set_size (size fb + 1) fb)
      else Ok (1, feedback)
  end.

Section WrapFeedback.

(** crc.c is not among the sources: the CRC routine is a parameter of the
    embedding. [crc_calculate crc_type data length init_val crc_table]. *)
Variable crc_calculate : rohc_crc_type_t -> list Z -> Z -> Z -> list Z -> Z.

(** [f_wrap_feedback]; [packet_alloc] tells whether the [malloc] of the
    returned packet succeeds. The result is [None] for a NULL return and
    otherwise the packet with the value written to [final_size]. *)
Definition f_wrap_feedback (acid_alloc packet_alloc : bool)
    (feedback : d_feedback) (cid : Z) (cid_type : rohc_cid_type_t)
    (with_crc : Z) (crc_table : list Z)
  : result (option (list Z * Z) * d_feedback) :=
  '(appended, fb) <- f_append_cid acid_alloc feedback cid cid_type ;;
  if appended =? 0 then Ok (None, set_size 0 fb)
  else
    r <- (if negb (with_crc =? 0) then
            f_add_option fb OPT_TYPE_CRC None 0
          else Ok (ROHC_OK, fb)) ;;
    match r with
    | (ROHC_ERROR, fb) => Ok (None, set_size 0 fb)
    | (ROHC_OK, fb) =>
        if negb packet_alloc then Ok (None, set_size 0 fb)
        else
          feedback_packet <- memcpy (data fb) (size fb) ;;
          feedback_packet <-
            (if negb (with_crc =? 0) then
               let crc := crc_calculate ROHC_CRC_TYPE_8 feedback_packet
                            (size fb) CRC_INIT_8 crc_table in
               store feedback_packet (size fb - 1) (wrap8 (Z.land crc 0xff))
             else Ok feedback_packet) ;;
          Ok (Some (feedback_packet, size fb), set_size 0 fb)
    end.

End WrapFeedback.

End Feedback.

(** ** The IP header walker (ip.c) *)

Module Ip.

Inductive ip_version : Type :=
| IP_UNKNOWN
| IPV4
| IPV6
| IPV4_MALFORMED
| IPV6_MALFORMED.

(** Modelled from the spec: ip.h is not among the sources. The extension
    headers that the walker knows are "Hop-by-Hop, Destination, Routing and
    Authentication", with the IP protocol numbers of ip_numbers.h (0, 60, 43
    and 51); the IPv4 and IPv6 base headers take 20 and 40 bytes. *)
Definition IPV6_EXT_HOP_BY_HOP : Z := 0.
Definition IPV6_EXT_DESTINATION : Z := 60.
Definition IPV6_EXT_ROUTING : Z := 43.
Definition IPV6_EXT_AUTH : Z := 51.
Definition sizeof_ipv4_hdr : Z := 20.
Definition sizeof_ipv6_hdr : Z := 40.

(** [struct ip_packet]: [header] is the image of the union of the IPv4 and
    IPv6 base headers, [data] points to the packet and [size] is its
    length. *)
Record ip_packet : Type := mk_ip {
  version : ip_version;
  header : list Z;
  data : list Z;
  size : Z
}.

Definition set_version (v : ip_version) (ip : ip_packet) : ip_packet :=
  mk_ip v (header ip) (data ip) (size ip).
Definition set_data_size (d : list Z) (n : Z) (ip : ip_packet) : ip_packet :=
  mk_ip (version ip) (header ip) d n.

(** [memcpy(&ip->header, packet, n)] *)
Definition copy_header (packet : list Z) (n : Z) (ip : ip_packet)
  : result ip_packet :=
  bytes <- memcpy packet n ;;
  Ok (mk_ip (version ip) (bytes ++ skipn (Z.to_nat n) (header ip))
        (data ip) (size ip)).

(** Byte [i] of the header image held in the structure. *)
Definition hdr_byte (ip : ip_packet) (i : nat) : Z := nth i (header ip) 0.

(** [rohc_ntoh16] of the 16-bit field at offset [i] of the header. *)
Definition hdr_ntoh16 (ip : ip_packet) (i : nat) : Z :=
  hdr_byte ip i * 256 + hdr_byte ip (S i).

(** The fields of [struct ipv4_hdr] and [struct ipv6_hdr] that ip.c reads. *)
Definition v4_ihl (ip : ip_packet) : Z := Z.land (hdr_byte ip 0) 0x0f.
Definition v4_tot_len (ip : ip_packet) : Z := hdr_ntoh16 ip 2.
Definition v4_protocol (ip : ip_packet) : Z := hdr_byte ip 9.
Definition v6_ip6_plen (ip : ip_packet) : Z := hdr_ntoh16 ip 4.
Definition v6_ip6_nxt (ip : ip_packet) : Z := hdr_byte ip 6.

(** [get_ip_version]: [None] when the function returns 0. *)
Definition get_ip_version (packet : list Z) (size : Z)
  : result (option ip_version) :=
  if size <=? 0 then Ok None
  else
    b <- load packet 0 ;;
    Ok (Some (match Z.land (Z.shiftr b 4) 0x0f with
              | 4 => IPV4
              | 6 => IPV6
              | _ => IP_UNKNOWN
              end)).

(** [ip_get_hdrlen] *)
Definition ip_get_hdrlen (ip : ip_packet) : result Z :=
  match version ip with
  | IPV4 => Ok (v4_ihl ip * 4)
  | IPV6 => Ok sizeof_ipv6_hdr
  | _ => Fault AssertFailure
  end.

(** [ip_get_totlen]; the result goes through a [uint16_t] local. *)
Definition ip_get_totlen (ip : ip_packet) : Z :=
  match version ip with
  | IPV4 => wrap16 (v4_tot_len ip)
  | IPV6 => wrap16 (sizeof_ipv6_hdr + v6_ip6_plen ip)
  | _ => wrap16 (size ip)
  end.

(** The [malformed] label of [ip_create]. *)
Definition ip_create_malformed (ip : ip_packet) (packet : list Z) (size : Z)
  : Z * ip_packet :=
  match version ip with
  | IPV4 => (1, set_data_size packet size (set_version IPV4_MALFORMED ip))
  | IPV6 => (1, set_data_size packet size (set_version IPV6_MALFORMED ip))
  | _ => (0, ip)
  end.

(** [ip_create] *)
Definition ip_create (ip : ip_packet) (packet : list Z) (size : Z)
  : result (Z * ip_packet) :=
  v <- get_ip_version packet size ;;
  match v with
  | None => Ok (0, ip)
  | Some ver =>
      let ip := set_version ver ip in
      match ver with
      | IPV4 =>
          if size <? sizeof_ipv4_hdr
          then Ok (ip_create_malformed ip packet size)
          else
            ip <- copy_header packet sizeof_ipv4_hdr ip ;;
            hdrlen <- ip_get_hdrlen ip ;;
            if (hdrlen <? sizeof_ipv4_hdr) || (hdrlen >? size)
            then Ok (ip_create_malformed ip packet size)
            else if negb (ip_get_totlen ip =? size)
            then Ok (ip_create_malformed ip packet size)
            else Ok (1, set_data_size packet size ip)
      | IPV6 =>
          if size <? sizeof_ipv6_hdr
          then Ok (ip_create_malformed ip packet size)
          else
            ip <- copy_header packet sizeof_ipv6_hdr ip ;;
            if negb (ip_get_totlen ip =? size)
            then Ok (ip_create_malformed ip packet size)
            else Ok (1, set_data_size packet size ip)
      | _ => Ok (1, set_data_size packet size (set_version IP_UNKNOWN ip))
      end
  end.

(** [ip_get_next_header]: the type and the address of the next header. *)
Definition ip_get_next_header (ip : ip_packet) : result (Z * list Z) :=
  match version ip with
  | IPV4 => Ok (v4_protocol ip, ptr_add (data ip) sizeof_ipv4_hdr)
  | IPV6 => Ok (v6_ip6_nxt ip, ptr_add (data ip) sizeof_ipv6_hdr)
  | _ => Fault AssertFailure
  end.

(** The four cases of the extension header tests. *)
Definition is_ipv6_ext (t : Z) : bool :=
  (t =? IPV6_EXT_HOP_BY_HOP) || (t =? IPV6_EXT_DESTINATION)
  || (t =? IPV6_EXT_ROUTING) || (t =? IPV6_EXT_AUTH).

(** The [while] loop of [ip_get_next_layer]. Every turn reads two bytes and
    moves the pointer forward by 8 bytes at least, so the loop takes fewer
    turns than there are bytes left: with that many turns of [fuel] it never
    stops for lack of fuel. *)
Fixpoint skip_extensions (fuel : nat) (next_header_type : Z)
    (next_header : list Z) : result (list Z) :=
  if is_ipv6_ext next_header_type then
    match fuel with
    | O => Fault OutOfFuel
    | S fuel' =>
        t <- load next_header 0 ;;
        length <- load next_header 1 ;;
        skip_extensions fuel' t (ptr_add next_header ((length + 1) * 8))
    end
  else Ok next_header.

(** [ip_get_next_layer] *)
Definition ip_get_next_layer (ip : ip_packet) : result (list Z) :=
  '(next_header_type, next_header) <- ip_get_next_header ip ;;
  match version ip with
  | IPV6 =>
      skip_extensions (S (List.length next_header)) next_header_type
        next_header
  | _ => Ok next_header
  end.

(** [ip_get_next_ext_from_ip]: [None] for a NULL result. *)
Definition ip_get_next_ext_from_ip (ip : ip_packet)
  : result (option (list Z) * Z) :=
  match version ip with
  | IP_UNKNOWN => Fault AssertFailure
  | IPV6 =>
      '(t, next_header) <- ip_get_next_header ip ;;
      if is_ipv6_ext t then Ok (Some next_header, t) else Ok (None, t)
  | _ => Ok (None, 0)
  end.

(** [ip_get_next_ext_from_ext]: [None] for a NULL result. *)
Definition ip_get_next_ext_from_ext (ext : list Z)
  : result (option (list Z) * Z) :=
  t <- load ext 0 ;;
  if is_ipv6_ext t then
    length <- load ext 1 ;;
    Ok (Some (ptr_add ext ((length + 1) * 8)), t)
  else Ok (None, t).

(** [ip_get_extension_size] *)
Definition ip_get_extension_size (ext : list Z) : result Z :=
  ext_length <- load ext 1 ;;
  Ok (wrap16 ((ext_length + 1) * 8)).

(** The [while] loop of [ip_get_total_extension_size]. *)
Fixpoint sum_extensions (fuel : nat) (ext : option (list Z))
    (total_ext_size : Z) : result Z :=
  match ext with
  | None => Ok total_ext_size
  | Some e =>
      match fuel with
      | O => Fault OutOfFuel
      | S fuel' =>
          sz <- ip_get_extension_size e ;;
          '(next, _) <- ip_get_next_ext_from_ext e ;;
          sum_extensions fuel' next (wrap16 (total_ext_size + sz))
      end
  end.

(** [ip_get_total_extension_size] *)
Definition ip_get_total_extension_size (ip : ip_packet) : result Z :=
  '(ext, _) <- ip_get_next_ext_from_ip ip ;;
  sum_extensions (S (List.length (data ip))) ext 0.

(** [ip_get_plen] *)
Definition ip_get_plen (ip : ip_packet) : result Z :=
  match version ip with
  | IPV4 => Ok (wrap32 (v4_tot_len ip - v4_ihl ip * 4))
  | IPV6 =>
      ext_size <- ip_get_total_extension_size ip ;;
      Ok (wrap32 (v6_ip6_plen ip - ext_size))
  | _ => Fault AssertFailure
  end.

(** [ext_get_protocol], a recursive function in the source. *)
Fixpoint ext_get_protocol (fuel : nat) (ext : list Z) : result Z :=
  t <- load ext 0 ;;
  length <- load ext 1 ;;
  if is_ipv6_ext t then
    match fuel with
    | O => Fault OutOfFuel
    | S fuel' => ext_get_protocol fuel' (ptr_add ext ((length + 1) * 8))
    end
  else Ok t.

(** [ip_get_protocol] *)
Definition ip_get_protocol (ip : ip_packet) : result Z :=
  match version ip with
  | IPV4 => Ok (v4_protocol ip)
  | IPV6 =>
      let next_header_type := v6_ip6_nxt ip in
      if is_ipv6_ext next_header_type then
        let next_header := ptr_add (data ip) sizeof_ipv6_hdr in
        ext_get_protocol (List.length next_header) next_header
      else Ok next_header_type
  | _ => Ok 0
  end.

(** A [struct ip_packet] local variable before its initialisation. *)
Definition ip_uninitialized : ip_packet := mk_ip IP_UNKNOWN [] [] 0.

(** [ip_get_inner_packet] *)
Definition ip_get_inner_packet (outer inner : ip_packet)
  : result (Z * ip_packet) :=
  next_header <- ip_get_next_layer outer ;;
  plen <- ip_get_plen outer ;;
  ip_create inner next_header plen.

End Ip.

(** ** The ESP compression profile (c_esp.c) *)

Module Esp.

Import Ip.

Definition ROHC_IPPROTO_IPIP : Z := 4.
Definition ROHC_IPPROTO_IPV6 : Z := 41.
Definition ROHC_IPPROTO_ESP : Z := 50.

(** Modelled from the spec: rohc_packet.h is not among the sources. The
    packet types are the "recognized packet shapes" of the packet format
    codec. *)
Inductive rohc_packet_t : Type :=
| PACKET_IR
| PACKET_IR_DYN
| PACKET_UO_0
| PACKET_UO_1
| PACKET_UO_1_RTP
| PACKET_UO_1_ID
| PACKET_UO_1_TS
| PACKET_UOR_2
| PACKET_UOR_2_RTP
| PACKET_UNKNOWN.

Definition is_ir_or_ir_dyn (t : rohc_packet_t) : bool :=
  match t with
  | PACKET_IR | PACKET_IR_DYN => true
  | _ => false
  end.

(** Modelled from the spec: protocols/esp.h is not among the sources. The ESP
    header that the profile stores is the SPI (static part, 4 octets)
    followed by the sequence number (dynamic part, 4 octets); each field is
    kept as its 4 bytes in memory order. *)
Record esphdr : Type := mk_esphdr {
  spi : list Z;
  sn : list Z
}.

Definition sizeof_esphdr : Z := 8.

(** The [struct esphdr] that [memcpy(&old_esp, esp, sizeof(struct esphdr))]
    stores. *)
Definition read_esphdr (esp : list Z) : result esphdr :=
  bytes <- memcpy esp sizeof_esphdr ;;
  Ok (mk_esphdr (firstn 4 bytes) (skipn 4 bytes)).

(** [struct sc_esp_context] *)
Record sc_esp_context : Type := mk_sc_esp {
  old_esp : esphdr
}.

(** The compression context as [c_esp_encode] sees it: the packet type that
    the generic encoder leaves in [g_context->tmp.packet_type], the ESP part
    [g_context->specific], and everything else of [struct c_context] and
    [struct c_generic_context] (c_generic.h is not among the sources) as a
    value of a type [G] that stays abstract. *)
Record c_context (G : Type) : Type := mk_context {
  tmp_packet_type : rohc_packet_t;
  specific : sc_esp_context;
  generic : G
}.

Arguments mk_context {G} _ _ _.
Arguments tmp_packet_type {G} _.
Arguments specific {G} _.
Arguments generic {G} _.

Definition set_old_esp {G : Type} (h : esphdr) (c : c_context G)
  : c_context G :=
  mk_context (tmp_packet_type c) (mk_sc_esp h) (generic c).

(** The SPI that [c_esp_check_context] compares the SPI of a packet with:
    the left operand of its last test, [esp_context->old_esp.spi]. *)
Definition reference_spi {G : Type} (c : c_context G) : list Z :=
  spi (old_esp (specific c)).

(** What an encoding function hands back: the return value, the context, the
    ROHC packet under build and the two OUT parameters. *)
Record encoded (G : Type) : Type := mk_encoded {
  enc_size : Z;
  enc_context : c_context G;
  enc_dest : list Z;
  enc_packet_type : rohc_packet_t;
  enc_payload_offset : Z
}.

Arguments mk_encoded {G} _ _ _ _ _.
Arguments enc_size {G} _.
Arguments enc_context {G} _.
Arguments enc_dest {G} _.
Arguments enc_packet_type {G} _.
Arguments enc_payload_offset {G} _.

Section Encode.

Variable G : Type.

(** c_generic.c is not among the sources: the generic encoder is a parameter
    of the embedding.
    [c_generic_encode context ip packet_size dest dest_size packet_type
    payload_offset]. *)
Variable c_generic_encode :
  c_context G -> ip_packet -> Z -> list Z -> Z -> rohc_packet_t -> Z ->
  result (encoded G).

(** The search of the last IP header at the start of [c_esp_encode]: [None]
    when the inner IP header cannot be created. *)
Definition last_ip_header_of (ip : ip_packet)
  : result (option (ip_packet * Z)) :=
  ip_proto <- ip_get_protocol ip ;;
  if (ip_proto =? ROHC_IPPROTO_IPIP) || (ip_proto =? ROHC_IPPROTO_IPV6) then
    '(created, ip2) <- ip_get_inner_packet ip ip_uninitialized ;;
    if created =? 0 then Ok None
    else
      ip_proto <- ip_get_protocol ip2 ;;
      Ok (Some (ip2, ip_proto))
  else Ok (Some (ip, ip_proto)).

(** [c_esp_encode] *)
Definition c_esp_encode (context : c_context G) (ip : ip_packet)
    (packet_size : Z) (dest : list Z) (dest_size : Z)
    (packet_type : rohc_packet_t) (payload_offset : Z)
  : result (encoded G) :=
  let failure := mk_encoded (-1) context dest packet_type payload_offset in
  last <- last_ip_header_of ip ;;
  match last with
  | None => Ok failure
  | Some (last_ip_header, ip_proto) =>
      if negb (ip_proto =? ROHC_IPPROTO_ESP) then Ok failure
      else
        esp <- ip_get_next_layer last_ip_header ;;
        e <- c_generic_encode context ip packet_size dest dest_size
               packet_type payload_offset ;;
        if enc_size e <? 0 then Ok e
        else if is_ir_or_ir_dyn (tmp_packet_type (enc_context e)) then
          hdr <- read_esphdr esp ;;
          Ok (mk_encoded (enc_size e) (set_old_esp hdr (enc_context e))
                (enc_dest e) (enc_packet_type e) (enc_payload_offset e))
        else Ok e
  end.

End Encode.

End Esp.

(** * Statements about the scaled RTP timestamp encoder *)

Module TsScSpec.

Import TsSc.

(** What the [assert]s of [c_add_ts] require of the encoder it is given. *)
Definition ts_sc_asserts (s : ts_sc_comp) : Prop :=
  (are_old_val_init s = false -> state s = INIT_TS) /\
  (state s = SEND_SCALED -> ts_stride s <> 0).

(** The invariant of the encoder: the timestamp is a [uint32_t] and the
    sequence number a [uint16_t], the state is INIT_TS as long as no old
    value is recorded, and outside INIT_TS the stride is positive, TS_OFFSET
    is the timestamp modulo the stride and TS_SCALED is the quotient. *)
Definition ts_sc_inv (s : ts_sc_comp) : Prop :=
  uint32 (ts s) /\
  uint16 (sn s) /\
  (are_old_val_init s = false -> state s = INIT_TS) /\
  (state s <> INIT_TS ->
   0 < ts_stride s /\
   ts_offset s = ts s mod ts_stride s /\
   ts_scaled s = wrap32 (ts s - ts_offset s) / ts_stride s).

(** What [c_add_ts] leaves in [is_deducible]. *)
Definition deducible_flag (s : ts_sc_comp) (new_sn : Z) (s' : ts_sc_comp)
  : Prop :=
  (state s' = SEND_SCALED ->
   (is_deducible s' = true <->
    ts_scaled s' - ts_scaled s = new_sn - sn s)) /\
  (state s' <> SEND_SCALED -> is_deducible s' = false).

(** Modelled from the spec: the RTP profile (c_rtp.c), which drives the
    encoder, is not among the sources. "States: INIT_TS, INIT_STRIDE,
    SEND_SCALED (linear, one back-edge)", "INIT_STRIDE: ... must transmit
    STRIDE uncompressed L times", and "the TS_SCALED encoder is in
    SEND_SCALED state only after TS_STRIDE has been transmitted at least L
    times": between two calls of [c_add_ts] the profile counts the packets
    sent in INIT_STRIDE, moves the encoder from INIT_STRIDE to SEND_SCALED,
    and may send it back from SEND_SCALED to INIT_STRIDE. *)
Inductive reachable : ts_sc_comp -> Prop :=
| reach_create : reachable c_create_sc
| reach_add_ts (s s' : ts_sc_comp) (new_ts new_sn : Z) :
    reachable s -> uint32 new_ts -> uint16 new_sn ->
    c_add_ts s new_ts new_sn = Ok s' -> reachable s'
| reach_count (s : ts_sc_comp) (n : Z) :
    reachable s -> reachable (set_nr_init_stride_packets n s)
| reach_send_scaled (s : ts_sc_comp) :
    reachable s -> state s = INIT_STRIDE ->
    reachable (set_state SEND_SCALED s)
| reach_init_stride (s : ts_sc_comp) :
    reachable s -> state s = SEND_SCALED ->
    reachable (set_state INIT_STRIDE s).

(** A call of [c_add_ts] that reaches the SEND_SCALED branch: old values are
    recorded and the TS delta is neither zero nor too large for SDVL. *)
Definition send_scaled_call (s : ts_sc_comp) (new_ts : Z) : Prop :=
  state s = SEND_SCALED /\
  are_old_val_init s = true /\
  ts_stride s <> 0 /\
  abs_delta new_ts (ts s) <> 0 /\
  sdvl_can_value_be_encoded (abs_delta new_ts (ts s)) = true.

(** The transitions out of SEND_SCALED, with the test of the SN progression
    applied to every delta that is a multiple of the stride. *)
Definition send_scaled_transitions_any_multiple
    (s : ts_sc_comp) (new_ts new_sn : Z) : Prop :=
  send_scaled_call s new_ts ->
  let delta := abs_delta new_ts (ts s) in
  exists s',
    c_add_ts s new_ts new_sn = Ok s' /\
    (delta mod ts_stride s <> 0 ->
     state s' = INIT_STRIDE /\ nr_init_stride_packets s' = 0 /\
     ts_stride s' = delta) /\
    (delta mod ts_stride s = 0 ->
     delta / ts_stride s <> sn_increment new_sn (sn s) ->
     state s' = INIT_STRIDE /\ ts_stride s' = ts_stride s /\
     nr_init_stride_packets s' = 0) /\
    (new_ts < ts s -> ts_offset s' <> ts_offset s ->
     state s' = INIT_STRIDE /\ nr_init_stride_packets s' = 0) /\
    (delta mod ts_stride s = 0 ->
     delta / ts_stride s = sn_increment new_sn (sn s) ->
     ~ (new_ts < ts s /\ ts_offset s' <> ts_offset s) ->
     state s' = SEND_SCALED).

(** The same transitions, with the test of the SN progression applied only
    to a delta that differs from the stride, as the source does. *)
Definition send_scaled_transitions
    (s : ts_sc_comp) (new_ts new_sn : Z) : Prop :=
  let delta := abs_delta new_ts (ts s) in
  exists s',
    c_add_ts s new_ts new_sn = Ok s' /\
    (delta mod ts_stride s <> 0 ->
     state s' = INIT_STRIDE /\ nr_init_stride_packets s' = 0 /\
     ts_stride s' = delta) /\
    (delta <> ts_stride s -> delta mod ts_stride s = 0 ->
     delta / ts_stride s <> sn_increment new_sn (sn s) ->
     state s' = INIT_STRIDE /\ ts_stride s' = ts_stride s /\
     nr_init_stride_packets s' = 0) /\
    (new_ts < ts s -> ts_offset s' <> ts_offset s ->
     state s' = INIT_STRIDE /\ nr_init_stride_packets s' = 0) /\
    (delta mod ts_stride s = 0 ->
     delta = ts_stride s \/
     delta / ts_stride s = sn_increment new_sn (sn s) ->
     ~ (new_ts < ts s /\ ts_offset s' <> ts_offset s) ->
     state s' = SEND_SCALED).

(** The three reasons for which [c_add_ts] gives up the stride. *)
Definition init_ts_condition (s : ts_sc_comp) (new_ts : Z) : Prop :=
  are_old_val_init s = false \/
  abs_delta new_ts (ts s) = 0 \/
  sdvl_can_value_be_encoded (abs_delta new_ts (ts s)) = false.

(** The state in which [c_add_ts] leaves the encoder, as far as INIT_TS is
    concerned. *)
Definition init_ts_transitions (s : ts_sc_comp) (new_ts new_sn : Z) : Prop :=
  exists s',
    c_add_ts s new_ts new_sn = Ok s' /\
    (state s' = INIT_TS <-> init_ts_condition s new_ts) /\
    (state s = INIT_TS -> ~ init_ts_condition s new_ts ->
     state s' = INIT_STRIDE /\ nr_init_stride_packets s' = 0).

(** An encoder in INIT_TS that has seen one packet, with TS 2000 and
    SN 1000. *)
Definition one_packet_seen : ts_sc_comp :=
  mk_ts_sc 0 0 0 2000 0 1000 0 false INIT_TS true 0 0.

(** An encoder in SEND_SCALED with stride 160 at TS 320 and SN 10. *)
Definition scaled_160 : ts_sc_comp :=
  mk_ts_sc 160 2 0 320 160 10 9 true SEND_SCALED true 3 160.

End TsScSpec.

(** * Statements about the feedback builder *)

Module FeedbackSpec.

Import Feedback.

(** The [data] array of the structure has its declared capacity. *)
Definition data_is_array (fb : d_feedback) : Prop :=
  Z.of_nat (length (data fb)) = FEEDBACK_DATA_MAX_LEN.

(** The number of SN options that FEEDBACK-2 needs for an SN. *)
Definition sn_options_count (sn : Z) : Z :=
  if sn <? 2 ^ 12 then 0
  else if sn <? 2 ^ 20 then 1
  else if sn <? 2 ^ 28 then 2
  else 3.

(** The SN bits of the first octet, the second octet, and the data bytes of
    the SN options, for an SN sent with [n] options. *)
Definition sn_top4 (sn n : Z) : Z := Z.land (Z.shiftr sn (8 + 8 * n)) 0xf.
Definition sn_second (sn n : Z) : Z := Z.land (Z.shiftr sn (8 * n)) 0xff.
Fixpoint sn_option_bytes (sn : Z) (n : nat) : list Z :=
  match n with
  | O => []
  | S m => Z.land (Z.shiftr sn (8 * Z.of_nat m)) 0xff :: sn_option_bytes sn m
  end.

(** An option with one byte of data on the wire: the octet with the option
    type and the length 1, then the data byte. *)
Definition option_with_byte (opt_type b : Z) : list Z :=
  [Z.lor (Z.shiftl opt_type 4) 1; b].

(** The first octet of FEEDBACK-2. *)
Definition feedback2_first_octet (acktype mode top4 : Z) : Z :=
  Z.lor (Z.lor (Z.shiftl (Z.land acktype 3) 6) (Z.shiftl (Z.land mode 3) 4))
        top4.

(** Big-endian concatenation of a 4-bit field and of bytes. *)
Definition be_concat (top4 : Z) (bytes : list Z) : Z :=
  fold_left (fun acc b => acc * 256 + b) bytes top4.

(** The FEEDBACK-2 element that [f_feedback2] builds: the return code, the
    layout of the element and the value of its SN bits. *)
Definition feedback2_layout (acktype mode sn : Z) (fb : d_feedback) : Prop :=
  let n := sn_options_count sn in
  let opts := sn_option_bytes sn (Z.to_nat n) in
  exists fb',
    f_feedback2 acktype mode sn fb = Ok (ROHC_OK, fb') /\
    type fb' = 2 /\
    size fb' = 2 + 2 * n /\
    packet_bytes fb'
    = feedback2_first_octet acktype mode (sn_top4 sn n)
      :: sn_second sn n :: flat_map (option_with_byte OPT_TYPE_SN) opts /\
    Z.of_nat (length opts) = n /\
    (n = 0 <-> sn < 2 ^ 12) /\
    (n = 1 <-> 2 ^ 12 <= sn < 2 ^ 20) /\
    (n = 2 <-> 2 ^ 20 <= sn < 2 ^ 28) /\
    (n = 3 <-> 2 ^ 28 <= sn) /\
    be_concat (sn_top4 sn n) (sn_second sn n :: opts) = sn.

(** [f_append_cid] with a small CID in [1, 15]: one add-CID octet in front
    of the bytes of the packet. *)
Definition small_cid_prepended (fb : d_feedback) (cid : Z) : Prop :=
  forall acid_alloc,
  exists fb',
    f_append_cid acid_alloc fb cid ROHC_SMALL_CID = Ok (1, fb') /\
    type fb' = type fb /\
    length (data fb') = length (data fb) /\
    size fb' = size fb + 1 /\
    packet_bytes fb' = Z.lor 0xe0 cid :: packet_bytes fb.

(** [f_append_cid] with the small CID 0: nothing changes. *)
Definition small_cid_zero_unchanged (fb : d_feedback) : Prop :=
  forall acid_alloc,
    f_append_cid acid_alloc fb 0 ROHC_SMALL_CID = Ok (1, fb).

(** [f_append_cid] with a small CID in [1, 15] on a packet that fills the
    array: the first turn of the loop that makes room for the add-CID octet
    copies [data[size - 1]] to [data[size]], one byte after the end of the
    array, so the run is not a defined one. The branch of the large CID, in
    the same function, tests the room before it moves anything and returns 0
    with the packet as it was. *)
Definition small_cid_overruns_array (fb : d_feedback) (cid : Z) : Prop :=
  (exists b,
     load (data fb) (size fb - 1) = Ok b /\
     store (data fb) (size fb) b = Fault OutOfBounds) /\
  (forall acid_alloc,
     f_append_cid acid_alloc fb cid ROHC_SMALL_CID = Fault OutOfBounds) /\
  (forall acid_alloc large_cid,
     0 <= large_cid <= ROHC_LARGE_CID_MAX ->
     f_append_cid acid_alloc fb large_cid ROHC_LARGE_CID = Ok (0, fb)).

(** A packet that ends with a CRC option whose data byte is the CRC-8 of
    the whole packet taken with a zero data byte. *)
Definition crc_option_at_end
    (crc_calculate : rohc_crc_type_t -> list Z -> Z -> Z -> list Z -> Z)
    (crc_table : list Z) (packet : list Z) (final_size : Z) : Prop :=
  exists body,
    packet
    = body ++ option_with_byte OPT_TYPE_CRC
                (Z.land (crc_calculate ROHC_CRC_TYPE_8
                           (body ++ option_with_byte OPT_TYPE_CRC 0)
                           final_size CRC_INIT_8 crc_table) 0xff) /\
    final_size = Z.of_nat (length packet).

(** The largest CID of a CID type and the most bytes that its encoding in
    front of a feedback packet takes. *)
Definition cid_max (cid_type : rohc_cid_type_t) : Z :=
  match cid_type with
  | ROHC_SMALL_CID => ROHC_SMALL_CID_MAX
  | ROHC_LARGE_CID => ROHC_LARGE_CID_MAX
  end.
Definition cid_bytes_max (cid_type : rohc_cid_type_t) : Z :=
  match cid_type with
  | ROHC_SMALL_CID => 1
  | ROHC_LARGE_CID => 2
  end.


(** The array of a [struct d_feedback] that was just allocated and zeroed. *)
Definition zero_feedback : d_feedback :=
  mk_feedback 0 (repeat 0 30) 0.

(** [n] options without data added to a FEEDBACK-2 packet. *)
Fixpoint add_empty_options (n : nat) (opt_type : Z) (fb : d_feedback)
  : result d_feedback :=
  match n with
  | O => Ok fb
  | S m =>
      '(_, fb) <- f_add_option fb opt_type None 0 ;;
      add_empty_options m opt_type fb
  end.

(** A FEEDBACK-2 packet that fills the array: an ACK for SN 0 followed by 28
    SN-NOT-VALID options. *)
Definition full_feedback : d_feedback :=
  mk_feedback 2 ([0; 0] ++ repeat 0x30 28) 30.

(** Modelled from the spec: crc.c is not among the sources. "Precomputed
    tables for the polynomials", CRC-8 with polynomial 0xE0 and initial value
    0xFF; the table-driven CRC is used to instantiate the CRC parameter on
    concrete packets only. *)
Definition crc_table_entry (poly : Z) (i : Z) : Z :=
  Nat.iter 8 (fun crc => if Z.testbit crc 0
                         then Z.lxor (Z.shiftr crc 1) poly
                         else Z.shiftr crc 1) i.
Definition crc_init_table (poly : Z) : list Z :=
  map (fun i => crc_table_entry poly (Z.of_nat i)) (seq 0 256).
Definition crc_calculate_tables (crc_type : rohc_crc_type_t) (bytes : list Z)
    (length init_val : Z) (crc_table : list Z) : Z :=
  fold_left (fun crc b => nth (Z.to_nat (Z.lxor b crc)) crc_table 0)
    (firstn (Z.to_nat length) bytes) init_val.

End FeedbackSpec.

(** * Statements about the IP header walker *)

Module IpSpec.

Import Ip.

(** The version nibble of a packet. *)
Definition version_nibble (packet : list Z) : Z :=
  Z.land (Z.shiftr (nth 0 packet 0) 4) 0x0f.

(** An IPv4 packet has good lengths when it holds a base header, when its
    header length is at least that of the base header and at most the packet
    length, and when its Total Length field is the packet length. *)
Definition ipv4_lengths_ok (packet : list Z) (size : Z) : bool :=
  (20 <=? size)
  && (20 <=? Z.land (nth 0 packet 0) 0x0f * 4)
  && (Z.land (nth 0 packet 0) 0x0f * 4 <=? size)
  && (wrap16 (nth 2 packet 0 * 256 + nth 3 packet 0) =? size).

(** An IPv6 packet has a consistent length when it holds a base header and
    when 40 plus its Payload Length field is the packet length. *)
Definition ipv6_length_ok (packet : list Z) (size : Z) : bool :=
  (40 <=? size)
  && (wrap16 (40 + (nth 4 packet 0 * 256 + nth 5 packet 0)) =? size).

(** The classification of a buffer of at least one byte. *)
Definition classify (packet : list Z) (size : Z) : ip_version :=
  match version_nibble packet with
  | 4 => if ipv4_lengths_ok packet size then IPV4 else IPV4_MALFORMED
  | 6 => if ipv6_length_ok packet size then IPV6 else IPV6_MALFORMED
  | _ => IP_UNKNOWN
  end.

(** What [ip_create] answers for a buffer that holds [size] bytes. *)
Definition ip_create_classifies (ip : ip_packet) (packet : list Z) (size : Z)
  : Prop :=
  (size = 0 -> ip_create ip packet size = Ok (0, ip)) /\
  (1 <= size ->
   exists ip',
     ip_create ip packet size = Ok (1, ip') /\
     version ip' = classify packet size /\
     data ip' = packet /\
     Ip.size ip' = size).

(** An IPv6 packet of 40 bytes, without payload, whose Next Header field
    announces a Hop-by-Hop extension header. *)
Definition ipv6_hop_by_hop_no_payload : list Z :=
  [0x60; 0; 0; 0; 0; 0; 0; 64] ++ repeat 0 32.

(** A run of the extension walker reads outside the packet. *)
Definition reads_past_packet {A : Type} (r : result A) : Prop :=
  r = Fault OutOfBounds.

End IpSpec.

(** * Statements about the ESP profile *)

Module EspSpec.

Import Ip Esp.

(** The generic encoder does not write the ESP part of the context. *)
Definition leaves_esp_part (G : Type)
    (c_generic_encode :
       c_context G -> ip_packet -> Z -> list Z -> Z -> rohc_packet_t -> Z ->
       result (encoded G)) : Prop :=
  forall context ip packet_size dest dest_size packet_type payload_offset e,
    c_generic_encode context ip packet_size dest dest_size packet_type
      payload_offset = Ok e ->
    specific (enc_context e) = specific context.

(** The ESP header of a packet, as [c_esp_encode] finds it: the last IP
    header carries the protocol ESP, and the header is made of the eight
    bytes at the address that [ip_get_next_layer] returns for that IP header,
    the SPI first and the sequence number after it. *)
Definition esp_header_of (ip : ip_packet) (hdr : esphdr) : Prop :=
  exists last esp,
    last_ip_header_of ip = Ok (Some (last, ROHC_IPPROTO_ESP)) /\
    ip_get_next_layer last = Ok esp /\
    (8 <= length esp)%nat /\
    hdr = mk_esphdr (firstn 4 esp) (firstn 4 (skipn 4 esp)).

(** What a run of [c_esp_encode] on the packet [ip] does to the stored ESP
    header: after a successful encoding as IR or IR-DYN it is the ESP header
    of the packet; after any other packet type, and after a failure, it is
    the one of before. *)
Definition old_esp_updated_on_ir_only (G : Type) (context : c_context G)
    (ip : ip_packet) (e : encoded G) : Prop :=
  (0 <= enc_size e ->
   is_ir_or_ir_dyn (tmp_packet_type (enc_context e)) = true ->
   esp_header_of ip (old_esp (specific (enc_context e)))) /\
  (is_ir_or_ir_dyn (tmp_packet_type (enc_context e)) = false ->
   old_esp (specific (enc_context e)) = old_esp (specific context) /\
   reference_spi (enc_context e) = reference_spi context) /\
  (enc_size e < 0 ->
   old_esp (specific (enc_context e)) = old_esp (specific context) /\
   reference_spi (enc_context e) = reference_spi context).

(** An IPv6/ESP packet: 40 bytes of IPv6 header with Next Header 50 and
    Payload Length 8, then the SPI 0xDEADBEEF and the sequence number 1; and
    the structure that [ip_create] makes of it. *)
Definition ipv6_esp_packet : list Z :=
  [0x60; 0; 0; 0; 0; 8; 50; 64] ++ repeat 0 32
  ++ [0xde; 0xad; 0xbe; 0xef; 0; 0; 0; 1].
Definition ipv6_esp : ip_packet :=
  mk_ip IPV6 (firstn 40 ipv6_esp_packet) ipv6_esp_packet 48.

(** A generic encoder for examples: it answers with a packet of the type it
    is asked for and writes nothing else. *)
Definition fixed_generic_encode (chosen : rohc_packet_t) (size : Z)
    (context : c_context unit) (ip : ip_packet) (packet_size : Z)
    (dest : list Z) (dest_size : Z) (packet_type : rohc_packet_t)
    (payload_offset : Z) : result (encoded unit) :=
  Ok (mk_encoded size (mk_context chosen (specific context) tt) dest chosen
        payload_offset).

(** A context whose stored ESP header has the SPI 0x01020304. *)
Definition esp_context_0 : c_context unit :=
  mk_context PACKET_UNKNOWN (mk_sc_esp (mk_esphdr [1; 2; 3; 4] [0; 0; 0; 0]))
    tt.

End EspSpec.

(** * Further statements about the scaled RTP timestamp encoder *)

Module TsScExamples.

Import TsSc.

(** An encoder in INIT_STRIDE that has sent the stride 160 twice, at TS 320
    and SN 10. *)
Definition stride_160_sent_twice : ts_sc_comp :=
  mk_ts_sc 160 2 0 320 160 10 9 false INIT_STRIDE true 2 160.

End TsScExamples.

(** * Further statements about the feedback builder *)

Module FeedbackFormats.

Import Feedback.

(** The octet that [f_add_option] writes in front of an option: the low four
    bits of the option type in the high nibble, the length of the data in
    the low nibble. *)
Definition option_header (opt_type len : Z) : Z :=
  Z.lor (Z.shiftl (Z.land opt_type 0xf) 4) len.

(** The bytes that [f_append_cid] puts in front of a feedback packet:
    nothing for the small CID 0, the add-CID octet for another small CID, and
    the SDVL-encoded CID for a large CID. *)
Definition cid_prefix (cid : Z) (cid_type : rohc_cid_type_t) : list Z :=
  match cid_type with
  | ROHC_SMALL_CID => if cid =? 0 then [] else [Z.lor 0xe0 cid]
  | ROHC_LARGE_CID =>
      match c_encodeSdvl cid with
      | Some acid => acid
      | None => []
      end
  end.

(** A FEEDBACK-2 element of two bytes in an array of 30 bytes. *)
Definition ack_feedback : d_feedback :=
  mk_feedback 2 ([0x51; 0x23] ++ repeat 0 28) 2.

(** A FEEDBACK-2 element that leaves one byte free in the array. *)
Definition nearly_full_feedback : d_feedback :=
  mk_feedback 2 ([0; 0] ++ repeat 0x30 27 ++ [0]) 29.

End FeedbackFormats.

(** ** The IP header accessors (ip.c) *)

Module IpFields.

Import Ip.

(** A store of one byte in the header image held in the structure. *)
Definition set_hdr_byte (i : nat) (v : Z) (ip : ip_packet) : ip_packet :=
  mk_ip (version ip) (Feedback.list_set (header ip) i v) (data ip) (size ip).

(** [struct ipv4_hdr] and [struct ipv6_hdr] (ip.h, not among the sources)
    are the images of the headers of the packet, onto which [ip_create]
    copies its first bytes: the Time To Live is the octet 8 of the IPv4
    header, next to the Protocol in the octet 9, and the Hop Limit is the
    octet 7 of the IPv6 header, next to the Next Header in the octet 6. *)
Definition v4_ttl (ip : ip_packet) : Z := hdr_byte ip 8.
Definition v6_ip6_hlim (ip : ip_packet) : Z := hdr_byte ip 7.

(** [ip_get_raw_data] *)
Definition ip_get_raw_data (ip : ip_packet) : list Z := data ip.

(** [ip_get_version] and [ip_set_version] *)
Definition ip_get_version (ip : ip_packet) : ip_version := version ip.
Definition ip_set_version (ip : ip_packet) (value : ip_version) : ip_packet :=
  set_version value ip.

(** [ip_set_protocol] *)
Definition ip_set_protocol (ip : ip_packet) (value : Z) : result ip_packet :=
  match version ip with
  | IPV4 => Ok (set_hdr_byte 9 (Z.land value 0xff) ip)
  | IPV6 => Ok (set_hdr_byte 6 (Z.land value 0xff) ip)
  | _ => Fault AssertFailure
  end.

(** [ip_get_ttl] *)
Definition ip_get_ttl (ip : ip_packet) : result Z :=
  match version ip with
  | IPV4 => Ok (v4_ttl ip)
  | IPV6 => Ok (v6_ip6_hlim ip)
  | _ => Fault AssertFailure
  end.

(** [ip_set_ttl] *)
Definition ip_set_ttl (ip : ip_packet) (value : Z) : result ip_packet :=
  match version ip with
  | IPV4 => Ok (set_hdr_byte 8 (Z.land value 0xff) ip)
  | IPV6 => Ok (set_hdr_byte 7 (Z.land value 0xff) ip)
  | _ => Fault AssertFailure
  end.

(** The layout that ip.c gives to the four extension headers it knows: the
    octet 0 of an extension header is the type of the header that follows
    it, the octet 1 is its length in units of 8 octets, the first 8 octets
    not counted. [ext_chain t exts] says that [exts] are extension headers
    laid out so, one after another, the first one announced with the type
    [t]: every one of them is announced with the type of an extension
    header, every one but the last has the length that its octet 1 gives,
    and the last one, of which the first two octets are there, announces
    something else. *)
Fixpoint ext_chain (t : Z) (exts : list (list Z)) : Prop :=
  match exts with
  | [] => is_ipv6_ext t = false
  | ext :: exts' =>
      is_ipv6_ext t = true /\ (2 <= length ext)%nat /\
      (exts' <> [] -> Z.of_nat (length ext) = (nth 1 ext 0 + 1) * 8) /\
      ext_chain (nth 0 ext 0) exts'
  end.

(** The type announced by the last header of a chain, or by the base header
    when the chain is empty. *)
Fixpoint chain_protocol (t : Z) (exts : list (list Z)) : Z :=
  match exts with
  | [] => t
  | ext :: exts' => chain_protocol (nth 0 ext 0) exts'
  end.

(** The offsets of the octets that [ip_set_ttl] and [ip_set_protocol] write
    in the header image. *)
Definition ttl_offset (v : ip_version) : nat :=
  match v with
  | IPV4 => 8%nat
  | _ => 7%nat
  end.
Definition protocol_offset (v : ip_version) : nat :=
  match v with
  | IPV4 => 9%nat
  | _ => 6%nat
  end.

(** Two structures that hold the same thing but for the octet [i] of the
    header image. *)
Definition same_but_octet (i : nat) (a b : ip_packet) : Prop :=
  version a = version b /\ data a = data b /\ size a = size b /\
  length (header a) = length (header b) /\
  forall j, j <> i -> nth_error (header a) j = nth_error (header b) j.

(** The header image of the structure holds the base header of the version
    of the packet. *)
Definition header_filled (ip : ip_packet) : Prop :=
  match version ip with
  | IPV4 => (20 <= length (header ip))%nat
  | IPV6 => (40 <= length (header ip))%nat
  | _ => True
  end.

(** An IPv4 packet of 28 bytes without options that carries ESP, and its
    structure. *)
Definition ipv4_esp_packet : list Z :=
  [0x45; 0; 0; 28; 0; 0; 0; 0; 64; 50; 0; 0; 10; 0; 0; 1; 10; 0; 0; 2]
  ++ [0xde; 0xad; 0xbe; 0xef; 0; 0; 0; 1].
Definition ipv4_esp : ip_packet :=
  mk_ip IPV4 (firstn 20 ipv4_esp_packet) ipv4_esp_packet 28.

(** An IPv6 packet with a Hop-by-Hop and a Routing extension header of 8
    bytes each in front of an ESP header, and its structure. *)
Definition ipv6_ext_esp_packet : list Z :=
  [0x60; 0; 0; 0; 0; 24; 0; 64] ++ repeat 0 32
  ++ [43; 0; 0; 0; 0; 0; 0; 0]
  ++ [50; 0; 0; 0; 0; 0; 0; 0]
  ++ [0xde; 0xad; 0xbe; 0xef; 0; 0; 0; 1].
Definition ipv6_ext_esp : ip_packet :=
  mk_ip IPV6 (firstn 40 ipv6_ext_esp_packet) ipv6_ext_esp_packet 64.
Definition ipv6_ext_esp_chain : list (list Z) :=
  [[43; 0; 0; 0; 0; 0; 0; 0]; [50; 0; 0; 0; 0; 0; 0; 0]].

End IpFields.

(** ** The other functions of the ESP profile (c_esp.c) *)

Module EspParts.

Import Ip Esp.

(** [memcpy(&dest[counter], src, length src)] inside the buffer [dest]. *)
Definition memcpy_to (dest : list Z) (counter : Z) (src : list Z)
  : result (list Z) :=
  Feedback.copy_to dest counter src.

(** The two fields of [struct esphdr] behind a pointer to an ESP header. *)
Definition esp_spi (esp : list Z) : result (list Z) := memcpy esp 4.
Definition esp_sn (esp : list Z) : result (list Z) :=
  memcpy (ptr_add esp 4) 4.

(** [rohc_ntoh32] of a 32-bit field held as its four bytes in memory
    order: the number they make in network byte order. *)
Definition rohc_ntoh32 (bytes : list Z) : Z :=
  fold_left (fun acc b => acc * 256 + b) bytes 0.

(** [esp_code_static_esp_part]: the new position and the buffer. The context
    is used for the debug trace only. *)
Definition esp_code_static_esp_part (next_header dest : list Z) (counter : Z)
  : result (Z * list Z) :=
  spi <- esp_spi next_header ;;
  dest <- memcpy_to dest counter spi ;;
  Ok (counter + 4, dest).

(** [esp_code_dynamic_esp_part] *)
Definition esp_code_dynamic_esp_part (next_header dest : list Z) (counter : Z)
  : result (Z * list Z) :=
  sn <- esp_sn next_header ;;
  dest <- memcpy_to dest counter sn ;;
  Ok (counter + 4, dest).

(** [c_esp_get_next_sn]; [nr_of_ip_hdr] is [g_context->tmp.nr_of_ip_hdr] and
    [inner_ip] is [None] for a NULL pointer. *)
Definition c_esp_get_next_sn (nr_of_ip_hdr : Z) (outer_ip : ip_packet)
    (inner_ip : option ip_packet) : result Z :=
  esp <- (if nr_of_ip_hdr >? 1 then
            match inner_ip with
            | Some inner => ip_get_next_layer inner
            | None => Fault OutOfBounds
            end
          else ip_get_next_layer outer_ip) ;;
  sn <- esp_sn esp ;;
  Ok (rohc_ntoh32 sn).

Section CheckProfile.

(** c_generic.c and the type of the context key are not among the sources:
    the generic check, which may update the key, and the exclusive or of the
    key with the SPI are parameters of the embedding. *)
Variable K : Type.
Variable c_generic_check_profile :
  ip_packet -> option ip_packet -> Z -> K -> result (bool * K).
Variable ctxt_key_xor : K -> list Z -> K.

(** [c_esp_check_profile]: the answer and the context key. *)
Definition c_esp_check_profile (outer_ip : ip_packet)
    (inner_ip : option ip_packet) (protocol : Z) (ctxt_key : K)
  : result (bool * K) :=
  if negb (protocol =? ROHC_IPPROTO_ESP) then Ok (false, ctxt_key)
  else
    '(ip_check, ctxt_key) <-
      c_generic_check_profile outer_ip inner_ip protocol ctxt_key ;;
    if negb ip_check then Ok (false, ctxt_key)
    else
      let last_ip_header :=
        match inner_ip with
        | Some inner => inner
        | None => outer_ip
        end in
      ip_payload_size <- ip_get_plen last_ip_header ;;
      if ip_payload_size <? sizeof_esphdr then Ok (false, ctxt_key)
      else
        esp_header <- ip_get_next_layer last_ip_header ;;
        spi <- esp_spi esp_header ;;
        Ok (true, ctxt_key_xor ctxt_key spi).

End CheckProfile.

(** What [c_esp_check_context] reads of [struct ip_header_info]: the IP
    version and the images of the IPv4 and IPv6 headers kept in the context
    ([info.v4.old_ip] and [info.v6.old_ip]). *)
Record ip_header_info : Type := mk_ip_header_info {
  info_version : ip_version;
  info_v4_old_ip : list Z;
  info_v6_old_ip : list Z
}.

Definition ip_version_eqb (a b : ip_version) : bool :=
  match a, b with
  | IP_UNKNOWN, IP_UNKNOWN => true
  | IPV4, IPV4 => true
  | IPV6, IPV6 => true
  | IPV4_MALFORMED, IPV4_MALFORMED => true
  | IPV6_MALFORMED, IPV6_MALFORMED => true
  | _, _ => false
  end.

Fixpoint bytes_eqb (a b : list Z) : bool :=
  match a, b with
  | [], [] => true
  | x :: a', y :: b' => (x =? y) && bytes_eqb a' b'
  | _, _ => false
  end.

(** The [n] bytes at offset [i] of a header image. *)
Definition field (hdr : list Z) (i n : nat) : list Z :=
  firstn n (skipn i hdr).

(** [struct ipv4_hdr] and [struct ipv6_hdr] (ip.h, not among the sources)
    are the images of the headers of the packet: the source and destination
    addresses are the octets 12-15 and 16-19 of the IPv4 header and the
    octets 8-23 and 24-39 of the IPv6 header. A 32-bit address is kept as
    its four bytes, so that [==] on it is the equality of the bytes. *)
Definition v4_saddr (hdr : list Z) : list Z := field hdr 12 4.
Definition v4_daddr (hdr : list Z) : list Z := field hdr 16 4.
Definition v6_ip6_src (hdr : list Z) : list Z := field hdr 8 16.
Definition v6_ip6_dst (hdr : list Z) : list Z := field hdr 24 16.

(** [ipv4_get_saddr] and [ipv4_get_daddr]: the address as its four bytes. *)
Definition ipv4_get_saddr (ip : ip_packet) : result (list Z) :=
  match version ip with
  | IPV4 => Ok (v4_saddr (header ip))
  | _ => Fault AssertFailure
  end.
Definition ipv4_get_daddr (ip : ip_packet) : result (list Z) :=
  match version ip with
  | IPV4 => Ok (v4_daddr (header ip))
  | _ => Fault AssertFailure
  end.

(** [ipv6_get_saddr] and [ipv6_get_daddr] *)
Definition ipv6_get_saddr (ip : ip_packet) : result (list Z) :=
  match version ip with
  | IPV6 => Ok (v6_ip6_src (header ip))
  | _ => Fault AssertFailure
  end.
Definition ipv6_get_daddr (ip : ip_packet) : result (list Z) :=
  match version ip with
  | IPV6 => Ok (v6_ip6_dst (header ip))
  | _ => Fault AssertFailure
  end.

Section CheckContext.

(** c_generic.h and ip.h are not among the sources: the fields of the generic
    context that [c_esp_check_context] reads and the two macros it uses on
    IPv6 headers are parameters of the embedding. *)
Variable G : Type.
Variable ip_flags : G -> ip_header_info.
Variable ip2_flags : G -> ip_header_info.
Variable is_ip2_initialized : G -> bool.
Variable IPV6_ADDR_CMP : list Z -> list Z -> bool.
Variable IPV6_GET_FLOW_LABEL : list Z -> Z.

(** [ipv6_get_flow_label] *)
Definition ipv6_get_flow_label (ip : ip_packet) : result Z :=
  match version ip with
  | IPV6 => Ok (IPV6_GET_FLOW_LABEL (header ip))
  | _ => Fault AssertFailure
  end.

(** The tests of [c_esp_check_context] on one IP header: the version, the
    addresses and, for IPv6, the Flow Label. *)
Definition same_ip_header (flags : ip_header_info) (ip : ip_packet)
  : result bool :=
  let version := IpFields.ip_get_version ip in
  if negb (ip_version_eqb version (info_version flags)) then Ok false
  else
    is_ip_same <-
      (match version with
       | IPV4 =>
           saddr <- ipv4_get_saddr ip ;;
           if bytes_eqb (v4_saddr (info_v4_old_ip flags)) saddr then
             daddr <- ipv4_get_daddr ip ;;
             Ok (bytes_eqb (v4_daddr (info_v4_old_ip flags)) daddr)
           else Ok false
       | _ =>
           saddr <- ipv6_get_saddr ip ;;
           if IPV6_ADDR_CMP (v6_ip6_src (info_v6_old_ip flags)) saddr then
             daddr <- ipv6_get_daddr ip ;;
             Ok (IPV6_ADDR_CMP (v6_ip6_dst (info_v6_old_ip flags)) daddr)
           else Ok false
       end) ;;
    if negb is_ip_same then Ok false
    else
      match version with
      | IPV6 =>
          label <- ipv6_get_flow_label ip ;;
          Ok (label =? IPV6_GET_FLOW_LABEL (info_v6_old_ip flags))
      | _ => Ok true
      end.

(** The search of the last IP header in [c_esp_check_context], with the
    tests on the way: [None] for a jump to [bad_context]. *)
Definition check_ip_headers (context : c_context G) (ip : ip_packet)
  : result (option (ip_packet * Z)) :=
  let g_context := generic context in
  same <- same_ip_header (ip_flags g_context) ip ;;
  if negb same then Ok None
  else
    ip_proto <- ip_get_protocol ip ;;
    if (ip_proto =? ROHC_IPPROTO_IPIP) || (ip_proto =? ROHC_IPPROTO_IPV6) then
      if negb (is_ip2_initialized g_context) then Ok None
      else
        '(created, ip2) <- ip_get_inner_packet ip ip_uninitialized ;;
        if created =? 0 then Ok None
        else
          same2 <- same_ip_header (ip2_flags g_context) ip2 ;;
          if negb same2 then Ok None
          else
            ip_proto <- ip_get_protocol ip2 ;;
            Ok (Some (ip2, ip_proto))
    else
      if is_ip2_initialized g_context then Ok None
      else Ok (Some (ip, ip_proto)).

(** [c_esp_check_context] *)
Definition c_esp_check_context (context : c_context G) (ip : ip_packet)
  : result bool :=
  let esp_context := specific context in
  last <- check_ip_headers context ip ;;
  match last with
  | None => Ok false
  | Some (last_ip_header, ip_proto) =>
      if negb (ip_proto =? ROHC_IPPROTO_ESP) then Ok false
      else
        esp <- ip_get_next_layer last_ip_header ;;
        esp_spi <- esp_spi esp ;;
        Ok (bytes_eqb (spi (old_esp esp_context)) esp_spi)
  end.

End CheckContext.

(** Parameters for examples: a generic profile check that passes and leaves
    the key, a 32-bit key mixed with the SPI, a generic context that holds
    the three fields read by [c_esp_check_context], a comparison of IPv6
    addresses by their bytes and the Flow Label as the low 20 bits of the
    first four octets. *)
Definition generic_check_passes (outer_ip : ip_packet)
    (inner_ip : option ip_packet) (protocol : Z) (ctxt_key : Z)
  : result (bool * Z) :=
  Ok (true, ctxt_key).

(** The value of a 32-bit field as the host loads it from its four bytes
    in memory: the first byte is the most significant one on a big-endian
    host and the least significant one on a little-endian host. *)
Definition host_load32 (big_endian : bool) (bytes : list Z) : Z :=
  if big_endian then rohc_ntoh32 bytes else rohc_ntoh32 (rev bytes).

(** [*ctxt_key ^= esp_header->spi]: the SPI goes into the key as the host
    loads it, without a conversion from the network byte order. *)
Definition key_xor_spi (big_endian : bool) (ctxt_key : Z) (spi : list Z)
  : Z :=
  Z.lxor ctxt_key (host_load32 big_endian spi).

Record generic_fields : Type := mk_generic_fields {
  gf_ip_flags : ip_header_info;
  gf_ip2_flags : ip_header_info;
  gf_is_ip2_initialized : bool
}.

Definition flow_label_of (hdr : list Z) : Z :=
  Z.land (rohc_ntoh32 (firstn 4 hdr)) 0xfffff.

(** A context for the flow of [ipv4_esp_packet]: one IPv4 header from
    10.0.0.1 to 10.0.0.2 and the SPI 0xDEADBEEF. *)
Definition ipv4_esp_context : c_context generic_fields :=
  mk_context PACKET_UNKNOWN
    (mk_sc_esp (mk_esphdr [0xde; 0xad; 0xbe; 0xef] [0; 0; 0; 0]))
    (mk_generic_fields
       (mk_ip_header_info IPV4 (firstn 20 IpFields.ipv4_esp_packet) [])
       (mk_ip_header_info IP_UNKNOWN [] [])
       false).

(** A generic encoder for examples that answers with an IR packet and
    records the IP header of the packet in the generic context. *)
Definition ir_generic_encode (context : c_context generic_fields)
    (ip : ip_packet) (packet_size : Z) (dest : list Z) (dest_size : Z)
    (packet_type : rohc_packet_t) (payload_offset : Z)
  : result (encoded generic_fields) :=
  Ok (mk_encoded 48
        (mk_context PACKET_IR (specific context)
           (mk_generic_fields
              (mk_ip_header_info (version ip) (header ip) (header ip))
              (gf_ip2_flags (generic context))
              (gf_is_ip2_initialized (generic context))))
        dest PACKET_IR payload_offset).

End EspParts.

(** ** The fuzzer (fuzzer.c) *)

Module Fuzzer.

Definition PACKET_MAX_SIZE : Z := 2048.
Definition MAX_LAST_TRACES : Z := 5000.
Definition MAX_TRACE_LEN : Z := 300.

(** The ring buffer of the last traces: the rows of [last_traces], each held
    as the C string it contains, and the two indexes. *)
Record trace_ring : Type := mk_ring {
  last_traces : list (list Z);
  last_traces_first : Z;
  last_traces_last : Z
}.

(** The ring buffer as [main] initialises it. *)
Definition no_traces : trace_ring :=
  mk_ring (repeat [] (Z.to_nat MAX_LAST_TRACES)) (-1) (-1).

(** The C string at the start of an array of characters. *)
Fixpoint c_string (chars : list Z) : list Z :=
  match chars with
  | [] => []
  | c :: rest => if c =? 0 then [] else c :: c_string rest
  end.

Fixpoint row_set (rows : list (list Z)) (n : nat) (row : list Z)
  : list (list Z) :=
  match rows, n with
  | [], _ => []
  | _ :: t, O => row :: t
  | h :: t, S m => h :: row_set t m row
  end.

(** A write of the row [i] of [last_traces]. *)
Definition store_row (rows : list (list Z)) (i : Z) (row : list Z)
  : result (list (list Z)) :=
  if (i <? 0) || (Z.of_nat (length rows) <=? i) then Fault OutOfBounds
  else Ok (row_set rows (Z.to_nat i) row).

(** [print_rohc_traces]; [formatted] is the text that [vsnprintf] makes of
    the format and its arguments, of which it writes [MAX_TRACE_LEN]
    characters at most. The operator [%] of C on [int] is [Z.rem]. *)
Definition print_rohc_traces (formatted : list Z) (r : trace_ring)
  : result trace_ring :=
  let last :=
    if last_traces_last r =? -1 then 0
    else Z.rem (last_traces_last r + 1) MAX_LAST_TRACES in
  rows <- store_row (last_traces r) last
            (c_string (firstn (Z.to_nat MAX_TRACE_LEN) formatted)) ;;
  let first :=
    if last_traces_first r =? -1 then 0
    else if last_traces_first r =? last
         then Z.rem (last_traces_first r + 1) MAX_LAST_TRACES
         else last_traces_first r in
  Ok (mk_ring rows first last).

(** The number of traces that the ring buffer holds between its two
    indexes. *)
Definition traces_kept (r : trace_ring) : Z :=
  if last_traces_first r =? -1 then 0
  else (last_traces_last r - last_traces_first r) mod MAX_LAST_TRACES + 1.

(** The invariant of the ring buffer: it has its [MAX_LAST_TRACES] rows, and
    either it is empty with both indexes at -1, or both indexes are inside
    the array and the first one is 0 or follows the last one. *)
Definition ring_inv (r : trace_ring) : Prop :=
  Z.of_nat (length (last_traces r)) = MAX_LAST_TRACES /\
  ((last_traces_first r = -1 /\ last_traces_last r = -1) \/
   (0 <= last_traces_first r < MAX_LAST_TRACES /\
    0 <= last_traces_last r < MAX_LAST_TRACES /\
    (last_traces_first r = 0 \/
     last_traces_first r = (last_traces_last r + 1) mod MAX_LAST_TRACES))).

(** The "crazy" ROHC packet of one iteration of [main]: the length drawn
    first, then one byte per position. [rand k] is the value that the k-th
    call of [rand()] after [srand] returns; the result is the packet, its
    length and the number of calls made so far. *)
Definition create_crazy_packet (rand : nat -> Z) (calls : nat)
  : list Z * Z * nat :=
  let rohc_len := Z.rem (rand calls) PACKET_MAX_SIZE in
  let rohc_packet :=
    map (fun i => wrap8 (Z.rem (rand (S calls + i)%nat) 0xff))
      (seq 0 (Z.to_nat rohc_len)) in
  (rohc_packet, rohc_len, (S calls + Z.to_nat rohc_len)%nat).

(** A linear congruential generator for examples. *)
Definition example_rand (k : nat) : Z :=
  (1103515245 * Z.of_nat k + 12345) mod 2147483648.

End Fuzzer.

(** * The scaled RTP timestamp encoder: proofs *)

Module TsScTheory.

Import TsSc TsScSpec.

Lemma ts_sc_state_eqb_eq (a b : ts_sc_state) :
  ts_sc_state_eqb a b = true <-> a = b.
Proof. destruct a, b; simpl; split; congruence. Qed.

Ltac ts_simpl :=
  cbv beta iota zeta delta
    [ts_stride ts_scaled ts_offset ts old_ts sn old_sn is_deducible state
     are_old_val_init nr_init_stride_packets ts_delta
     set_ts_stride set_ts_scaled set_ts_offset set_ts set_old_ts set_sn
     set_old_sn set_is_deducible set_state set_are_old_val_init
     set_nr_init_stride_packets set_ts_delta ts_sc_state_eqb negb
     andb orb bind assert] in *.

Ltac unfold_add_ts :=
  unfold c_add_ts, c_add_ts_send_scaled, c_add_ts_init_stride; ts_simpl.

Ltac split_eqb :=
  repeat match goal with
  | |- context [if ?c then _ else _] =>
      lazymatch c with
      | context [if _ then _ else _] => fail
      | _ => idtac
      end;
      first [ match c with
              | ?a =? ?b => destruct (Z.eqb_spec a b)
              | ?a <? ?b => destruct (Z.ltb_spec a b)
              | negb (?a =? ?b) => destruct (Z.eqb_spec a b)
              | negb (?a =? ?b) || _ => destruct (Z.eqb_spec a b)
              end
            | destruct c eqn:? ];
      ts_simpl
  end.

(** C1, as the source has it: out of SEND_SCALED, a delta that is not a
    multiple of the stride re-initialises the stride with the new delta; a
    delta that differs from the stride, is a multiple of it and does not
    follow the SN increment keeps the stride and goes back to INIT_STRIDE;
    a TS that went backwards with a changed TS_OFFSET goes back to
    INIT_STRIDE; every other call stays in SEND_SCALED. *)
Theorem c_add_ts_send_scaled_transitions (s : ts_sc_comp)
    (new_ts new_sn : Z) :
  send_scaled_call s new_ts -> send_scaled_transitions s new_ts new_sn.
Proof.
  intros (Hst & Hinit & Hstride & Hdelta & Hsdvl).
  unfold send_scaled_transitions.
  destruct s as [stride scaled offset t ot n on ded st init nr dl].
  cbn [ts_stride ts state are_old_val_init sn] in *. subst st init.
  set (delta := abs_delta new_ts t) in *.
  unfold_add_ts. fold delta. rewrite Hsdvl. cbn [negb].
  destruct (Z.eqb_spec delta 0) as [E0 | E0]; [contradiction |].
  assert (Hsame : delta = stride -> delta mod stride = 0)
    by (intros ->; apply Z_mod_same_full).
  split_eqb; try contradiction; try (exfalso; tauto);
    eexists; (split; [reflexivity |]); ts_simpl;
    repeat split; intros; try congruence; try tauto; try lia.
Qed.

(** The witness of C1: a delta of 100 against a stride of 160. *)
Lemma c_add_ts_send_scaled_transitions_witness :
  send_scaled_call scaled_160 420 /\
  send_scaled_transitions scaled_160 420 11.
Proof.
  assert (H : send_scaled_call scaled_160 420).
  { unfold send_scaled_call. vm_compute. repeat split; congruence. }
  split; [exact H |].
  exact (c_add_ts_send_scaled_transitions scaled_160 420 11 H).
Defined.

(** C1 as the specification words it fails: with a delta equal to the stride
    (quotient 1) and an SN that advanced by 2, the encoder stays in
    SEND_SCALED. *)
Lemma send_scaled_keeps_state_on_sn_jump :
  ~ send_scaled_transitions_any_multiple scaled_160 480 12.
Proof.
  unfold send_scaled_transitions_any_multiple. intros H.
  destruct H as (s' & Hrun & _ & Hjump & _).
  { unfold send_scaled_call. vm_compute. repeat split; congruence. }
  vm_compute in Hrun. injection Hrun as <-.
  destruct Hjump as (Hstate & _).
  - vm_compute. reflexivity.
  - vm_compute. discriminate.
  - vm_compute in Hstate. discriminate.
Qed.

Lemma add_multiple_mod (a d k : Z) :
  d mod k = 0 -> (a + d) mod k = a mod k.
Proof.
  intros H. destruct (Z.eq_dec k 0) as [-> | Hk].
  - rewrite !Z.mod_0_r in *. lia.
  - rewrite Z.add_mod, H, Z.add_0_r, Z.mod_mod by assumption. reflexivity.
Qed.

Lemma abs_delta_backwards (new_ts t : Z) :
  uint32 new_ts -> uint32 t -> new_ts < t ->
  t = new_ts + abs_delta new_ts t.
Proof.
  unfold uint32, abs_delta, wrap32. intros Hn Ht Hlt.
  destruct (Z.geb_spec new_ts t); [lia |].
  rewrite Z.mod_small; lia.
Qed.

Lemma ts_sc_inv_asserts (s : ts_sc_comp) : ts_sc_inv s -> ts_sc_asserts s.
Proof.
  intros (_ & _ & Hinit & Hstride). split; [exact Hinit |].
  intros Hst. destruct Hstride as (H & _); [congruence | lia].
Qed.

(** [c_add_ts] runs to its end on every encoder that meets its assertions. *)
Lemma c_add_ts_defined (s : ts_sc_comp) (new_ts new_sn : Z) :
  ts_sc_asserts s -> exists s', c_add_ts s new_ts new_sn = Ok s'.
Proof.
  intros (Hinit & Hstride).
  destruct s as [stride scaled offset t ot n on ded st init nr dl].
  ts_simpl. unfold_add_ts.
  destruct init; ts_simpl.
  2: { rewrite (Hinit eq_refl). ts_simpl. eauto. }
  destruct (Z.eqb_spec (abs_delta new_ts t) 0) as [E0 | E0]; [eauto |].
  destruct (sdvl_can_value_be_encoded (abs_delta new_ts t)); ts_simpl;
    [| eauto].
  destruct st; ts_simpl.
  - split_eqb; try contradiction; eauto.
  - split_eqb; try contradiction; eauto.
  - specialize (Hstride eq_refl).
    split_eqb; try contradiction; eauto.
Qed.

(** C3: [c_add_ts] ends in INIT_TS exactly when no old value was recorded,
    or the TS delta is zero, or the delta cannot be SDVL-encoded; out of
    INIT_TS and without any of these, it moves to INIT_STRIDE and resets
    [nr_init_stride_packets] to 0. *)
Theorem c_add_ts_init_ts (s : ts_sc_comp) (new_ts new_sn : Z) :
  ts_sc_asserts s -> init_ts_transitions s new_ts new_sn.
Proof.
  intros (Hinit & Hstride). unfold init_ts_transitions, init_ts_condition.
  destruct s as [stride scaled offset t ot n on ded st init nr dl].
  ts_simpl. unfold_add_ts.
  destruct init; ts_simpl.
  2: { rewrite (Hinit eq_refl). ts_simpl. eexists. split; [reflexivity |].
       ts_simpl. tauto. }
  destruct (Z.eqb_spec (abs_delta new_ts t) 0) as [E0 | E0].
  { eexists. split; [reflexivity |]. ts_simpl. tauto. }
  destruct (sdvl_can_value_be_encoded (abs_delta new_ts t)); ts_simpl.
  2: { eexists. split; [reflexivity |]. ts_simpl. tauto. }
  assert (Hnot : ~ (true = false \/ abs_delta new_ts t = 0 \/ true = false))
    by (intros [H | [H | H]]; congruence).
  destruct st; ts_simpl.
  - split_eqb; try contradiction; eexists; (split; [reflexivity |]);
      ts_simpl; (split; [split; [discriminate | tauto] |]); intros _ _;
      split; reflexivity.
  - split_eqb; try contradiction; eexists; (split; [reflexivity |]);
      ts_simpl; (split; [split; [discriminate | tauto] | discriminate]).
  - specialize (Hstride eq_refl).
    split_eqb; try contradiction; eexists; (split; [reflexivity |]);
      ts_simpl; (split; [split; [discriminate | tauto] | discriminate]).
Qed.

(** The witness of C3: the second packet of a flow leaves INIT_TS. *)
Lemma c_add_ts_init_ts_witness :
  ts_sc_asserts one_packet_seen /\
  init_ts_transitions one_packet_seen 2160 1001.
Proof.
  assert (H : ts_sc_asserts one_packet_seen).
  { split; simpl; intros; congruence. }
  split; [exact H |].
  exact (c_add_ts_init_ts one_packet_seen 2160 1001 H).
Defined.

Example second_packet_leaves_init_ts :
  c_add_ts one_packet_seen 2160 1001
  = Ok (mk_ts_sc 160 13 80 2160 2000 1001 1000 false INIT_STRIDE true 0 160).
Proof. vm_compute. reflexivity. Qed.

Lemma create_sc_inv : ts_sc_inv c_create_sc.
Proof.
  unfold ts_sc_inv, uint32, uint16. simpl. repeat split; try lia; congruence.
Qed.

Lemma backwards_keeps_offset (new_ts t stride : Z) :
  uint32 new_ts -> uint32 t -> new_ts < t ->
  abs_delta new_ts t mod stride = 0 ->
  t mod stride = new_ts mod stride.
Proof.
  intros Hn Ht Hlt Hmod.
  rewrite (abs_delta_backwards new_ts t Hn Ht Hlt) at 1.
  apply add_multiple_mod. exact Hmod.
Qed.

Lemma abs_delta_forwards (new_ts t : Z) :
  uint32 new_ts -> uint32 t -> t <= new_ts ->
  new_ts = t + abs_delta new_ts t.
Proof.
  unfold uint32, abs_delta, wrap32. intros Hn Ht Hle.
  destruct (Z.geb_spec new_ts t); [| lia].
  rewrite Z.mod_small; lia.
Qed.

Lemma abs_delta_nonneg (new_ts t : Z) : 0 <= abs_delta new_ts t.
Proof.
  unfold abs_delta, wrap32.
  destruct (new_ts >=? t); apply Z.mod_pos_bound; lia.
Qed.

(** TS_SCALED as the source computes it is the quotient of TS by the
    stride. *)
Lemma scaled_is_quotient (t stride : Z) :
  uint32 t -> 0 < stride -> wrap32 (t - t mod stride) / stride = t / stride.
Proof.
  unfold uint32, wrap32. intros Ht Hs.
  pose proof (Z.mod_pos_bound t stride Hs) as Hm.
  pose proof (Z.mod_le t stride ltac:(lia) Hs) as Hle.
  rewrite (Z.mod_small (t - t mod stride)) by lia.
  pose proof (Z.div_mod t stride ltac:(lia)) as Hdm.
  replace (t - t mod stride) with (t / stride * stride) by lia.
  apply Z.div_mul. lia.
Qed.

Lemma div_add_multiple (t d stride : Z) :
  0 < stride -> d mod stride = 0 ->
  (t + d) / stride = t / stride + d / stride.
Proof.
  intros Hs Hd.
  rewrite (Z.div_mod d stride) at 1 by lia. rewrite Hd, Z.add_0_r.
  rewrite (Z.mul_comm stride). apply Z.div_add. lia.
Qed.

(** The change of TS_SCALED for a delta that is a multiple of the stride. *)
Lemma scaled_change (new_ts t stride : Z) :
  uint32 new_ts -> uint32 t -> 0 < stride ->
  abs_delta new_ts t mod stride = 0 ->
  new_ts / stride - t / stride = abs_delta new_ts t / stride \/
  new_ts / stride - t / stride = - (abs_delta new_ts t / stride).
Proof.
  intros Hn Ht Hs Hmod. destruct (Z_lt_le_dec new_ts t) as [Hlt | Hle].
  - right. pose proof (abs_delta_backwards new_ts t Hn Ht Hlt) as H.
    remember (abs_delta new_ts t) as d eqn:Ed. clear Ed.
    rewrite H, div_add_multiple by assumption. lia.
  - left. pose proof (abs_delta_forwards new_ts t Hn Ht Hle) as H.
    remember (abs_delta new_ts t) as d eqn:Ed. clear Ed.
    rewrite H, div_add_multiple by assumption. lia.
Qed.

(** Two integers that are close to each other are equal when they are equal
    as [uint32_t]. *)
Lemma wrap32_eq_close (a b : Z) :
  - 2 ^ 31 < a - b < 2 ^ 31 -> (wrap32 a = wrap32 b <-> a = b).
Proof.
  unfold wrap32. intros H. split; [| intros ->; reflexivity].
  intros E.
  assert (Hd : (a - b) mod 2 ^ 32 = 0).
  { rewrite Zminus_mod, E, Z.sub_diag. reflexivity. }
  apply Z.mod_divide in Hd; [| lia]. destruct Hd as [k Hk].
  assert (k = 0) by lia. lia.
Qed.

Lemma sdvl_bound (v : Z) :
  sdvl_can_value_be_encoded v = true -> v <= 2 ^ 29 - 1.
Proof. unfold sdvl_can_value_be_encoded. intros H. apply Z.leb_le. exact H. Qed.

Ltac ts_finish :=
  unfold uint32, uint16 in *; repeat split; intros; subst;
  try congruence; try tauto; try contradiction; try lia.

(** [c_add_ts] keeps the invariant of the encoder. *)
Lemma c_add_ts_inv (s s' : ts_sc_comp) (new_ts new_sn : Z) :
  ts_sc_inv s -> uint32 new_ts -> uint16 new_sn ->
  c_add_ts s new_ts new_sn = Ok s' -> ts_sc_inv s'.
Proof.
  intros (Hts & Hsn & Hinit & Hinv) Hnew Hnewsn. unfold ts_sc_inv.
  destruct s as [stride scaled offset t ot n on ded st init nr dl].
  ts_simpl. unfold_add_ts.
  destruct init; ts_simpl.
  2: { rewrite (Hinit eq_refl). ts_simpl. intros [= <-]. ts_simpl.
       ts_finish. }
  pose proof (abs_delta_nonneg new_ts t) as Hnn.
  remember (abs_delta new_ts t) as delta eqn:Edelta.
  destruct (Z.eqb_spec delta 0) as [E0 | E0].
  { intros [= <-]. ts_simpl. ts_finish. }
  destruct (sdvl_can_value_be_encoded delta); ts_simpl.
  2: { intros [= <-]. ts_simpl. ts_finish. }
  destruct st; ts_simpl.
  - split_eqb; try contradiction; intros [= <-]; ts_simpl; ts_finish.
  - split_eqb; try contradiction; intros [= <-]; ts_simpl; ts_finish.
  - destruct Hinv as (Hstride & Hoff & Hsc); [discriminate |].
    split_eqb; try discriminate; intros [= <-]; ts_simpl; ts_finish.
Qed.

(** Every encoder that the library can hold satisfies the invariant. *)
Lemma reachable_inv (s : ts_sc_comp) : reachable s -> ts_sc_inv s.
Proof.
  induction 1 as [| s s' new_ts new_sn _ IH Hts Hsn Hrun | s n _ IH
                  | s _ IH Hst | s _ IH Hst].
  - exact create_sc_inv.
  - exact (c_add_ts_inv s s' new_ts new_sn IH Hts Hsn Hrun).
  - destruct IH as (Hts & Hsn & Hinit & Hinv). destruct s. ts_simpl.
    unfold ts_sc_inv. ts_simpl. ts_finish.
  - destruct IH as (Hts & Hsn & Hinit & Hinv). destruct s. ts_simpl.
    unfold ts_sc_inv. ts_simpl. subst.
    assert (INIT_STRIDE <> INIT_TS) by discriminate. ts_finish.
  - destruct IH as (Hts & Hsn & Hinit & Hinv). destruct s. ts_simpl.
    unfold ts_sc_inv. ts_simpl. subst.
    assert (SEND_SCALED <> INIT_TS) by discriminate. ts_finish.
Qed.

(** C2: after a call of [c_add_ts] that ends in SEND_SCALED, [is_deducible]
    holds exactly when the change of TS_SCALED equals the change of SN;
    after a call that ends in any other state, early returns included,
    [is_deducible] is false. *)
Theorem c_add_ts_is_deducible (s : ts_sc_comp) (new_ts new_sn : Z) :
  ts_sc_inv s -> uint32 new_ts -> uint16 new_sn ->
  exists s', c_add_ts s new_ts new_sn = Ok s' /\ deducible_flag s new_sn s'.
Proof.
  intros (Hts & Hsn & Hinit & Hinv) Hnew Hnewsn. unfold deducible_flag.
  destruct s as [stride scaled offset t ot n on ded st init nr dl].
  ts_simpl. unfold_add_ts.
  destruct init; ts_simpl.
  2: { rewrite (Hinit eq_refl). ts_simpl. eexists. split; [reflexivity |].
       ts_simpl. ts_finish. }
  pose proof (backwards_keeps_offset new_ts t stride Hnew Hts) as Hback.
  pose proof (scaled_change new_ts t stride Hnew Hts) as Hchange.
  pose proof (abs_delta_nonneg new_ts t) as Hnn.
  destruct (Z.eqb_spec (abs_delta new_ts t) 0) as [E0 | E0].
  { eexists. split; [reflexivity |]. ts_simpl. ts_finish. }
  destruct (sdvl_can_value_be_encoded (abs_delta new_ts t)) eqn:Esdvl;
    ts_simpl.
  2: { eexists. split; [reflexivity |]. ts_simpl. ts_finish. }
  apply sdvl_bound in Esdvl.
  remember (abs_delta new_ts t) as delta eqn:Edelta.
  destruct st; ts_simpl.
  - split_eqb; try contradiction; eexists; (split; [reflexivity |]);
      ts_simpl; ts_finish.
  - split_eqb; try contradiction; eexists; (split; [reflexivity |]);
      ts_simpl; ts_finish.
  - destruct Hinv as (Hstride & Hoff & Hsc); [discriminate |].
    assert (Hsame : delta = stride -> delta mod stride = 0)
      by (intros ->; apply Z_mod_same_full).
    specialize (Hchange Hstride).
    assert (Hq : 0 <= delta / stride <= 2 ^ 29 - 1).
    { split; [apply Z.div_pos; lia |].
      apply Z.le_trans with delta; [| exact Esdvl].
      apply Z.div_le_upper_bound; nia. }
    rewrite Hoff in Hsc. rewrite scaled_is_quotient in Hsc by assumption.
    pose proof (wrap32_eq_close (new_ts / stride - scaled) (new_sn - n))
      as Hclose.
    unfold sn_increment. unfold uint16 in *.
    change (2 ^ 16) with 65536 in *. change (2 ^ 29) with 536870912 in *.
    change (2 ^ 31) with 2147483648 in *.
    split_eqb; try contradiction; try (exfalso; lia);
      try (exfalso; rewrite Hoff in *; tauto);
      eexists; (split; [reflexivity |]); ts_simpl;
      rewrite ?(scaled_is_quotient new_ts stride Hnew Hstride) in *;
      (split; [| intros; try congruence; try tauto]); intros Hstate;
      try discriminate;
      assert (Hmod : delta mod stride = 0) by tauto;
      destruct (Hchange Hmod) as [Hc | Hc]; rewrite <- Hsc in Hc;
      (destruct Hclose as [Hc1 Hc2]; [lia |]);
      split; intros; try congruence; try tauto.
Qed.

(** The witness of C2: TS 480 and SN 11 after TS 320 and SN 10, stride 160. *)
Lemma c_add_ts_is_deducible_witness :
  ts_sc_inv scaled_160 /\ uint32 480 /\ uint16 11 /\
  exists s',
    c_add_ts scaled_160 480 11 = Ok s' /\ deducible_flag scaled_160 11 s'.
Proof.
  assert (Hinv : ts_sc_inv scaled_160).
  { unfold ts_sc_inv, uint32, uint16. simpl.
    repeat split; try lia; try congruence; reflexivity. }
  assert (Hts : uint32 480) by (unfold uint32; lia).
  assert (Hsn : uint16 11) by (unfold uint16; lia).
  split; [exact Hinv |]. split; [exact Hts |]. split; [exact Hsn |].
  exact (c_add_ts_is_deducible scaled_160 480 11 Hinv Hts Hsn).
Defined.

Example is_deducible_after_one_stride :
  c_add_ts scaled_160 480 11
  = Ok (mk_ts_sc 160 3 0 480 320 11 10 true SEND_SCALED true 3 160).
Proof. vm_compute. reflexivity. Qed.

End TsScTheory.

(** * The feedback builder: proofs *)

Module FeedbackTheory.

Import Feedback FeedbackSpec.

(** ** Arrays *)

Lemma length_list_set (l : list Z) (n : nat) (v : Z) :
  length (list_set l n v) = length l.
Proof.
  revert n. induction l as [| h t IH]; intros [| n]; simpl; auto.
Qed.

Lemma nth_error_list_set_same (l : list Z) (n : nat) (v : Z) :
  (n < length l)%nat -> nth_error (list_set l n v) n = Some v.
Proof.
  revert n. induction l as [| h t IH]; intros [| n]; simpl; intros H;
    try lia; auto. apply IH. lia.
Qed.

Lemma nth_error_list_set_other (l : list Z) (n m : nat) (v : Z) :
  n <> m -> nth_error (list_set l n v) m = nth_error l m.
Proof.
  revert n m. induction l as [| h t IH]; intros [| n] [| m]; simpl;
    intros H; try congruence; auto.
Qed.

Lemma list_set_twice (l : list Z) (n : nat) (v w : Z) :
  list_set (list_set l n v) n w = list_set l n w.
Proof.
  revert n. induction l as [| h t IH]; intros [| n]; simpl; auto.
  f_equal. apply IH.
Qed.

Lemma firstn_list_set_le (l : list Z) (n m : nat) (v : Z) :
  (m <= n)%nat -> firstn m (list_set l n v) = firstn m l.
Proof.
  revert n m. induction l as [| h t IH]; intros [| n] [| m]; simpl;
    intros H; try lia; auto. f_equal. apply IH. lia.
Qed.

Lemma firstn_succ_list_set (l : list Z) (n : nat) (v : Z) :
  (n < length l)%nat -> firstn (S n) (list_set l n v) = firstn n l ++ [v].
Proof.
  revert n. induction l as [| h t IH]; intros [| n]; simpl; intros H;
    try lia; auto. f_equal. apply IH. lia.
Qed.

Lemma store_ok (p : list Z) (i : nat) (v : Z) :
  (i < length p)%nat -> store p (Z.of_nat i) v = Ok (list_set p i v).
Proof.
  intros H. unfold store.
  destruct (Z.ltb_spec (Z.of_nat i) 0); [lia |].
  destruct (Z.leb_spec (Z.of_nat (length p)) (Z.of_nat i)); [lia |].
  simpl. rewrite Nat2Z.id. reflexivity.
Qed.

Lemma store_at (p : list Z) (i v : Z) :
  0 <= i < Z.of_nat (length p) ->
  store p i v = Ok (list_set p (Z.to_nat i) v).
Proof.
  intros H. rewrite <- (Z2Nat.id i) at 1 by lia. apply store_ok. lia.
Qed.

Lemma store_inv (p p' : list Z) (i v : Z) :
  store p i v = Ok p' ->
  0 <= i < Z.of_nat (length p) /\ p' = list_set p (Z.to_nat i) v.
Proof.
  unfold store.
  destruct (Z.ltb_spec i 0); simpl; [discriminate |].
  destruct (Z.leb_spec (Z.of_nat (length p)) i); [discriminate |].
  intros [= <-]. split; [lia | reflexivity].
Qed.

Lemma load_ok (p : list Z) (i : nat) (b : Z) :
  nth_error p i = Some b -> load p (Z.of_nat i) = Ok b.
Proof.
  intros H. unfold load.
  destruct (Z.ltb_spec (Z.of_nat i) 0); [lia |].
  rewrite Nat2Z.id, H. reflexivity.
Qed.

(** ** Bytes *)

Lemma wrap8_small (x : Z) : uint8 x -> wrap8 x = x.
Proof. unfold uint8, wrap8. intros H. apply Z.mod_small. exact H. Qed.

Lemma land_ff_uint8 (x : Z) : uint8 (Z.land x 0xff).
Proof.
  unfold uint8. change 0xff with (Z.ones 8). rewrite Z.land_ones by lia.
  apply Z.mod_pos_bound. lia.
Qed.

Lemma land_f_bound (x : Z) : 0 <= Z.land x 0xf < 16.
Proof.
  change 0xf with (Z.ones 4). rewrite Z.land_ones by lia.
  apply Z.mod_pos_bound. lia.
Qed.

Lemma land_3_bound (x : Z) : 0 <= Z.land x 3 < 4.
Proof.
  change 3 with (Z.ones 2). rewrite Z.land_ones by lia.
  apply Z.mod_pos_bound. lia.
Qed.

Lemma lor_uint8 (a b : Z) : uint8 a -> uint8 b -> uint8 (Z.lor a b).
Proof.
  unfold uint8. intros Ha Hb.
  assert (Hnn : 0 <= Z.lor a b) by (apply Z.lor_nonneg; lia).
  split; [exact Hnn |].
  destruct (Z.eq_dec (Z.lor a b) 0) as [-> | Hz]; [lia |].
  apply Z.log2_lt_pow2; [lia |].
  rewrite Z.log2_lor by lia.
  assert (La : Z.log2 a < 8).
  { destruct (Z.eq_dec a 0) as [-> | ?]; [simpl; lia |].
    apply Z.log2_lt_pow2; lia. }
  assert (Lb : Z.log2 b < 8).
  { destruct (Z.eq_dec b 0) as [-> | ?]; [simpl; lia |].
    apply Z.log2_lt_pow2; lia. }
  lia.
Qed.

(** ** One step of the builder *)

Ltac run := cbv beta iota delta [bind].
Ltac fb_simpl := cbn [type data size set_type set_size].
Ltac in_array :=
  cbn [data set_size set_type]; rewrite ?length_list_set; cbn [length];
  lia.

Lemma set_data_ok (fb : d_feedback) (i : nat) (v : Z) :
  (i < length (data fb))%nat ->
  set_data (Z.of_nat i) v fb
  = Ok (mk_feedback (type fb) (list_set (data fb) i (wrap8 v)) (size fb)).
Proof.
  intros H. unfold set_data. rewrite (store_ok _ _ _ H). reflexivity.
Qed.

Lemma load_list_set (p : list Z) (i : nat) (v : Z) :
  (i < length p)%nat -> load (list_set p i v) (Z.of_nat i) = Ok v.
Proof.
  intros H. apply load_ok. apply nth_error_list_set_same. exact H.
Qed.

(** An SN option added to a FEEDBACK-2 packet that has room for it. *)
Lemma f_add_option_sn (ty : Z) (d : list Z) (n : nat) (b : Z) :
  ty = 2 -> (n + 2 <= length d)%nat ->
  Z.of_nat n + 2 <= FEEDBACK_DATA_MAX_LEN -> uint8 b ->
  f_add_option (mk_feedback ty d (Z.of_nat n)) OPT_TYPE_SN (Some [b]) 1
  = Ok (ROHC_OK,
        mk_feedback ty (list_set (list_set d n 0x41) (S n) b)
          (Z.of_nat (n + 2))).
Proof.
  intros -> Hlen Hmax Hb. unfold f_add_option.
  cbn [type data size set_size].
  change (assert (2 =? 2)) with (Ok tt). run.
  rewrite set_data_ok by in_array. run. cbn [type data size].
  rewrite load_list_set by lia. run.
  rewrite set_data_ok by in_array.
  run. cbn [type data size]. rewrite list_set_twice.
  change ((OPT_TYPE_SN =? OPT_TYPE_CRC) || negb false) with true.
  cbv iota. change (assert ((1 =? 0) || (1 =? 1))) with (Ok tt). run.
  rewrite load_list_set by lia. run.
  rewrite set_data_ok by in_array.
  run. cbn [type data size set_size]. rewrite list_set_twice.
  change (OPT_TYPE_SN =? OPT_TYPE_CRC) with false. cbv iota.
  change (assert (1 =? 1)) with (Ok tt). run.
  destruct (Z.gtb_spec (Z.of_nat n + 1 + 1) FEEDBACK_DATA_MAX_LEN); [lia |].
  change (load [b] 0) with (Ok b). run.
  replace (Z.of_nat n + 1) with (Z.of_nat (S n)) by lia.
  rewrite set_data_ok by in_array.
  run. cbn [type data size set_size]. rewrite (wrap8_small b Hb).
  unfold set_size. cbn [type data size].
  change (wrap8 (Z.lor (wrap8 (Z.shiftl (wrap8 (Z.land OPT_TYPE_SN 15)) 4)) 1))
    with 0x41.
  do 3 f_equal. lia.
Qed.

(** ** FEEDBACK-2 *)

Lemma ack_mode_uint8 (acktype mode : Z) :
  uint8 (Z.lor (Z.shiftl (Z.land acktype 3) 6) (Z.shiftl (Z.land mode 3) 4)).
Proof.
  apply lor_uint8; unfold uint8; rewrite Z.shiftl_mul_pow2 by lia.
  - pose proof (land_3_bound acktype). lia.
  - pose proof (land_3_bound mode). lia.
Qed.

Lemma first_octet_uint8 (acktype mode x : Z) :
  uint8 (feedback2_first_octet acktype mode (Z.land x 0xf)).
Proof.
  unfold feedback2_first_octet. apply lor_uint8.
  - apply ack_mode_uint8.
  - pose proof (land_f_bound x). unfold uint8. lia.
Qed.

Lemma set_data_at (fb : d_feedback) (i v : Z) :
  0 <= i < Z.of_nat (length (data fb)) ->
  set_data i v fb
  = Ok (mk_feedback (type fb) (list_set (data fb) (Z.to_nat i) (wrap8 v))
          (size fb)).
Proof.
  intros H. rewrite <- (Z2Nat.id i) at 1 by lia. apply set_data_ok. lia.
Qed.

Lemma load_at (p : list Z) (i v : Z) :
  0 <= i < Z.of_nat (length p) ->
  load (list_set p (Z.to_nat i) v) i = Ok v.
Proof.
  intros H. rewrite <- (Z2Nat.id i) at 2 by lia. apply load_list_set. lia.
Qed.

(** The two octets of the FEEDBACK-2 header, as every branch of
    [f_feedback2] writes them. *)
Lemma feedback2_header (acktype mode top x : Z) (ty sz : Z) (d : list Z) :
  (2 <= length d)%nat -> uint8 top ->
  (fb <- set_data 0 (Z.lor (Z.shiftl (Z.land acktype 3) 6)
                           (Z.shiftl (Z.land mode 3) 4))
                    (mk_feedback ty d sz) ;;
   fb <- or_data0 top fb ;;
   set_data 1 (Z.land x 0xff) fb)
  = Ok (mk_feedback ty
          (list_set (list_set d 0
                       (Z.lor (Z.lor (Z.shiftl (Z.land acktype 3) 6)
                                     (Z.shiftl (Z.land mode 3) 4)) top))
             1 (Z.land x 0xff))
          sz).
Proof.
  intros Hlen Htop.
  rewrite set_data_at by in_array. run. unfold or_data0.
  cbn [type data size].
  rewrite (wrap8_small _ (ack_mode_uint8 acktype mode)).
  rewrite load_at by lia. run.
  rewrite set_data_at by in_array. run. cbn [type data size].
  rewrite list_set_twice.
  rewrite set_data_at by in_array. cbn [type data size].
  rewrite (wrap8_small _ (land_ff_uint8 x)).
  rewrite wrap8_small
    by (apply lor_uint8; [apply ack_mode_uint8 | exact Htop]).
  reflexivity.
Qed.

Lemma f_add_option_sn_at (ty : Z) (d : list Z) (z b : Z) :
  ty = 2 -> 0 <= z -> z + 2 <= Z.of_nat (length d) ->
  z + 2 <= FEEDBACK_DATA_MAX_LEN -> uint8 b ->
  f_add_option (mk_feedback ty d z) OPT_TYPE_SN (Some [b]) 1
  = Ok (ROHC_OK,
        mk_feedback ty
          (list_set (list_set d (Z.to_nat z) 0x41) (S (Z.to_nat z)) b)
          (z + 2)).
Proof.
  intros Hty Hz Hlen Hmax Hb.
  rewrite <- (Z2Nat.id z) at 1 by lia.
  rewrite f_add_option_sn by (try assumption; lia).
  do 3 f_equal. lia.
Qed.

Lemma byte_of_shift (x k : Z) :
  0 <= k -> Z.land (Z.shiftr x k) 0xff = (x / 2 ^ k) mod 256.
Proof.
  intros Hk. rewrite Z.shiftr_div_pow2 by lia.
  change 0xff with (Z.ones 8). rewrite Z.land_ones by lia. reflexivity.
Qed.

Lemma nibble_of_shift (x k : Z) :
  0 <= k -> Z.land (Z.shiftr x k) 0xf = (x / 2 ^ k) mod 16.
Proof.
  intros Hk. rewrite Z.shiftr_div_pow2 by lia.
  change 0xf with (Z.ones 4). rewrite Z.land_ones by lia. reflexivity.
Qed.

(** The SN field of FEEDBACK-2 read back as a big-endian number. *)
Lemma sn_field_value (sn : Z) :
  uint32 sn ->
  be_concat (sn_top4 sn (sn_options_count sn))
    (sn_second sn (sn_options_count sn)
     :: sn_option_bytes sn (Z.to_nat (sn_options_count sn))) = sn.
Proof.
  unfold uint32, sn_options_count. intros Hsn.
  destruct (Z.ltb_spec sn (2 ^ 12));
    [| destruct (Z.ltb_spec sn (2 ^ 20));
       [| destruct (Z.ltb_spec sn (2 ^ 28)) ] ];
    unfold sn_top4, sn_second, be_concat;
    change (Z.to_nat 0) with 0%nat; change (Z.to_nat 1) with 1%nat;
    change (Z.to_nat 2) with 2%nat; change (Z.to_nat 3) with 3%nat;
    cbn [sn_option_bytes fold_left];
    change (Z.of_nat 0) with 0; change (Z.of_nat 1) with 1;
    change (Z.of_nat 2) with 2;
    rewrite ?nibble_of_shift, ?byte_of_shift by lia;
    cbn [Z.mul Z.add Pos.mul Pos.add Pos.succ Pos.add_carry];
    change (2 ^ 0) with 1; change (2 ^ 8) with 256;
    change (2 ^ 16) with 65536; change (2 ^ 24) with 16777216;
    change (2 ^ 32) with 4294967296; change (2 ^ 12) with 4096 in *;
    change (2 ^ 20) with 1048576 in *; change (2 ^ 28) with 268435456 in *;
    change (2 ^ 32) with 4294967296 in *;
    Z.to_euclidean_division_equations; lia.
Qed.

Ltac closed_nat :=
  repeat match goal with
  | |- context [Z.to_nat ?z] =>
      let v := eval vm_compute in (Z.to_nat z) in
      change (Z.to_nat z) with v
  end.

Ltac unwrap_bytes :=
  repeat match goal with
  | |- context [wrap8 (Z.land ?x 255)] =>
      rewrite (wrap8_small (Z.land x 255)) by apply land_ff_uint8
  | |- context [wrap8 (Z.lor ?a (Z.land ?x 15))] =>
      rewrite (wrap8_small (Z.lor a (Z.land x 15)))
        by (apply lor_uint8;
            [apply ack_mode_uint8
            | pose proof (land_f_bound x); unfold uint8; lia])
  | |- context [wrap8 (Z.lor ?a 0)] =>
      rewrite (wrap8_small (Z.lor a 0))
        by (apply lor_uint8; [apply ack_mode_uint8 | unfold uint8; lia])
  end.

Ltac add_sn_step :=
  unfold add_sn_option at 1;
  rewrite f_add_option_sn_at
    by (try reflexivity; try apply land_ff_uint8;
        try (unfold FEEDBACK_DATA_MAX_LEN; lia);
        rewrite ?length_list_set; cbn [length]; lia);
  run.

Ltac feedback2_finish Hvalue :=
  eexists; (split; [reflexivity |]); fb_simpl; closed_nat;
  cbn [list_set firstn sn_option_bytes flat_map length option_with_byte app];
  change (Z.lor (Z.shiftl OPT_TYPE_SN 4) 1) with 65;
  change (Z.of_nat 0) with 0; change (Z.of_nat 1) with 1;
  change (Z.of_nat 2) with 2; change (Z.of_nat 3) with 3;
  unfold sn_top4, sn_second in *;
  change (2 ^ 12) with 4096 in *; change (2 ^ 20) with 1048576 in *;
  change (2 ^ 28) with 268435456 in *;
  change (2 ^ 32) with 4294967296 in *;
  repeat split; try reflexivity; try lia; try exact Hvalue.

(** C4: for every 32-bit SN, [f_feedback2] returns ROHC_OK and leaves a
    FEEDBACK-2 element made of the octet with the ACK type, the mode and the
    top 4 SN bits, of the octet with the next 8 SN bits, and of 0, 1, 2 or 3
    SN options of one byte each according to the range of the SN; read
    big-endian, the SN bits of the element are the SN. *)
Theorem f_feedback2_layout (acktype mode sn : Z) (fb : d_feedback) :
  uint32 sn -> data_is_array fb -> feedback2_layout acktype mode sn fb.
Proof.
  intros Hsn Harr. pose proof (sn_field_value sn Hsn) as Hvalue.
  revert Hvalue.
  destruct fb as [ty d sz]. unfold data_is_array in Harr. cbn [data] in Harr.
  unfold FEEDBACK_DATA_MAX_LEN in Harr.
  do 8 (destruct d as [| ? d]; [cbn [length] in Harr; lia |]).
  unfold feedback2_layout, f_feedback2, sn_options_count, packet_bytes,
    feedback2_first_octet.
  fb_simpl.
  change (Z.shiftl 1 12) with (2 ^ 12).
  change (Z.shiftl 1 (12 + 8)) with (2 ^ 20).
  change (Z.shiftl 1 (12 + 8 + 8)) with (2 ^ 28).
  rewrite set_data_at by in_array. run. fb_simpl.
  rewrite (wrap8_small _ (ack_mode_uint8 acktype mode)).
  unfold uint32 in Hsn.
  destruct (Z.ltb_spec sn (2 ^ 12));
    [| destruct (Z.ltb_spec sn (2 ^ 20));
       [| destruct (Z.ltb_spec sn (2 ^ 28)) ] ];
    intros Hvalue;
    unfold or_data0; fb_simpl;
    rewrite load_at by (cbn [length]; lia); run;
    rewrite set_data_at by in_array; run; fb_simpl;
    rewrite list_set_twice;
    rewrite set_data_at by in_array; run; fb_simpl;
    unwrap_bytes.
  - feedback2_finish Hvalue.
  - add_sn_step. feedback2_finish Hvalue.
  - do 2 add_sn_step. feedback2_finish Hvalue.
  - do 3 add_sn_step.
    assert (Htop : Z.land (Z.shiftr sn (8 + 8 * 3)) 15 = 0).
    { rewrite nibble_of_shift by lia. rewrite Z.div_small by lia.
      reflexivity. }
    feedback2_finish Hvalue. rewrite Htop. reflexivity.
Qed.

(** The witness of C4: a NACK in O-mode for SN 0x12345, which takes one SN
    option. *)
Lemma f_feedback2_layout_witness :
  uint32 0x12345 /\ data_is_array zero_feedback /\
  feedback2_layout 1 1 0x12345 zero_feedback.
Proof.
  assert (Hsn : uint32 0x12345) by (unfold uint32; lia).
  assert (Harr : data_is_array zero_feedback) by reflexivity.
  split; [exact Hsn |]. split; [exact Harr |].
  exact (f_feedback2_layout 1 1 0x12345 zero_feedback Hsn Harr).
Defined.

Example f_feedback2_bytes :
  f_feedback2 1 1 0x12345 zero_feedback
  = Ok (ROHC_OK,
        mk_feedback 2 ([0x51; 0x23; 0x41; 0x45] ++ repeat 0 26) 4).
Proof. vm_compute. reflexivity. Qed.

Lemma full_feedback_built :
  ('(_, fb) <- f_feedback2 0 0 0 zero_feedback ;;
   add_empty_options 28 OPT_TYPE_SN_NOT_VALID fb) = Ok full_feedback.
Proof. vm_compute. reflexivity. Qed.

(** ** The add-CID octet *)

Lemma skipn_list_set (l : list Z) (n : nat) (v : Z) :
  (n < length l)%nat -> skipn n (list_set l n v) = v :: skipn (S n) l.
Proof.
  revert n. induction l as [| h t IH]; intros [| n]; simpl; intros H;
    try lia; auto. apply IH. lia.
Qed.

Lemma firstn_succ_nth (l : list Z) (n : nat) (b : Z) :
  nth_error l n = Some b -> firstn (S n) l = firstn n l ++ [b].
Proof.
  revert n. induction l as [| h t IH]; intros [| n]; simpl; intros H;
    try discriminate.
  - congruence.
  - f_equal. apply IH. exact H.
Qed.

Lemma nth_error_in_range (l : list Z) (n : nat) :
  (n < length l)%nat -> exists b, nth_error l n = Some b.
Proof.
  intros H. destruct (nth_error l n) as [b |] eqn:E; [eauto |].
  apply nth_error_None in E. lia.
Qed.

(** The loop of [f_append_cid] for one byte: the first [n] bytes move one
    place to the right, the bytes after them stay. *)
Lemma move_data_one (n : nat) (d : list Z) :
  (n < length d)%nat ->
  move_data 1 n d = Ok (firstn 1 d ++ firstn n d ++ skipn (S n) d).
Proof.
  revert d. induction n as [| j IH]; intros d H.
  - simpl move_data. destruct d as [| h t]; [simpl in H; lia |].
    reflexivity.
  - cbn [move_data].
    destruct (nth_error_in_range d j ltac:(lia)) as [b Hb].
    rewrite (load_ok _ _ _ Hb). run.
    replace (Z.of_nat j + 1) with (Z.of_nat (S j)) by lia.
    rewrite store_ok by lia. run.
    rewrite IH by (rewrite length_list_set; lia).
    rewrite !firstn_list_set_le by lia.
    rewrite skipn_list_set by lia.
    rewrite (firstn_succ_nth d j b Hb), <- app_assoc. reflexivity.
Qed.

Lemma add_cid_octet (cid : Z) :
  1 <= cid <= 15 -> wrap8 (Z.lor (Z.land cid 15) (wrap8 224)) = Z.lor 224 cid.
Proof.
  intros H. change (wrap8 224) with 224.
  change 15 with (Z.ones 4). rewrite Z.land_ones by lia.
  rewrite Z.mod_small by lia. rewrite Z.lor_comm.
  apply wrap8_small. apply lor_uint8; unfold uint8; lia.
Qed.

(** The run of the small-CID branch of [f_append_cid] on a packet that
    leaves one byte free. *)
Lemma append_small_cid_run (acid_alloc : bool) (fb : d_feedback) (cid : Z) :
  1 <= size fb < Z.of_nat (length (data fb)) -> 1 <= cid <= 15 ->
  f_append_cid acid_alloc fb cid ROHC_SMALL_CID
  = Ok (1, mk_feedback (type fb)
             (Z.lor 0xe0 cid
              :: firstn (Z.to_nat (size fb)) (data fb)
                 ++ skipn (S (Z.to_nat (size fb))) (data fb))
             (size fb + 1)).
Proof.
  intros Hsize Hcid. destruct fb as [ty d sz]. cbn [data size type] in *.
  unfold f_append_cid. fb_simpl.
  destruct (Z.leb_spec cid ROHC_SMALL_CID_MAX);
    [| unfold ROHC_SMALL_CID_MAX in *; lia].
  destruct (Z.eqb_spec cid 0); [lia |].
  destruct (Z.geb_spec sz 1); [| lia].
  unfold assert. run. cbv beta iota delta [negb].
  rewrite move_data_one by lia. run.
  destruct d as [| h t]; [simpl in Hsize; lia |].
  cbn [firstn app].
  rewrite set_data_at by (cbn [data length]; lia). run. fb_simpl.
  change (Z.to_nat 0) with 0%nat. cbn [list_set].
  change 0 with (Z.of_nat 0) at 1.
  rewrite (load_ok _ 0 (wrap8 224)) by reflexivity. run.
  rewrite set_data_at by (cbn [data length]; lia). run. fb_simpl.
  change (Z.to_nat 0) with 0%nat. cbn [list_set].
  rewrite add_cid_octet by exact Hcid. reflexivity.
Qed.

(** The small-CID branch where the array has room: for a non-empty feedback
    packet that leaves one byte free in the array, [f_append_cid] with a
    small CID in [1, 15] prepends the octet [0xE0 | cid], moves the bytes of
    the packet one place to the right and adds one to the size; with the
    small CID 0 it changes nothing; it returns 1 in both cases. *)
Theorem f_append_cid_small (fb : d_feedback) (cid : Z) :
  data_is_array fb -> 1 <= size fb ->
  (size fb < FEEDBACK_DATA_MAX_LEN -> 1 <= cid <= 15 ->
   small_cid_prepended fb cid) /\
  small_cid_zero_unchanged fb.
Proof.
  intros Harr Hsize. unfold data_is_array in Harr. split.
  - intros Hroom Hcid acid_alloc.
    rewrite append_small_cid_run by (try assumption; lia).
    eexists. split; [reflexivity |]. unfold packet_bytes. fb_simpl.
    split; [reflexivity |].
    split.
    { cbn [length]. rewrite length_app, length_firstn, length_skipn. lia. }
    split; [reflexivity |].
    replace (Z.to_nat (size fb + 1)) with (S (Z.to_nat (size fb))) by lia.
    cbn [firstn]. f_equal.
    rewrite firstn_app, firstn_firstn, Nat.min_id, length_firstn.
    replace (Z.to_nat (size fb)
             - Nat.min (Z.to_nat (size fb)) (length (data fb)))%nat
      with 0%nat by lia.
    cbn [firstn]. apply app_nil_r.
  - intros acid_alloc. unfold f_append_cid.
    change (assert (0 <=? ROHC_SMALL_CID_MAX)) with (Ok tt). reflexivity.
Qed.

(** The add-CID octet for CID 3 in front of a 4-byte FEEDBACK-2 element. *)
Lemma f_append_cid_small_witness :
  data_is_array (mk_feedback 2 ([0x51; 0x23; 0x41; 0x45] ++ repeat 0 26) 4) /\
  1 <= 4 /\ 4 < FEEDBACK_DATA_MAX_LEN /\ 1 <= 3 <= 15 /\
  small_cid_prepended
    (mk_feedback 2 ([0x51; 0x23; 0x41; 0x45] ++ repeat 0 26) 4) 3 /\
  small_cid_zero_unchanged
    (mk_feedback 2 ([0x51; 0x23; 0x41; 0x45] ++ repeat 0 26) 4).
Proof.
  assert (Harr : data_is_array
            (mk_feedback 2 ([0x51; 0x23; 0x41; 0x45] ++ repeat 0 26) 4))
    by reflexivity.
  assert (Hsize : 1 <= 4) by lia.
  assert (Hroom : 4 < FEEDBACK_DATA_MAX_LEN) by reflexivity.
  assert (Hcid : 1 <= 3 <= 15) by lia.
  split; [exact Harr |]. split; [exact Hsize |]. split; [exact Hroom |].
  split; [exact Hcid |].
  split.
  - exact (proj1 (f_append_cid_small _ 3 Harr Hsize) Hroom Hcid).
  - exact (proj2 (f_append_cid_small _ 3 Harr Hsize)).
Defined.

(** The loop of [f_append_cid] started on a full array: its first turn
    writes after the last byte of the array. *)
Lemma move_data_full (k : Z) (d : list Z) :
  1 <= k -> d <> [] -> move_data k (length d) d = Fault OutOfBounds.
Proof.
  intros Hk Hd. destruct (length d) as [| j] eqn:Elen.
  - destruct d; [contradiction | discriminate].
  - cbn [move_data].
    destruct (nth_error_in_range d j ltac:(lia)) as [b Hb].
    rewrite (load_ok _ _ _ Hb). run. unfold store.
    destruct (Z.ltb_spec (Z.of_nat j + k) 0); [reflexivity |].
    destruct (Z.leb_spec (Z.of_nat (length d)) (Z.of_nat j + k));
      [reflexivity | lia].
Qed.

(** The length detection of the SDVL encoding on a large CID. *)
Lemma c_bytesSdvl_large_cid (cid : Z) :
  0 <= cid <= ROHC_LARGE_CID_MAX -> c_bytesSdvl cid = 1 \/ c_bytesSdvl cid = 2.
Proof.
  unfold ROHC_LARGE_CID_MAX, c_bytesSdvl. intros H.
  destruct (Z.leb_spec cid (2 ^ 7 - 1)); [left; reflexivity |].
  destruct (Z.leb_spec cid (2 ^ 14 - 1)); [right; reflexivity | lia].
Qed.

(** C6 does not hold of the source on a packet that fills the array. For a
    feedback packet of 30 bytes in the 30-byte array and a small CID in
    [1, 15], [f_append_cid] does not test the room: the first turn of its
    loop copies [data[29]] to [data[30]], after the end of the array, where
    the claim promises the packet with the add-CID octet in front. The
    branch of the large CID in the same function makes the test and returns
    0 without touching the packet. *)
Theorem f_append_cid_small_overruns (fb : d_feedback) (cid : Z) :
  data_is_array fb -> size fb = FEEDBACK_DATA_MAX_LEN -> 1 <= cid <= 15 ->
  small_cid_overruns_array fb cid.
Proof.
  unfold data_is_array, FEEDBACK_DATA_MAX_LEN, small_cid_overruns_array.
  intros Harr Hsize Hcid. destruct fb as [ty d sz]. cbn [data size] in *.
  subst sz. split; [| split].
  - destruct (nth_error_in_range d 29 ltac:(lia)) as [b Hb].
    exists b. split; [exact (load_ok d 29 b Hb) |].
    unfold store. rewrite Harr. reflexivity.
  - intros acid_alloc. unfold f_append_cid. fb_simpl.
    destruct (Z.leb_spec cid ROHC_SMALL_CID_MAX);
      [| unfold ROHC_SMALL_CID_MAX in *; lia].
    destruct (Z.eqb_spec cid 0); [lia |].
    unfold assert. run. cbv beta iota delta [negb].
    change (30 >=? 1) with true. cbv beta iota.
    replace (Z.to_nat 30) with (length d) by lia.
    rewrite move_data_full; [reflexivity | lia |].
    intros ->. simpl in Harr. lia.
  - intros acid_alloc large_cid Hlarge. unfold f_append_cid. fb_simpl.
    destruct (Z.leb_spec large_cid ROHC_LARGE_CID_MAX); [| lia].
    destruct (c_bytesSdvl_large_cid large_cid Hlarge) as [-> | ->];
      reflexivity.
Qed.

(** The failing input of C6: the FEEDBACK-2 packet of 30 bytes that
    [f_feedback2] and 28 calls to [f_add_option] build, and the small CID
    1. *)
Lemma f_append_cid_small_overruns_witness :
  ('(_, fb) <- f_feedback2 0 0 0 zero_feedback ;;
   add_empty_options 28 OPT_TYPE_SN_NOT_VALID fb) = Ok full_feedback /\
  data_is_array full_feedback /\
  size full_feedback = FEEDBACK_DATA_MAX_LEN /\
  small_cid_overruns_array full_feedback 1.
Proof.
  split; [exact full_feedback_built |].
  split; [reflexivity |]. split; [reflexivity |].
  apply (f_append_cid_small_overruns full_feedback 1).
  - reflexivity.
  - reflexivity.
  - lia.
Defined.

Example f_append_cid_small_full_array_run :
  f_append_cid true full_feedback 1 ROHC_SMALL_CID = Fault OutOfBounds /\
  f_append_cid true full_feedback 1 ROHC_LARGE_CID = Ok (0, full_feedback).
Proof. split; reflexivity. Qed.

(** ** The large CID *)

Lemma move_data_ok (k : Z) (n : nat) (d : list Z) :
  0 <= k -> Z.of_nat n + k <= Z.of_nat (length d) ->
  exists d', move_data k n d = Ok d' /\ length d' = length d.
Proof.
  intros Hk. revert d. induction n as [| j IH]; intros d H.
  - exists d. split; reflexivity.
  - cbn [move_data].
    destruct (nth_error_in_range d j ltac:(lia)) as [b Hb].
    rewrite (load_ok _ _ _ Hb). run.
    rewrite store_at by lia. run.
    destruct (IH (list_set d (Z.to_nat (Z.of_nat j + k)) b)) as (d' & Hr & Hl).
    { rewrite length_list_set. lia. }
    exists d'. split; [exact Hr |]. rewrite Hl. apply length_list_set.
Qed.

Lemma copy_to_ok (src d : list Z) (i : Z) :
  0 <= i -> i + Z.of_nat (length src) <= Z.of_nat (length d) ->
  exists d', copy_to d i src = Ok d' /\ length d' = length d.
Proof.
  revert d i. induction src as [| b rest IH]; intros d i Hi H.
  - exists d. split; reflexivity.
  - cbn [copy_to]. cbn [length] in H.
    rewrite store_at by lia. run.
    destruct (IH (list_set d (Z.to_nat i) b) (i + 1)) as (d' & Hr & Hl).
    { lia. }
    { rewrite length_list_set. lia. }
    exists d'. split; [exact Hr |]. rewrite Hl. apply length_list_set.
Qed.

Lemma sdvl_large_cid (cid : Z) :
  0 <= cid <= ROHC_LARGE_CID_MAX ->
  1 <= c_bytesSdvl cid <= 2 /\
  exists acid,
    c_encodeSdvl cid = Some acid /\
    Z.of_nat (length acid) = c_bytesSdvl cid.
Proof.
  unfold ROHC_LARGE_CID_MAX, c_encodeSdvl, c_bytesSdvl. intros H.
  destruct (Z.leb_spec cid (2 ^ 7 - 1)).
  - split; [lia |]. eexists. split; reflexivity.
  - destruct (Z.leb_spec cid (2 ^ 14 - 1)); [| lia].
    split; [lia |]. eexists. split; reflexivity.
Qed.

(** [f_append_cid] succeeds on a non-empty packet that leaves room for the
    CID. *)
Lemma append_cid_runs (fb : d_feedback) (cid : Z)
    (cid_type : rohc_cid_type_t) :
  data_is_array fb -> 1 <= size fb ->
  size fb + cid_bytes_max cid_type + 2 <= FEEDBACK_DATA_MAX_LEN ->
  0 <= cid <= cid_max cid_type ->
  exists f1,
    f_append_cid true fb cid cid_type = Ok (1, f1) /\
    type f1 = type fb /\ length (data f1) = length (data fb) /\
    size fb <= size f1 <= size fb + cid_bytes_max cid_type.
Proof.
  intros Harr Hsz Hroom Hcid.
  destruct cid_type; cbn [cid_max cid_bytes_max] in *.
  - destruct (sdvl_large_cid cid Hcid) as (Hk & acid & Henc & Hlen).
    unfold data_is_array, FEEDBACK_DATA_MAX_LEN in *.
    unfold f_append_cid.
    destruct (Z.leb_spec cid ROHC_LARGE_CID_MAX); [| lia].
    destruct (Z.gtb_spec (c_bytesSdvl cid) 0); [| lia].
    destruct (Z.leb_spec (c_bytesSdvl cid) 5); [| lia].
    destruct (Z.leb_spec (c_bytesSdvl cid) 0); [lia |].
    destruct (Z.gtb_spec (c_bytesSdvl cid) 4); [lia |].
    destruct (Z.gtb_spec (size fb + c_bytesSdvl cid) 30); [lia |].
    destruct (Z.geb_spec (size fb) 1); [| lia].
    unfold assert. cbv beta iota delta [bind andb orb negb].
    destruct (move_data_ok (c_bytesSdvl cid) (Z.to_nat (size fb)) (data fb))
      as (d1 & Hmove & Hl1); [lia | lia |].
    rewrite Hmove, Henc. cbv beta iota. fb_simpl.
    destruct (copy_to_ok (firstn (Z.to_nat (c_bytesSdvl cid)) acid) d1 0)
      as (d2 & Hcopy & Hl2); [lia | rewrite length_firstn; lia |].
    rewrite Hcopy. cbv beta iota.
    eexists. split; [reflexivity |]. fb_simpl.
    repeat split; try congruence; lia.
  - unfold data_is_array, ROHC_SMALL_CID_MAX, FEEDBACK_DATA_MAX_LEN in *.
    destruct (Z.eq_dec cid 0) as [-> | Hnz].
    + exists fb. split; [reflexivity |]. repeat split; lia.
    + rewrite append_small_cid_run by lia.
      eexists. split; [reflexivity |]. fb_simpl.
      split; [reflexivity |].
      split; [| lia].
      cbn [length]. rewrite length_app, length_firstn, length_skipn. lia.
Qed.

(** ** The CRC option *)

Lemma set_data_inv (fb fb' : d_feedback) (i v : Z) :
  set_data i v fb = Ok fb' ->
  0 <= i < Z.of_nat (length (data fb)) /\
  fb' = mk_feedback (type fb) (list_set (data fb) (Z.to_nat i) (wrap8 v))
          (size fb).
Proof.
  unfold set_data. destruct (store (data fb) i (wrap8 v)) as [d |] eqn:E;
    [| discriminate].
  run. intros [= <-]. apply store_inv in E as (Hi & ->). auto.
Qed.

(** What a run of [f_add_option] for the CRC option has done when it
    returns. *)
Lemma f_add_option_crc_inv (fb fb' : d_feedback) (r : rohc_status) :
  f_add_option fb OPT_TYPE_CRC None 0 = Ok (r, fb') ->
  0 <= size fb /\ size fb + 2 <= Z.of_nat (length (data fb)) /\
  r = ROHC_OK /\
  fb' = mk_feedback (type fb)
          (list_set (list_set (data fb) (Z.to_nat (size fb)) 0x11)
             (S (Z.to_nat (size fb))) 0)
          (size fb + 2).
Proof.
  unfold f_add_option.
  destruct (assert (type fb =? 2)); [| discriminate]. run.
  destruct (set_data (size fb) (Z.land OPT_TYPE_CRC 15) fb) as [f1 |] eqn:E1;
    [| discriminate].
  apply set_data_inv in E1 as (H1 & ->). fb_simpl.
  rewrite load_at by exact H1.
  rewrite set_data_at by (cbn [data]; rewrite length_list_set; exact H1).
  fb_simpl. rewrite list_set_twice.
  change ((OPT_TYPE_CRC =? OPT_TYPE_CRC) || negb true) with true.
  cbv beta iota.
  change (assert ((0 =? 0) || (0 =? 1))) with (Ok tt). run.
  rewrite load_at by exact H1.
  rewrite set_data_at by (cbn [data]; rewrite length_list_set; exact H1).
  fb_simpl. rewrite list_set_twice.
  change (OPT_TYPE_CRC =? OPT_TYPE_CRC) with true. cbv beta iota.
  change (assert true) with (Ok tt). change (assert (0 =? 0)) with (Ok tt).
  run.
  match goal with
  | |- context [set_data ?i ?v ?f] =>
      destruct (set_data i v f) as [f2 |] eqn:E2; [| discriminate]
  end.
  apply set_data_inv in E2 as (H2 & ->). fb_simpl.
  cbn [data set_size size type] in H2. rewrite length_list_set in H2.
  intros [= <- <-]. cbn [data set_size size type].
  change (wrap8
            (Z.lor (wrap8 (Z.shiftl (wrap8 (Z.land OPT_TYPE_CRC 15)) 4)) 1))
    with 0x11.
  change (wrap8 0) with 0.
  replace (Z.to_nat (size fb + 1)) with (S (Z.to_nat (size fb))) by lia.
  change (wrap8 17) with 17. unfold set_size. cbn [type data size].
  repeat split; try lia. f_equal. lia.
Qed.

(** The bytes of a packet to which the CRC option was just added. *)
Lemma firstn_crc_option (d : list Z) (n : nat) (a b : Z) :
  (n + 2 <= length d)%nat ->
  firstn (n + 2) (list_set (list_set d n a) (S n) b) = firstn n d ++ [a; b].
Proof.
  intros H. replace (n + 2)%nat with (S (S n)) by lia.
  rewrite firstn_succ_list_set by (rewrite length_list_set; lia).
  rewrite firstn_succ_list_set by lia.
  rewrite <- app_assoc. reflexivity.
Qed.

Lemma list_set_last (body : list Z) (a b c : Z) :
  list_set (body ++ [a; b]) (S (length body)) c = body ++ [a; c].
Proof. induction body as [| h t IH]; simpl; [| rewrite IH]; reflexivity. Qed.

(** The CRC option added to a FEEDBACK-2 packet that has room for it. *)
Lemma f_add_option_crc_at (fb : d_feedback) :
  type fb = 2 -> 0 <= size fb ->
  size fb + 2 <= Z.of_nat (length (data fb)) ->
  f_add_option fb OPT_TYPE_CRC None 0
  = Ok (ROHC_OK,
        mk_feedback (type fb)
          (list_set (list_set (data fb) (Z.to_nat (size fb)) 0x11)
             (S (Z.to_nat (size fb))) 0)
          (size fb + 2)).
Proof.
  intros Hty Hsz Hlen.
  destruct (f_add_option fb OPT_TYPE_CRC None 0) as [[r fb'] | f] eqn:E.
  - apply f_add_option_crc_inv in E as (_ & _ & -> & ->). reflexivity.
  - exfalso. revert E. unfold f_add_option. rewrite Hty.
    change (assert (2 =? 2)) with (Ok tt). run.
    rewrite set_data_at by lia. run. fb_simpl.
    rewrite load_at by lia. run.
    rewrite set_data_at by (cbn [data]; rewrite length_list_set; lia).
    run. fb_simpl.
    change ((OPT_TYPE_CRC =? OPT_TYPE_CRC) || negb true) with true.
    cbv beta iota.
    change (assert ((0 =? 0) || (0 =? 1))) with (Ok tt). run.
    rewrite load_at by (rewrite length_list_set; lia). run.
    rewrite set_data_at by (cbn [data]; rewrite !length_list_set; lia).
    run. fb_simpl.
    change (OPT_TYPE_CRC =? OPT_TYPE_CRC) with true. cbv beta iota.
    change (assert true) with (Ok tt). change (assert (0 =? 0)) with (Ok tt).
    run. unfold set_size. fb_simpl.
    rewrite set_data_at by (cbn [data]; rewrite !length_list_set; lia).
    run. discriminate.
Qed.

Section WrapFeedbackTheory.

Variable crc_calculate : rohc_crc_type_t -> list Z -> Z -> Z -> list Z -> Z.

(** Every packet that [f_wrap_feedback] returns with the CRC option. *)
Lemma wrap_feedback_crc_returned (acid_alloc packet_alloc : bool)
    (fb fb' : d_feedback) (cid : Z) (cid_type : rohc_cid_type_t)
    (with_crc : Z) (crc_table packet : list Z) (final_size : Z) :
  with_crc <> 0 ->
  f_wrap_feedback crc_calculate acid_alloc packet_alloc fb cid cid_type
    with_crc crc_table = Ok (Some (packet, final_size), fb') ->
  crc_option_at_end crc_calculate crc_table packet final_size /\
  size fb' = 0.
Proof.
  intros Hcrc. unfold f_wrap_feedback.
  destruct (f_append_cid acid_alloc fb cid cid_type) as [[appended f1] |];
    [| discriminate].
  run. destruct (appended =? 0); [discriminate |].
  destruct (Z.eqb_spec with_crc 0) as [E | _]; [contradiction |].
  cbv beta iota delta [negb].
  destruct (f_add_option f1 OPT_TYPE_CRC None 0) as [[r f2] |] eqn:Eopt;
    [| discriminate].
  apply f_add_option_crc_inv in Eopt as (Hsz & Hlen & -> & ->).
  destruct packet_alloc; cbv beta iota delta [negb]; [| discriminate].
  unfold memcpy. fb_simpl. rewrite !length_list_set.
  destruct (Z.ltb_spec (size f1 + 2) 0); [lia |].
  destruct (Z.ltb_spec (Z.of_nat (length (data f1))) (size f1 + 2)); [lia |].
  cbv beta iota delta [orb]. run.
  replace (Z.to_nat (size f1 + 2)) with (Z.to_nat (size f1) + 2)%nat by lia.
  rewrite firstn_crc_option by lia.
  set (body := firstn (Z.to_nat (size f1)) (data f1)).
  assert (Hbody : length body = Z.to_nat (size f1))
    by (unfold body; rewrite length_firstn; lia).
  replace (size f1 + 2 - 1) with (Z.of_nat (S (length body))) by lia.
  rewrite store_ok by (rewrite length_app; cbn [length]; lia).
  rewrite list_set_last.
  intros [= <- <- <-]. split; [| reflexivity].
  exists body. unfold option_with_byte.
  change (Z.lor (Z.shiftl OPT_TYPE_CRC 4) 1) with 17.
  rewrite (wrap8_small _ (land_ff_uint8 _)).
  split; [reflexivity |]. rewrite length_app. cbn [length]. lia.
Qed.

(** [f_wrap_feedback] does return a packet for every FEEDBACK-2 element
    that leaves room for the CID and the CRC option, when the allocations
    succeed. *)
Lemma wrap_feedback_returns (fb : d_feedback) (cid : Z)
    (cid_type : rohc_cid_type_t) (with_crc : Z) (crc_table : list Z) :
  type fb = 2 -> data_is_array fb -> 1 <= size fb ->
  size fb + cid_bytes_max cid_type + 2 <= FEEDBACK_DATA_MAX_LEN ->
  0 <= cid <= cid_max cid_type -> with_crc <> 0 ->
  exists packet final_size fb',
    f_wrap_feedback crc_calculate true true fb cid cid_type with_crc
      crc_table = Ok (Some (packet, final_size), fb').
Proof.
  intros Hty Harr Hsz Hroom Hcid Hcrc.
  destruct (append_cid_runs fb cid cid_type Harr Hsz Hroom Hcid)
    as (f1 & Hrun & Ht1 & Hl1 & Hs1).
  rewrite Hty in Ht1.
  unfold data_is_array, FEEDBACK_DATA_MAX_LEN in *.
  unfold f_wrap_feedback. rewrite Hrun. run.
  change (1 =? 0) with false. cbv beta iota.
  destruct (Z.eqb_spec with_crc 0) as [E | _]; [contradiction |].
  cbv beta iota delta [negb].
  rewrite f_add_option_crc_at by lia. run.
  unfold memcpy. fb_simpl. rewrite !length_list_set.
  destruct (Z.ltb_spec (size f1 + 2) 0); [lia |].
  destruct (Z.ltb_spec (Z.of_nat (length (data f1))) (size f1 + 2)); [lia |].
  cbv beta iota delta [orb]. run.
  replace (size f1 + 2 - 1) with (Z.of_nat (Z.to_nat (size f1 + 1))) by lia.
  rewrite store_ok
    by (rewrite length_firstn, !length_list_set; lia).
  run. eauto.
Qed.


End WrapFeedbackTheory.


Example f_wrap_feedback_bytes :
  f_wrap_feedback crc_calculate_tables true true
    (mk_feedback 2 ([0x51; 0x23; 0x41; 0x45] ++ repeat 0 26) 4) 3
    ROHC_SMALL_CID 1 (crc_init_table 0xe0)
  = Ok (Some ([0xe3; 0x51; 0x23; 0x41; 0x45; 0x11; 0x24], 7),
        mk_feedback 2 ([0xe3; 0x51; 0x23; 0x41; 0x45; 0x11] ++ repeat 0 24)
          0).
Proof. vm_compute. reflexivity. Qed.

Example crc_8_check_value :
  crc_calculate_tables ROHC_CRC_TYPE_8
    [0x31; 0x32; 0x33; 0x34; 0x35; 0x36; 0x37; 0x38; 0x39] 9 CRC_INIT_8
    (crc_init_table 0xe0) = 0xd0.
Proof. vm_compute. reflexivity. Qed.

End FeedbackTheory.

(** * The IP header walker: proofs *)

Module IpTheory.

Import Ip IpSpec.

Lemma nth_firstn_app (p q : list Z) (i n : nat) :
  (i < n)%nat -> (n <= length p)%nat ->
  nth i (firstn n p ++ q) 0 = nth i p 0.
Proof.
  intros Hi Hn. rewrite app_nth1 by (rewrite length_firstn; lia).
  revert i n Hi Hn. induction p as [| h t IH]; intros i n Hi Hn.
  - simpl in Hn. lia.
  - destruct n as [| n]; [lia |]. destruct i as [| i]; simpl; [reflexivity |].
    apply IH; simpl in Hn; lia.
Qed.

Lemma load_first (packet : list Z) :
  (1 <= length packet)%nat -> load packet 0 = Ok (nth 0 packet 0).
Proof.
  destruct packet as [| b t]; simpl; [lia | reflexivity].
Qed.

Lemma nibble_cases (x : Z) :
  0 <= x < 16 ->
  x = 0 \/ x = 1 \/ x = 2 \/ x = 3 \/ x = 4 \/ x = 5 \/ x = 6 \/ x = 7 \/
  x = 8 \/ x = 9 \/ x = 10 \/ x = 11 \/ x = 12 \/ x = 13 \/ x = 14 \/ x = 15.
Proof. lia. Qed.

Lemma copy_header_ok (packet : list Z) (n : Z) (ip : ip_packet) :
  0 <= n <= Z.of_nat (length packet) ->
  copy_header packet n ip
  = Ok (mk_ip (version ip)
          (firstn (Z.to_nat n) packet ++ skipn (Z.to_nat n) (header ip))
          (data ip) (size ip)).
Proof.
  intros H. unfold copy_header, memcpy.
  destruct (Z.ltb_spec n 0); [lia |].
  destruct (Z.ltb_spec (Z.of_nat (length packet)) n); [lia |].
  reflexivity.
Qed.

(** C9: [ip_create] returns 1 for every buffer of at least one byte, with
    the version set to IPV4 or IPV6 for a valid packet, to IPV4_MALFORMED or
    IPV6_MALFORMED for a packet with the matching version nibble and bad
    lengths, and to IP_UNKNOWN for any other nibble, and with [data] and
    [size] set to the buffer and its length; it returns 0 when the size
    is 0. *)
Theorem ip_create_total (ip : ip_packet) (packet : list Z) (size : Z) :
  0 <= size <= Z.of_nat (length packet) ->
  ip_create_classifies ip packet size.
Proof.
  intros Hsize. split.
  - intros ->. reflexivity.
  - intros Hpos. unfold ip_create, get_ip_version, classify, version_nibble.
    destruct (Z.leb_spec size 0); [lia |].
    rewrite load_first by lia. cbv beta iota delta [bind].
    assert (Hn : 0 <= Z.land (Z.shiftr (nth 0 packet 0) 4) 15 < 16).
    { change 15 with (Z.ones 4). rewrite Z.land_ones by lia.
      apply Z.mod_pos_bound. lia. }
    unfold ipv4_lengths_ok, ipv6_length_ok.
    destruct (nibble_cases _ Hn) as
      [E|[E|[E|[E|[E|[E|[E|[E|[E|[E|[E|[E|[E|[E|[E|E]]]]]]]]]]]]]]];
      rewrite E; cbv beta iota;
      try (eexists; split; [reflexivity |]; repeat split; reflexivity).
    + (* IPv4 *)
      unfold sizeof_ipv4_hdr.
      destruct (Z.ltb_spec size 20); destruct (Z.leb_spec 20 size);
        try lia; cbv beta iota delta [andb].
      { eexists. split; [reflexivity |]. repeat split; reflexivity. }
      rewrite copy_header_ok by lia.
      cbv beta iota delta [bind ip_get_hdrlen ip_get_totlen version
                           set_version].
      unfold v4_ihl, v4_tot_len, hdr_ntoh16, hdr_byte. cbn [header].
      change (Z.to_nat 20) with 20%nat.
      rewrite !nth_firstn_app by lia.
      set (ihl4 := Z.land (nth 0 packet 0) 15 * 4).
      set (tot := wrap16 (nth 2 packet 0 * 256 + nth 3 packet 0)).
      destruct (Z.ltb_spec ihl4 20); destruct (Z.leb_spec 20 ihl4);
        try lia; cbv beta iota delta [andb orb];
        [eexists; split; [reflexivity |]; repeat split; reflexivity |].
      destruct (Z.gtb_spec ihl4 size); destruct (Z.leb_spec ihl4 size);
        try lia; cbv beta iota delta [andb orb];
        [eexists; split; [reflexivity |]; repeat split; reflexivity |].
      destruct (Z.eqb_spec tot size); cbv beta iota delta [negb];
        eexists; (split; [reflexivity |]); repeat split; reflexivity.
    + (* IPv6 *)
      unfold sizeof_ipv6_hdr.
      destruct (Z.ltb_spec size 40); destruct (Z.leb_spec 40 size);
        try lia; cbv beta iota delta [andb].
      { eexists. split; [reflexivity |]. repeat split; reflexivity. }
      rewrite copy_header_ok by lia.
      cbv beta iota delta [bind ip_get_totlen version set_version].
      unfold v6_ip6_plen, hdr_ntoh16, hdr_byte, sizeof_ipv6_hdr.
      cbn [header]. change (Z.to_nat 40) with 40%nat.
      rewrite !nth_firstn_app by lia.
      set (tot := wrap16 (40 + (nth 4 packet 0 * 256 + nth 5 packet 0))).
      destruct (Z.eqb_spec tot size); cbv beta iota delta [negb];
        eexists; (split; [reflexivity |]); repeat split; reflexivity.
Qed.

(** The witness of C9: a 40-byte IPv6 packet. *)
Lemma ip_create_total_witness :
  0 <= 40 <= Z.of_nat (length ipv6_hop_by_hop_no_payload) /\
  ip_create_classifies ip_uninitialized ipv6_hop_by_hop_no_payload 40.
Proof.
  assert (H : 0 <= 40 <= Z.of_nat (length ipv6_hop_by_hop_no_payload))
    by (simpl; lia).
  split; [exact H |].
  exact (ip_create_total ip_uninitialized ipv6_hop_by_hop_no_payload 40 H).
Defined.

Example ip_create_short_ipv4 :
  ip_create ip_uninitialized [0x45; 0; 0; 20] 4
  = Ok (1, mk_ip IPV4_MALFORMED [] [0x45; 0; 0; 20] 4).
Proof. reflexivity. Qed.

Example ip_create_other_nibble :
  ip_create ip_uninitialized [0x12; 0x34] 2
  = Ok (1, mk_ip IP_UNKNOWN [] [0x12; 0x34] 2).
Proof. reflexivity. Qed.

(** C7 does not hold of the source: [ip_create] accepts the 40-byte IPv6
    packet whose Next Header field announces a Hop-by-Hop extension, and on
    that packet [ip_get_next_layer], [ip_get_total_extension_size] and
    [ip_get_next_ext_from_ext] read the byte at offset 40 and after, past
    the end of the packet, without any test against its length. *)
Theorem ipv6_extension_walk_reads_past_packet :
  exists ip ext,
    ip_create ip_uninitialized ipv6_hop_by_hop_no_payload 40 = Ok (1, ip) /\
    version ip = IPV6 /\
    Z.of_nat (length (data ip)) = ip_get_totlen ip /\
    reads_past_packet (ip_get_next_layer ip) /\
    ip_get_next_ext_from_ip ip = Ok (Some ext, IPV6_EXT_HOP_BY_HOP) /\
    reads_past_packet (ip_get_next_ext_from_ext ext) /\
    reads_past_packet (ip_get_total_extension_size ip).
Proof.
  eexists. eexists. split; [reflexivity |]. split; [reflexivity |].
  split; [reflexivity |]. split; [reflexivity |]. split; [reflexivity |].
  split; reflexivity.
Qed.

(** ** The loops of the walker never stop for lack of fuel *)

Lemma load_second_length (p : list Z) (b : Z) :
  load p 1 = Ok b -> (2 <= length p)%nat.
Proof.
  destruct p as [| x [| y t]]; simpl; try discriminate. intros _. lia.
Qed.

Lemma load_byte (p : list Z) (i b : Z) :
  Forall uint8 p -> load p i = Ok b -> uint8 b.
Proof.
  intros Hall. unfold load. destruct (i <? 0); [discriminate |].
  destruct (nth_error p (Z.to_nat i)) as [x |] eqn:E; [| discriminate].
  intros [= <-]. apply nth_error_In in E.
  rewrite Forall_forall in Hall. auto.
Qed.

Lemma ptr_add_shorter (p : list Z) (len : Z) :
  uint8 len -> (2 <= length p)%nat ->
  (length (ptr_add p ((len + 1) * 8)) < length p)%nat.
Proof.
  unfold uint8, ptr_add. intros Hlen Hp. rewrite length_skipn. lia.
Qed.

Lemma ptr_add_bytes (p : list Z) (n : Z) :
  Forall uint8 p -> Forall uint8 (ptr_add p n).
Proof.
  unfold ptr_add. intros H. rewrite Forall_forall in *.
  intros x Hx. apply H. rewrite <- (firstn_skipn (Z.to_nat n) p).
  apply in_or_app. right. exact Hx.
Qed.

Lemma load_fault (p : list Z) (i : Z) (f : fault) :
  load p i = Fault f -> f = OutOfBounds.
Proof.
  unfold load. destruct (i <? 0); [congruence |].
  destruct (nth_error p (Z.to_nat i)); congruence.
Qed.

Ltac load_cases E :=
  match goal with
  | |- context [load ?p ?i] =>
      let f := fresh "f" in
      destruct (load p i) as [? | f] eqn:E; cbv beta iota delta [bind];
      [| apply load_fault in E; subst f; discriminate]
  end.

Lemma skip_extensions_fuel (fuel : nat) (t : Z) (p : list Z) :
  Forall uint8 p -> (length p < fuel)%nat ->
  skip_extensions fuel t p <> Fault OutOfFuel.
Proof.
  revert t p. induction fuel as [| fuel IH]; intros t p Hall Hlen; [lia |].
  cbn [skip_extensions]. destruct (is_ipv6_ext t); [| discriminate].
  load_cases E0. load_cases E1.
  pose proof (load_second_length p _ E1) as H2.
  pose proof (load_byte p 1 _ Hall E1) as Hb.
  apply IH; [apply ptr_add_bytes; exact Hall |].
  pose proof (ptr_add_shorter p _ Hb H2). lia.
Qed.

Lemma ext_get_protocol_fuel (fuel : nat) (p : list Z) :
  Forall uint8 p -> (length p <= fuel)%nat ->
  ext_get_protocol fuel p <> Fault OutOfFuel.
Proof.
  revert p. induction fuel as [| fuel IH]; intros p Hall Hlen.
  - destruct p as [| x t]; [| simpl in Hlen; lia]. discriminate.
  - cbn [ext_get_protocol].
    load_cases E0. load_cases E1.
    match goal with
    | |- context [is_ipv6_ext ?t] => destruct (is_ipv6_ext t)
    end; [| discriminate].
    pose proof (load_second_length p _ E1) as H2.
    pose proof (load_byte p 1 _ Hall E1) as Hb.
    apply IH; [apply ptr_add_bytes; exact Hall |].
    pose proof (ptr_add_shorter p _ Hb H2). lia.
Qed.

End IpTheory.

(** * The ESP profile: proofs *)

Module EspTheory.

Import Ip Esp EspSpec.

(** The structure that [read_esphdr] stores: the first eight bytes behind
    the pointer, four for the SPI and four for the sequence number. *)
Lemma read_esphdr_fields (esp : list Z) (hdr : esphdr) :
  read_esphdr esp = Ok hdr ->
  (8 <= length esp)%nat /\
  hdr = mk_esphdr (firstn 4 esp) (firstn 4 (skipn 4 esp)).
Proof.
  unfold read_esphdr, memcpy, sizeof_esphdr.
  destruct (Z.ltb_spec 8 0); [lia |].
  destruct (Z.ltb_spec (Z.of_nat (length esp)) 8); [discriminate |].
  cbv beta iota delta [orb bind]. intros [= <-].
  split; [lia |].
  change (mk_esphdr (firstn 4 (firstn 8 esp)) (skipn 4 (firstn 8 esp))
          = mk_esphdr (firstn 4 esp) (firstn 4 (skipn 4 esp))).
  rewrite firstn_firstn, skipn_firstn_comm. reflexivity.
Qed.

Section EncodeTheory.

Variable G : Type.
Variable c_generic_encode :
  c_context G -> ip_packet -> Z -> list Z -> Z -> rohc_packet_t -> Z ->
  result (encoded G).
Hypothesis c_generic_encode_frame : leaves_esp_part G c_generic_encode.

(** C10: [c_esp_encode] stores the ESP header of the packet in [old_esp]
    only when the packet type chosen by the generic encoder is IR or IR-DYN,
    and what it stores then is the ESP header of the packet itself: the SPI
    and the sequence number found behind the last IP header. For any other
    packet type, and when the encoding fails, [old_esp] and the reference
    SPI are left as they were. *)
Theorem c_esp_encode_old_esp (context : c_context G) (ip : ip_packet)
    (packet_size : Z) (dest : list Z) (dest_size : Z)
    (packet_type : rohc_packet_t) (payload_offset : Z) (e : encoded G) :
  c_esp_encode G c_generic_encode context ip packet_size dest dest_size
    packet_type payload_offset = Ok e ->
  old_esp_updated_on_ir_only G context ip e.
Proof.
  unfold c_esp_encode, old_esp_updated_on_ir_only, esp_header_of,
    reference_spi.
  destruct (last_ip_header_of ip) as [[[last ip_proto] |] |];
    cbv beta iota delta [bind]; try discriminate.
  2: { intros [= <-]. cbn [enc_size enc_context]. repeat split; lia. }
  destruct (Z.eqb_spec ip_proto ROHC_IPPROTO_ESP) as [-> | Hproto];
    cbv beta iota delta [negb].
  2: { intros [= <-]. cbn [enc_size enc_context]. repeat split; lia. }
  destruct (ip_get_next_layer last) as [esp |] eqn:Elayer; [| discriminate].
  destruct (c_generic_encode context ip packet_size dest dest_size
              packet_type payload_offset) as [g |] eqn:Egen;
    [| discriminate].
  pose proof (c_generic_encode_frame _ _ _ _ _ _ _ _ Egen) as Hframe.
  destruct (Z.ltb_spec (enc_size g) 0).
  { intros [= <-]. rewrite Hframe. repeat split; lia. }
  destruct (is_ir_or_ir_dyn (tmp_packet_type (enc_context g))) eqn:Eir.
  - destruct (read_esphdr esp) as [hdr |] eqn:Ehdr; [| discriminate].
    intros [= <-]. cbn [enc_size enc_context set_old_esp tmp_packet_type
                        specific old_esp].
    rewrite Eir. split; [| split]; intros; try discriminate; try lia.
    apply read_esphdr_fields in Ehdr as (Hlen & Hhdr).
    exists last, esp. auto.
  - intros [= <-]. rewrite Hframe, Eir.
    repeat split; intros; try discriminate; lia.
Qed.

End EncodeTheory.

Lemma fixed_generic_encode_frame (chosen : rohc_packet_t) (size : Z) :
  leaves_esp_part unit (fixed_generic_encode chosen size).
Proof.
  unfold leaves_esp_part, fixed_generic_encode. intros. 
  match goal with H : Ok _ = Ok _ |- _ => injection H as <- end.
  reflexivity.
Qed.

(** The witness of C10, on an IPv6/ESP packet and a context that holds
    another SPI: an IR packet stores the ESP header of the packet, a UO-0
    packet leaves the stored header as it was, and so does an IR packet
    whose encoding fails. *)
Lemma c_esp_encode_old_esp_witness :
  (leaves_esp_part unit (fixed_generic_encode PACKET_IR 50) /\
   c_esp_encode unit (fixed_generic_encode PACKET_IR 50) esp_context_0
     ipv6_esp 48 [] 0 PACKET_UNKNOWN 0
   = Ok (mk_encoded 50
           (mk_context PACKET_IR
              (mk_sc_esp (mk_esphdr [0xde; 0xad; 0xbe; 0xef] [0; 0; 0; 1]))
              tt)
           [] PACKET_IR 0) /\
   esp_header_of ipv6_esp (mk_esphdr [0xde; 0xad; 0xbe; 0xef] [0; 0; 0; 1]))
  /\
  (leaves_esp_part unit (fixed_generic_encode PACKET_UO_0 1) /\
   c_esp_encode unit (fixed_generic_encode PACKET_UO_0 1) esp_context_0
     ipv6_esp 48 [] 0 PACKET_UNKNOWN 0
   = Ok (mk_encoded 1 (mk_context PACKET_UO_0 (specific esp_context_0) tt)
           [] PACKET_UO_0 0) /\
   old_esp (specific (mk_context PACKET_UO_0 (specific esp_context_0) tt))
   = mk_esphdr [1; 2; 3; 4] [0; 0; 0; 0]) /\
  (leaves_esp_part unit (fixed_generic_encode PACKET_IR (-1)) /\
   c_esp_encode unit (fixed_generic_encode PACKET_IR (-1)) esp_context_0
     ipv6_esp 48 [] 0 PACKET_UNKNOWN 0
   = Ok (mk_encoded (-1) (mk_context PACKET_IR (specific esp_context_0) tt)
           [] PACKET_IR 0) /\
   old_esp (specific (mk_context PACKET_IR (specific esp_context_0) tt))
   = mk_esphdr [1; 2; 3; 4] [0; 0; 0; 0]).
Proof.
  split; [| split].
  - pose proof (fixed_generic_encode_frame PACKET_IR 50) as Hframe.
    assert (Hrun :
      c_esp_encode unit (fixed_generic_encode PACKET_IR 50) esp_context_0
        ipv6_esp 48 [] 0 PACKET_UNKNOWN 0
      = Ok (mk_encoded 50
              (mk_context PACKET_IR
                 (mk_sc_esp (mk_esphdr [0xde; 0xad; 0xbe; 0xef] [0; 0; 0; 1]))
                 tt)
              [] PACKET_IR 0)) by (vm_compute; reflexivity).
    split; [exact Hframe |]. split; [exact Hrun |].
    apply (proj1 (c_esp_encode_old_esp unit (fixed_generic_encode PACKET_IR 50)
                    Hframe esp_context_0 ipv6_esp 48 [] 0 PACKET_UNKNOWN 0 _
                    Hrun)).
    + simpl. lia.
    + reflexivity.
  - pose proof (fixed_generic_encode_frame PACKET_UO_0 1) as Hframe.
    assert (Hrun :
      c_esp_encode unit (fixed_generic_encode PACKET_UO_0 1) esp_context_0
        ipv6_esp 48 [] 0 PACKET_UNKNOWN 0
      = Ok (mk_encoded 1
              (mk_context PACKET_UO_0 (specific esp_context_0) tt)
              [] PACKET_UO_0 0)) by (vm_compute; reflexivity).
    split; [exact Hframe |]. split; [exact Hrun |].
    apply (proj1 (proj1 (proj2
             (c_esp_encode_old_esp unit (fixed_generic_encode PACKET_UO_0 1)
                Hframe esp_context_0 ipv6_esp 48 [] 0 PACKET_UNKNOWN 0 _
                Hrun)) eq_refl)).
  - pose proof (fixed_generic_encode_frame PACKET_IR (-1)) as Hframe.
    assert (Hrun :
      c_esp_encode unit (fixed_generic_encode PACKET_IR (-1)) esp_context_0
        ipv6_esp 48 [] 0 PACKET_UNKNOWN 0
      = Ok (mk_encoded (-1)
              (mk_context PACKET_IR (specific esp_context_0) tt)
              [] PACKET_IR 0)) by (vm_compute; reflexivity).
    split; [exact Hframe |]. split; [exact Hrun |].
    refine (proj1 (proj2 (proj2
              (c_esp_encode_old_esp unit
                 (fixed_generic_encode PACKET_IR (-1)) Hframe esp_context_0
                 ipv6_esp 48 [] 0 PACKET_UNKNOWN 0 _ Hrun)) _)).
    simpl. lia.
Defined.

Example ip_create_ipv6_esp :
  ip_create ip_uninitialized ipv6_esp_packet 48 = Ok (1, ipv6_esp).
Proof. reflexivity. Qed.

Example c_esp_encode_uo0_keeps_old_esp :
  c_esp_encode unit (fixed_generic_encode PACKET_UO_0 1) esp_context_0
    ipv6_esp 48 [] 0 PACKET_UNKNOWN 0
  = Ok (mk_encoded 1
          (mk_context PACKET_UO_0
             (mk_sc_esp (mk_esphdr [1; 2; 3; 4] [0; 0; 0; 0])) tt)
          [] PACKET_UO_0 0).
Proof. vm_compute. reflexivity. Qed.

End EspTheory.

(** * The scaled RTP timestamp encoder: further properties of [c_add_ts] *)

Module TsScProperties.

Import TsSc TsScSpec TsScExamples TsScTheory.

(** A [uint32_t] timestamp is its quotient by the stride times the stride
    plus its remainder, with the quotient computed as [c_add_ts] does. *)
Lemma ts_decomposition (t k : Z) :
  uint32 t -> 0 < k ->
  0 <= t mod k < k /\ t = wrap32 (t - t mod k) / k * k + t mod k.
Proof.
  intros Ht Hk. split; [apply Z.mod_pos_bound; exact Hk |].
  rewrite scaled_is_quotient by assumption.
  pose proof (Z.div_mod t k ltac:(lia)). lia.
Qed.

(** X1: when a call of [c_add_ts] ends outside INIT_TS, the values it leaves
    decompose the timestamp it was given: TS = TS_SCALED * TS_STRIDE +
    TS_OFFSET with 0 <= TS_OFFSET < TS_STRIDE. *)
Theorem c_add_ts_decomposes_ts (s s' : ts_sc_comp) (new_ts new_sn : Z) :
  uint32 new_ts -> 0 <= ts_stride s ->
  c_add_ts s new_ts new_sn = Ok s' -> state s' <> INIT_TS ->
  ts s' = new_ts /\
  0 <= ts_offset s' < ts_stride s' /\
  ts s' = ts_scaled s' * ts_stride s' + ts_offset s'.
Proof.
  intros Hnew Hstride.
  destruct s as [stride scaled offset t ot n on ded st init nr dl].
  ts_simpl. unfold_add_ts.
  destruct init; ts_simpl.
  2: { destruct st; ts_simpl; try discriminate.
       intros [= <-]. ts_simpl. congruence. }
  pose proof (abs_delta_nonneg new_ts t) as Hnn.
  remember (abs_delta new_ts t) as delta eqn:Edelta.
  pose proof (ts_decomposition new_ts delta Hnew) as Hd.
  pose proof (ts_decomposition new_ts stride Hnew) as Hs.
  destruct (Z.eqb_spec delta 0) as [E0 | E0].
  { intros [= <-]. ts_simpl. congruence. }
  destruct (sdvl_can_value_be_encoded delta); ts_simpl.
  2: { intros [= <-]. ts_simpl. congruence. }
  specialize (Hd ltac:(lia)).
  destruct st; ts_simpl.
  - split_eqb; try contradiction; intros [= <-]; ts_simpl; intros _;
      (split; [reflexivity |]); exact Hd.
  - split_eqb; try contradiction; intros [= <-]; ts_simpl; intros _;
      (split; [reflexivity |]); exact Hd.
  - split_eqb; try discriminate; intros [= <-]; ts_simpl; intros _;
      (split; [reflexivity |]); solve [exact Hd | apply Hs; lia].
Qed.

(** The witness of X1: TS 420 after TS 320 with a stride of 160. *)
Lemma c_add_ts_decomposes_ts_witness :
  uint32 420 /\ 0 <= ts_stride scaled_160 /\
  c_add_ts scaled_160 420 11
  = Ok (mk_ts_sc 100 4 20 420 320 11 10 false INIT_STRIDE true 0 100) /\
  420 = 4 * 100 + 20.
Proof.
  assert (Hts : uint32 420) by (unfold uint32; lia).
  assert (Hstride : 0 <= ts_stride scaled_160) by (simpl; lia).
  assert (Hrun : c_add_ts scaled_160 420 11
                 = Ok (mk_ts_sc 100 4 20 420 320 11 10 false INIT_STRIDE true
                         0 100)) by (vm_compute; reflexivity).
  split; [exact Hts |]. split; [exact Hstride |]. split; [exact Hrun |].
  exact (proj2 (proj2 (c_add_ts_decomposes_ts scaled_160 _ 420 11 Hts Hstride
                         Hrun ltac:(discriminate)))).
Defined.

(** X2: [c_add_ts] never moves an encoder into SEND_SCALED: a call that ends
    in SEND_SCALED started there, with old values recorded, and it keeps the
    stride. *)
Theorem c_add_ts_never_enters_send_scaled (s s' : ts_sc_comp)
    (new_ts new_sn : Z) :
  c_add_ts s new_ts new_sn = Ok s' -> state s' = SEND_SCALED ->
  state s = SEND_SCALED /\ are_old_val_init s = true /\
  ts_stride s' = ts_stride s.
Proof.
  destruct s as [stride scaled offset t ot n on ded st init nr dl].
  ts_simpl. unfold_add_ts.
  destruct init; ts_simpl.
  2: { destruct st; ts_simpl; try discriminate.
       intros [= <-]. ts_simpl. discriminate. }
  destruct (Z.eqb_spec (abs_delta new_ts t) 0) as [E0 | E0].
  { intros [= <-]. ts_simpl. discriminate. }
  destruct (sdvl_can_value_be_encoded (abs_delta new_ts t)); ts_simpl.
  2: { intros [= <-]. ts_simpl. discriminate. }
  destruct st; ts_simpl.
  - split_eqb; try contradiction; intros [= <-]; ts_simpl; discriminate.
  - split_eqb; try contradiction; intros [= <-]; ts_simpl; discriminate.
  - split_eqb; try discriminate; intros [= <-]; ts_simpl;
      try discriminate; intros _; repeat split; reflexivity.
Qed.

(** The witness of X2: one stride further in SEND_SCALED. *)
Lemma c_add_ts_never_enters_send_scaled_witness :
  c_add_ts scaled_160 480 11
  = Ok (mk_ts_sc 160 3 0 480 320 11 10 true SEND_SCALED true 3 160) /\
  state scaled_160 = SEND_SCALED /\ are_old_val_init scaled_160 = true /\
  160 = ts_stride scaled_160.
Proof.
  assert (Hrun : c_add_ts scaled_160 480 11
                 = Ok (mk_ts_sc 160 3 0 480 320 11 10 true SEND_SCALED true
                         3 160)) by (vm_compute; reflexivity).
  split; [exact Hrun |].
  exact (c_add_ts_never_enters_send_scaled scaled_160 _ 480 11 Hrun eq_refl).
Defined.

(** X3: in INIT_STRIDE, a call of [c_add_ts] with a delta that is neither
    zero nor too large stays in INIT_STRIDE and takes the delta as the new
    stride; the count of packets sent with the stride is kept when the
    stride and the offset are the ones of the call before, and reset to 0
    when either of them changed. *)
Theorem c_add_ts_init_stride_counter (s : ts_sc_comp) (new_ts new_sn : Z) :
  state s = INIT_STRIDE -> are_old_val_init s = true ->
  abs_delta new_ts (ts s) <> 0 ->
  sdvl_can_value_be_encoded (abs_delta new_ts (ts s)) = true ->
  let delta := abs_delta new_ts (ts s) in
  exists s',
    c_add_ts s new_ts new_sn = Ok s' /\
    state s' = INIT_STRIDE /\
    ts_stride s' = delta /\
    ts_offset s' = new_ts mod delta /\
    is_deducible s' = false /\
    (delta = ts_stride s /\ new_ts mod delta = ts_offset s ->
     nr_init_stride_packets s' = nr_init_stride_packets s) /\
    (delta <> ts_stride s \/ new_ts mod delta <> ts_offset s ->
     nr_init_stride_packets s' = 0).
Proof.
  destruct s as [stride scaled offset t ot n on ded st init nr dl].
  ts_simpl. intros -> -> Hd Hsdvl.
  unfold_add_ts. rewrite Hsdvl. ts_simpl.
  destruct (Z.eqb_spec (abs_delta new_ts t) 0) as [E0 | E0];
    [contradiction |].
  split_eqb; try contradiction; eexists; (split; [reflexivity |]); ts_simpl;
    repeat split; intros; try reflexivity; try tauto; try lia.
Qed.

(** The witness of X3: a third packet with the same stride. *)
Lemma c_add_ts_init_stride_counter_witness :
  exists s',
    c_add_ts stride_160_sent_twice 480 11 = Ok s' /\
    state s' = INIT_STRIDE /\
    ts_stride s' = abs_delta 480 (ts stride_160_sent_twice) /\
    nr_init_stride_packets s' = 2.
Proof.
  destruct (c_add_ts_init_stride_counter stride_160_sent_twice 480 11
              eq_refl eq_refl ltac:(vm_compute; discriminate) eq_refl)
    as (s' & Hrun & Hst & Hstride & _ & _ & Hkeep & _).
  exists s'. split; [exact Hrun |]. split; [exact Hst |].
  split; [exact Hstride |].
  apply Hkeep. split; reflexivity.
Defined.

(** X4: the steady flow. In SEND_SCALED, a packet whose TS is [k] strides
    and whose SN is [k] numbers after the ones of the packet before (k >= 1,
    packets may have been lost in between) keeps the encoder in SEND_SCALED
    with the same stride and offset, adds [k] to TS_SCALED and leaves the TS
    deducible from the SN. *)
Theorem c_add_ts_steady_flow (s : ts_sc_comp) (k : Z) :
  ts_sc_inv s -> state s = SEND_SCALED -> are_old_val_init s = true ->
  1 <= k -> k * ts_stride s <= 2 ^ 29 - 1 ->
  ts s + k * ts_stride s < 2 ^ 32 -> sn s + k < 2 ^ 16 ->
  exists s',
    c_add_ts s (ts s + k * ts_stride s) (sn s + k) = Ok s' /\
    state s' = SEND_SCALED /\
    is_deducible s' = true /\
    ts_stride s' = ts_stride s /\
    ts_offset s' = ts_offset s /\
    ts_scaled s' = ts_scaled s + k /\
    nr_init_stride_packets s' = nr_init_stride_packets s.
Proof.
  intros (Hts & Hsn & _ & Hinv) Hst Hinit Hk Hmax Hnew Hnewsn.
  destruct s as [stride scaled offset t ot n on ded st init nr dl].
  ts_simpl. subst st init.
  destruct Hinv as (Hstride & Hoff & Hsc); [discriminate |].
  unfold uint32, uint16 in *.
  assert (Hdelta : abs_delta (t + k * stride) t = k * stride).
  { unfold abs_delta, wrap32.
    destruct (Z.geb_spec (t + k * stride) t); [| nia].
    replace (t + k * stride - t) with (k * stride) by lia.
    apply Z.mod_small. nia. }
  assert (F1 : (k * stride) mod stride = 0) by (apply Z.mod_mul; lia).
  assert (F2 : k * stride / stride = k) by (apply Z.div_mul; lia).
  assert (F3 : (t + k * stride) mod stride = t mod stride)
    by (apply Z.mod_add; lia).
  assert (F4 : wrap32 (t + k * stride - (t + k * stride) mod stride) / stride
               = t / stride + k).
  { rewrite scaled_is_quotient by (unfold uint32; nia).
    apply Z.div_add. lia. }
  assert (F5 : sn_increment (n + k) n = k).
  { unfold sn_increment, wrap32. replace (n + k - n) with k by lia.
    apply Z.mod_small. lia. }
  assert (Hscaled : scaled = t / stride).
  { rewrite Hsc, Hoff. apply scaled_is_quotient; [exact Hts | exact Hstride]. }
  assert (F6 : wrap32
                 (wrap32 (t + k * stride - (t + k * stride) mod stride)
                  / stride - scaled) = k).
  { rewrite F4. unfold wrap32.
    replace (t / stride + k - scaled) with k by lia.
    apply Z.mod_small. lia. }
  assert (Hsdvl : sdvl_can_value_be_encoded (k * stride) = true)
    by (apply Z.leb_le; exact Hmax).
  unfold_add_ts. rewrite Hdelta, Hsdvl. ts_simpl.
  destruct (Z.eqb_spec (k * stride) 0) as [E0 | E0]; [nia |].
  split_eqb; try (exfalso; lia);
    eexists; (split; [reflexivity |]); ts_simpl;
    repeat split; try reflexivity; lia.
Qed.

(** The witness of X4: two strides and two sequence numbers further. *)
Lemma c_add_ts_steady_flow_witness :
  ts_sc_inv scaled_160 /\ 1 <= 2 /\
  exists s',
    c_add_ts scaled_160 (ts scaled_160 + 2 * ts_stride scaled_160)
      (sn scaled_160 + 2) = Ok s' /\
    state s' = SEND_SCALED /\
    is_deducible s' = true /\
    ts_stride s' = ts_stride scaled_160 /\
    ts_offset s' = ts_offset scaled_160 /\
    ts_scaled s' = ts_scaled scaled_160 + 2 /\
    nr_init_stride_packets s' = nr_init_stride_packets scaled_160.
Proof.
  assert (Hinv : ts_sc_inv scaled_160).
  { unfold ts_sc_inv, uint32, uint16. simpl.
    repeat split; try lia; try congruence; reflexivity. }
  assert (Hk : 1 <= 2) by lia.
  split; [exact Hinv |]. split; [exact Hk |].
  apply (c_add_ts_steady_flow scaled_160 2 Hinv eq_refl eq_refl Hk);
    simpl; lia.
Defined.

(** X5: on an encoder that satisfies the invariant, [c_add_ts] trips none of
    its assertions and leaves an encoder that satisfies the invariant
    again. *)
Theorem c_add_ts_keeps_invariant (s : ts_sc_comp) (new_ts new_sn : Z) :
  ts_sc_inv s -> uint32 new_ts -> uint16 new_sn ->
  exists s', c_add_ts s new_ts new_sn = Ok s' /\ ts_sc_inv s'.
Proof.
  intros Hinv Hts Hsn.
  destruct (c_add_ts_defined s new_ts new_sn (ts_sc_inv_asserts s Hinv))
    as (s' & Hrun).
  exists s'. split; [exact Hrun |].
  exact (c_add_ts_inv s s' new_ts new_sn Hinv Hts Hsn Hrun).
Qed.

(** The witness of X5: the first packet of a flow. *)
Lemma c_add_ts_keeps_invariant_witness :
  ts_sc_inv c_create_sc /\ uint32 2000 /\ uint16 1000 /\
  exists s', c_add_ts c_create_sc 2000 1000 = Ok s' /\ ts_sc_inv s'.
Proof.
  assert (Hts : uint32 2000) by (unfold uint32; lia).
  assert (Hsn : uint16 1000) by (unfold uint16; lia).
  split; [exact create_sc_inv |]. split; [exact Hts |]. split; [exact Hsn |].
  exact (c_add_ts_keeps_invariant c_create_sc 2000 1000 create_sc_inv Hts Hsn).
Defined.

End TsScProperties.

(** * The feedback builder: further properties *)

Module FeedbackProperties.

Import Feedback FeedbackSpec FeedbackFormats FeedbackTheory.

(** ** Options *)

Lemma option_header_uint8 (opt_type len : Z) :
  0 <= len < 16 -> uint8 (option_header opt_type len).
Proof.
  intros Hlen. unfold option_header. apply lor_uint8; unfold uint8.
  - rewrite Z.shiftl_mul_pow2 by lia. pose proof (land_f_bound opt_type). lia.
  - lia.
Qed.

Lemma shifted_type_byte (opt_type : Z) :
  wrap8 (Z.shiftl (wrap8 (Z.land opt_type 15)) 4)
  = Z.shiftl (Z.land opt_type 15) 4.
Proof.
  pose proof (land_f_bound opt_type) as H.
  rewrite (wrap8_small (Z.land opt_type 15)) by (unfold uint8; lia).
  apply wrap8_small. unfold uint8. rewrite Z.shiftl_mul_pow2 by lia. lia.
Qed.

Lemma option_header_0 (opt_type : Z) :
  option_header opt_type 0 = Z.shiftl (Z.land opt_type 15) 4.
Proof. unfold option_header. apply Z.lor_0_r. Qed.

(** The start of every run of [f_add_option] on a FEEDBACK-2 packet: the
    option header is written at [data[size]]. *)
Ltac add_option_header :=
  unfold f_add_option; cbn [type data size];
  change (assert (2 =? 2)) with (Ok tt); run;
  rewrite set_data_at by (cbn [data]; lia); run; fb_simpl;
  rewrite load_at by lia; run;
  rewrite set_data_at by (cbn [data]; rewrite length_list_set; lia);
  run; fb_simpl; rewrite list_set_twice, shifted_type_byte.

(** An option without data added to a FEEDBACK-2 packet. *)
Lemma f_add_option_no_data_run (ty : Z) (d : list Z) (sz : Z)
    (opt_type : Z) :
  ty = 2 -> opt_type <> OPT_TYPE_CRC -> 0 <= sz < Z.of_nat (length d) ->
  f_add_option (mk_feedback ty d sz) opt_type None 0
  = Ok (ROHC_OK,
        mk_feedback ty (list_set d (Z.to_nat sz) (option_header opt_type 0))
          (sz + 1)).
Proof.
  intros -> Htype Hsz. add_option_header.
  destruct (Z.eqb_spec opt_type OPT_TYPE_CRC); [contradiction |].
  cbv beta iota delta [orb negb].
  change (assert (0 =? 0)) with (Ok tt). cbv beta iota.
  unfold set_size. fb_simpl. rewrite option_header_0. reflexivity.
Qed.

(** An option with one byte of data added to a FEEDBACK-2 packet: the
    header is written and counted first, then the room for the data byte is
    checked. *)
Lemma f_add_option_data_run (ty : Z) (d : list Z) (sz : Z)
    (opt_type b : Z) :
  ty = 2 -> opt_type <> OPT_TYPE_CRC -> 0 <= sz ->
  sz + 1 <= Z.of_nat (length d) ->
  (sz + 2 <= FEEDBACK_DATA_MAX_LEN -> sz + 2 <= Z.of_nat (length d)) ->
  f_add_option (mk_feedback ty d sz) opt_type (Some [b]) 1
  = if sz + 2 >? FEEDBACK_DATA_MAX_LEN
    then Ok (ROHC_ERROR,
             mk_feedback ty
               (list_set d (Z.to_nat sz) (option_header opt_type 1)) (sz + 1))
    else Ok (ROHC_OK,
             mk_feedback ty
               (list_set (list_set d (Z.to_nat sz) (option_header opt_type 1))
                  (S (Z.to_nat sz)) (wrap8 b))
               (sz + 2)).
Proof.
  intros -> Htype Hsz Hlen Hroom. add_option_header.
  destruct (Z.eqb_spec opt_type OPT_TYPE_CRC); [contradiction |].
  change (assert ((1 =? 0) || (1 =? 1))) with (Ok tt).
  cbv beta iota delta [orb negb].
  fb_simpl. rewrite load_at by lia.
  rewrite set_data_at by (cbn [data]; rewrite length_list_set; lia).
  fb_simpl. rewrite list_set_twice.
  rewrite (wrap8_small (Z.lor _ 1))
    by (apply (option_header_uint8 opt_type 1); lia).
  fold (option_header opt_type 1).
  change (assert (1 =? 1)) with (Ok tt). cbv beta iota.
  unfold set_size at 1 2. fb_simpl.
  replace (sz + 1 + 1) with (sz + 2) by lia.
  destruct (Z.gtb_spec (sz + 2) FEEDBACK_DATA_MAX_LEN) as [Hfull | Hfits];
    [reflexivity |].
  change (load [b] 0) with (Ok b). cbv beta iota.
  rewrite set_data_at
    by (cbn [data]; rewrite length_list_set; specialize (Hroom Hfits); lia).
  fb_simpl. unfold set_size. fb_simpl.
  replace (Z.to_nat (sz + 1)) with (S (Z.to_nat sz)) by lia.
  replace (sz + 1 + 1) with (sz + 2) by lia. reflexivity.
Qed.

(** X6: [f_add_option] with one byte of data, for any option type but the
    CRC, on a FEEDBACK-2 packet that leaves two bytes free: it returns
    ROHC_OK, leaves the bytes of the packet as they are and appends the
    octet with the option type and the length 1, then the data byte. *)
Theorem f_add_option_appends_data (fb : d_feedback) (opt_type b : Z) :
  type fb = 2 -> data_is_array fb -> 0 <= size fb ->
  size fb + 2 <= FEEDBACK_DATA_MAX_LEN ->
  opt_type <> OPT_TYPE_CRC -> uint8 b ->
  exists fb',
    f_add_option fb opt_type (Some [b]) 1 = Ok (ROHC_OK, fb') /\
    type fb' = 2 /\ data_is_array fb' /\
    size fb' = size fb + 2 /\
    packet_bytes fb' = packet_bytes fb ++ [option_header opt_type 1; b].
Proof.
  intros Hty Harr Hsz Hroom Htype Hb. destruct fb as [ty d sz].
  unfold data_is_array, packet_bytes in *. cbn [type data size] in *.
  rewrite f_add_option_data_run by (try assumption; lia).
  destruct (Z.gtb_spec (sz + 2) FEEDBACK_DATA_MAX_LEN); [lia |].
  eexists. split; [reflexivity |]. fb_simpl.
  rewrite !length_list_set, (wrap8_small b Hb).
  repeat split; try assumption.
  replace (Z.to_nat (sz + 2)) with (Z.to_nat sz + 2)%nat by lia.
  apply firstn_crc_option. lia.
Qed.

(** The witness of X6: a REJECT option with the data byte 7. *)
Lemma f_add_option_appends_data_witness :
  exists fb',
    f_add_option ack_feedback OPT_TYPE_REJECT (Some [7]) 1
    = Ok (ROHC_OK, fb') /\
    type fb' = 2 /\ data_is_array fb' /\
    size fb' = size ack_feedback + 2 /\
    packet_bytes fb'
    = packet_bytes ack_feedback ++ [option_header OPT_TYPE_REJECT 1; 7].
Proof.
  apply (f_add_option_appends_data ack_feedback OPT_TYPE_REJECT 7).
  - reflexivity.
  - reflexivity.
  - simpl. lia.
  - unfold FEEDBACK_DATA_MAX_LEN. simpl. lia.
  - discriminate.
  - unfold uint8. lia.
Defined.

(** X7: [f_add_option] without data, for any option type but the CRC, on a
    FEEDBACK-2 packet that leaves one byte free: it returns ROHC_OK and
    appends the single octet with the option type and the length 0. *)
Theorem f_add_option_appends_header (fb : d_feedback) (opt_type : Z) :
  type fb = 2 -> data_is_array fb -> 0 <= size fb ->
  size fb + 1 <= FEEDBACK_DATA_MAX_LEN ->
  opt_type <> OPT_TYPE_CRC ->
  exists fb',
    f_add_option fb opt_type None 0 = Ok (ROHC_OK, fb') /\
    type fb' = 2 /\ data_is_array fb' /\
    size fb' = size fb + 1 /\
    packet_bytes fb' = packet_bytes fb ++ [option_header opt_type 0].
Proof.
  intros Hty Harr Hsz Hroom Htype. destruct fb as [ty d sz].
  unfold data_is_array, packet_bytes in *. cbn [type data size] in *.
  rewrite f_add_option_no_data_run by (try assumption; lia).
  eexists. split; [reflexivity |]. fb_simpl.
  rewrite !length_list_set.
  repeat split; try assumption.
  replace (Z.to_nat (sz + 1)) with (S (Z.to_nat sz)) by lia.
  apply firstn_succ_list_set. lia.
Qed.

(** The witness of X7: an SN-NOT-VALID option. *)
Lemma f_add_option_appends_header_witness :
  exists fb',
    f_add_option ack_feedback OPT_TYPE_SN_NOT_VALID None 0
    = Ok (ROHC_OK, fb') /\
    type fb' = 2 /\ data_is_array fb' /\
    size fb' = size ack_feedback + 1 /\
    packet_bytes fb'
    = packet_bytes ack_feedback ++ [option_header OPT_TYPE_SN_NOT_VALID 0].
Proof.
  apply (f_add_option_appends_header ack_feedback OPT_TYPE_SN_NOT_VALID).
  - reflexivity.
  - reflexivity.
  - simpl. lia.
  - unfold FEEDBACK_DATA_MAX_LEN. simpl. lia.
  - discriminate.
Defined.

(** X8: the bounds of [f_add_option]. On a FEEDBACK-2 packet that leaves a
    single byte free, an option with a data byte is refused with ROHC_ERROR,
    but only after its header was written and counted: the packet is left
    one octet longer. On a packet that fills the array, every call writes
    the option header at [data[30]], outside the array. *)
Theorem f_add_option_bounds (fb : d_feedback) (opt_type : Z) :
  type fb = 2 -> data_is_array fb ->
  (size fb = FEEDBACK_DATA_MAX_LEN - 1 -> opt_type <> OPT_TYPE_CRC ->
   forall b,
   exists fb',
     f_add_option fb opt_type (Some [b]) 1 = Ok (ROHC_ERROR, fb') /\
     size fb' = FEEDBACK_DATA_MAX_LEN /\
     packet_bytes fb' = packet_bytes fb ++ [option_header opt_type 1]) /\
  (size fb = FEEDBACK_DATA_MAX_LEN ->
   forall opt_data data_len,
     f_add_option fb opt_type opt_data data_len = Fault OutOfBounds).
Proof.
  intros Hty Harr. destruct fb as [ty d sz].
  unfold data_is_array, packet_bytes, FEEDBACK_DATA_MAX_LEN in *.
  cbn [type data size] in *. split.
  - intros -> Htype b.
    rewrite f_add_option_data_run
      by (try assumption; unfold FEEDBACK_DATA_MAX_LEN; lia).
    change (30 - 1 + 2 >? FEEDBACK_DATA_MAX_LEN) with true. cbv iota.
    eexists. split; [reflexivity |]. fb_simpl.
    split; [reflexivity |].
    change (Z.to_nat (30 - 1 + 1)) with (S (Z.to_nat (30 - 1))).
    apply firstn_succ_list_set. lia.
  - intros -> opt_data data_len. unfold f_add_option. subst ty.
    cbn [type size]. change (assert (2 =? 2)) with (Ok tt). run.
    unfold set_data, store. cbn [data].
    destruct (Z.leb_spec (Z.of_nat (length d)) 30); [| lia].
    reflexivity.
Qed.

(** The witness of X8: a REJECT option for a packet of 29 bytes. *)
Lemma f_add_option_bounds_witness :
  exists fb',
    f_add_option nearly_full_feedback OPT_TYPE_REJECT (Some [7]) 1
    = Ok (ROHC_ERROR, fb') /\
    size fb' = FEEDBACK_DATA_MAX_LEN /\
    packet_bytes fb'
    = packet_bytes nearly_full_feedback ++ [option_header OPT_TYPE_REJECT 1].
Proof.
  apply (proj1 (f_add_option_bounds nearly_full_feedback OPT_TYPE_REJECT
                  eq_refl eq_refl)).
  - reflexivity.
  - discriminate.
Defined.

(** ** The CID *)

Lemma skipn_list_set_gt (l : list Z) (n m : nat) (v : Z) :
  (n < m)%nat -> skipn m (list_set l n v) = skipn m l.
Proof.
  revert n m. induction l as [| h t IH]; intros [| n] [| m]; simpl;
    intros H; try lia; auto. apply IH. lia.
Qed.

(** The loop of [f_append_cid] for [k] bytes: the first [n] bytes move [k]
    places to the right, the first [k] bytes and the bytes after the moved
    ones stay. *)
Lemma move_data_shift (k n : nat) (d : list Z) :
  (n + k <= length d)%nat ->
  move_data (Z.of_nat k) n d
  = Ok (firstn k d ++ firstn n d ++ skipn (n + k) d).
Proof.
  revert d. induction n as [| j IH]; intros d H.
  - cbn [move_data firstn app Nat.add]. rewrite firstn_skipn. reflexivity.
  - cbn [move_data].
    destruct (nth_error_in_range d j ltac:(lia)) as [b Hb].
    rewrite (load_ok _ _ _ Hb). run.
    replace (Z.of_nat j + Z.of_nat k) with (Z.of_nat (j + k)) by lia.
    rewrite store_ok by lia. run.
    rewrite IH by (rewrite length_list_set; lia).
    rewrite !firstn_list_set_le by lia.
    rewrite skipn_list_set by lia.
    rewrite (firstn_succ_nth d j b Hb), <- (app_assoc (firstn j d)).
    reflexivity.
Qed.

(** [memcpy(d + i, src, length src)] inside the array [d]. *)
Lemma copy_to_prefix (src d : list Z) (i : nat) :
  (i + length src <= length d)%nat ->
  copy_to d (Z.of_nat i) src
  = Ok (firstn i d ++ src ++ skipn (i + length src) d).
Proof.
  revert d i. induction src as [| b rest IH]; intros d i H.
  - cbn [copy_to length app]. rewrite Nat.add_0_r, firstn_skipn. reflexivity.
  - cbn [copy_to length] in *. rewrite store_ok by lia. run.
    replace (Z.of_nat i + 1) with (Z.of_nat (S i)) by lia.
    rewrite IH by (rewrite length_list_set; lia).
    rewrite firstn_succ_list_set by lia.
    rewrite skipn_list_set_gt by lia.
    rewrite <- app_assoc. cbn [app].
    replace (S i + length rest)%nat with (i + S (length rest))%nat by lia.
    reflexivity.
Qed.

Lemma sdvl_large_cid_prefix (cid : Z) :
  0 <= cid <= ROHC_LARGE_CID_MAX ->
  c_encodeSdvl cid = Some (cid_prefix cid ROHC_LARGE_CID) /\
  Z.of_nat (length (cid_prefix cid ROHC_LARGE_CID)) = c_bytesSdvl cid /\
  1 <= c_bytesSdvl cid <= 2.
Proof.
  intros H. destruct (sdvl_large_cid cid H) as (Hk & acid & Henc & Hlen).
  unfold cid_prefix. rewrite Henc. auto.
Qed.

(** The run of the large-CID branch of [f_append_cid] on a packet that
    leaves room for the SDVL-encoded CID. *)
Lemma append_large_cid_run (fb : d_feedback) (cid : Z) :
  1 <= size fb -> 0 <= cid <= ROHC_LARGE_CID_MAX ->
  size fb + c_bytesSdvl cid <= 30 ->
  size fb + c_bytesSdvl cid <= Z.of_nat (length (data fb)) ->
  f_append_cid true fb cid ROHC_LARGE_CID
  = Ok (1, mk_feedback (type fb)
             (cid_prefix cid ROHC_LARGE_CID
              ++ firstn (Z.to_nat (size fb)) (data fb)
              ++ skipn (Z.to_nat (size fb) + Z.to_nat (c_bytesSdvl cid))
                   (data fb))
             (size fb + c_bytesSdvl cid)).
Proof.
  intros Hsz Hcid Hroom Hlen.
  destruct (sdvl_large_cid_prefix cid Hcid) as (Henc & Hk & Hk12).
  set (acid := cid_prefix cid ROHC_LARGE_CID) in *.
  unfold f_append_cid.
  destruct (Z.leb_spec cid ROHC_LARGE_CID_MAX); [| lia].
  destruct (Z.gtb_spec (c_bytesSdvl cid) 0); [| lia].
  destruct (Z.leb_spec (c_bytesSdvl cid) 5); [| lia].
  destruct (Z.leb_spec (c_bytesSdvl cid) 0); [lia |].
  destruct (Z.gtb_spec (c_bytesSdvl cid) 4); [lia |].
  destruct (Z.gtb_spec (size fb + c_bytesSdvl cid) 30); [lia |].
  destruct (Z.geb_spec (size fb) 1); [| lia].
  unfold assert. cbv beta iota delta [bind andb orb negb].
  rewrite <- (Z2Nat.id (c_bytesSdvl cid)) at 1 by lia.
  rewrite move_data_shift by lia.
  rewrite Henc. fb_simpl.
  assert (Hacid : length acid = Z.to_nat (c_bytesSdvl cid)) by lia.
  rewrite <- Hacid, firstn_all.
  change 0 with (Z.of_nat 0).
  rewrite copy_to_prefix
    by (rewrite !length_app, !length_firstn, length_skipn; lia).
  cbn [firstn app Nat.add]. do 3 f_equal.
  rewrite skipn_app, length_firstn.
  replace (length acid - Nat.min (length acid) (length (data fb)))%nat
    with 0%nat by lia.
  rewrite skipn_firstn_comm, Nat.sub_diag. cbn [firstn skipn app].
  reflexivity.
Qed.

(** The bytes of the packet after the CID was put in front of it. *)
Lemma firstn_prefixed (prefix d : list Z) (n m : nat) :
  (n <= length d)%nat ->
  firstn (n + length prefix) (prefix ++ firstn n d ++ skipn m d)
  = prefix ++ firstn n d.
Proof.
  intros H. rewrite Nat.add_comm, firstn_app_2.
  rewrite firstn_app, firstn_firstn, Nat.min_id, length_firstn.
  replace (n - Nat.min n (length d))%nat with 0%nat by lia.
  cbn [firstn]. rewrite app_nil_r. reflexivity.
Qed.

(** [f_append_cid] on a non-empty packet that leaves room for the CID: the
    bytes of the CID come in front of the bytes of the packet. *)
Lemma append_cid_prefix_run (acid_alloc : bool) (fb : d_feedback) (cid : Z)
    (cid_type : rohc_cid_type_t) :
  data_is_array fb -> 1 <= size fb -> 0 <= cid <= cid_max cid_type ->
  size fb + Z.of_nat (length (cid_prefix cid cid_type))
  <= FEEDBACK_DATA_MAX_LEN ->
  (cid_type = ROHC_LARGE_CID -> acid_alloc = true) ->
  exists fb',
    f_append_cid acid_alloc fb cid cid_type = Ok (1, fb') /\
    type fb' = type fb /\ data_is_array fb' /\
    size fb' = size fb + Z.of_nat (length (cid_prefix cid cid_type)) /\
    packet_bytes fb' = cid_prefix cid cid_type ++ packet_bytes fb.
Proof.
  intros Harr Hsz Hcid Hroom Halloc.
  unfold data_is_array, packet_bytes, FEEDBACK_DATA_MAX_LEN in *.
  destruct cid_type; cbn [cid_max] in Hcid.
  - rewrite (Halloc eq_refl).
    destruct (sdvl_large_cid_prefix cid Hcid) as (_ & Hk & Hk12).
    rewrite Hk in *.
    rewrite append_large_cid_run by lia.
    eexists. split; [reflexivity |]. fb_simpl.
    split; [reflexivity |].
    split.
    { rewrite !length_app, length_firstn, length_skipn. lia. }
    split; [reflexivity |].
    replace (Z.to_nat (size fb + c_bytesSdvl cid))
      with (Z.to_nat (size fb)
            + length (cid_prefix cid ROHC_LARGE_CID))%nat by lia.
    apply firstn_prefixed. lia.
  - unfold ROHC_SMALL_CID_MAX in Hcid. unfold cid_prefix in *.
    destruct (Z.eqb_spec cid 0) as [-> | Hnz].
    + exists fb. split; [reflexivity |]. cbn [length app] in *.
      repeat split; lia.
    + cbn [length] in Hroom.
      rewrite append_small_cid_run by lia.
      eexists. split; [reflexivity |]. fb_simpl.
      split; [reflexivity |].
      split.
      { cbn [length]. rewrite length_app, length_firstn, length_skipn. lia. }
      split; [reflexivity |].
      replace (Z.to_nat (size fb + 1))
        with (Z.to_nat (size fb) + length [Z.lor 224 cid])%nat
        by (cbn [length]; lia).
      exact (firstn_prefixed [Z.lor 224 cid] (data fb) (Z.to_nat (size fb))
               (S (Z.to_nat (size fb))) ltac:(lia)).
Qed.

(** X9: [f_append_cid] with a large CID, on a non-empty packet that leaves
    room for it: the one or two bytes of the SDVL-encoded CID come in front
    of the bytes of the packet, which move to the right unchanged, and the
    size grows by the length of the encoding. *)
Theorem f_append_cid_large (fb : d_feedback) (cid : Z) :
  data_is_array fb -> 1 <= size fb -> 0 <= cid <= ROHC_LARGE_CID_MAX ->
  size fb + c_bytesSdvl cid <= 30 ->
  exists fb',
    f_append_cid true fb cid ROHC_LARGE_CID = Ok (1, fb') /\
    c_encodeSdvl cid = Some (cid_prefix cid ROHC_LARGE_CID) /\
    type fb' = type fb /\ data_is_array fb' /\
    size fb' = size fb + c_bytesSdvl cid /\
    1 <= c_bytesSdvl cid <= 2 /\
    packet_bytes fb' = cid_prefix cid ROHC_LARGE_CID ++ packet_bytes fb.
Proof.
  intros Harr Hsz Hcid Hroom.
  destruct (sdvl_large_cid_prefix cid Hcid) as (Henc & Hk & Hk12).
  destruct (append_cid_prefix_run true fb cid ROHC_LARGE_CID Harr Hsz Hcid)
    as (fb' & Hrun & Hty & Harr' & Hsize & Hbytes).
  { unfold FEEDBACK_DATA_MAX_LEN. lia. }
  { reflexivity. }
  exists fb'. rewrite Hk in Hsize. auto 10.
Qed.

(** The witness of X9: the large CID 300 takes two bytes. *)
Lemma f_append_cid_large_witness :
  exists fb',
    f_append_cid true ack_feedback 300 ROHC_LARGE_CID = Ok (1, fb') /\
    c_encodeSdvl 300 = Some (cid_prefix 300 ROHC_LARGE_CID) /\
    type fb' = type ack_feedback /\ data_is_array fb' /\
    size fb' = size ack_feedback + c_bytesSdvl 300 /\
    1 <= c_bytesSdvl 300 <= 2 /\
    packet_bytes fb'
    = cid_prefix 300 ROHC_LARGE_CID ++ packet_bytes ack_feedback.
Proof.
  apply (f_append_cid_large ack_feedback 300).
  - reflexivity.
  - simpl. lia.
  - unfold ROHC_LARGE_CID_MAX. lia.
  - simpl. lia.
Defined.

Example f_append_cid_large_bytes :
  f_append_cid true ack_feedback 300 ROHC_LARGE_CID
  = Ok (1, mk_feedback 2 ([0x81; 0x2c; 0x51; 0x23] ++ repeat 0 26) 4).
Proof. vm_compute. reflexivity. Qed.

(** [f_append_cid] leaves the feedback type as it is. *)
Lemma append_cid_type (acid_alloc : bool) (fb fb' : d_feedback) (cid r : Z)
    (cid_type : rohc_cid_type_t) :
  f_append_cid acid_alloc fb cid cid_type = Ok (r, fb') ->
  type fb' = type fb /\ (r = 0 \/ r = 1).
Proof.
  unfold f_append_cid. destruct cid_type.
  - destruct (assert (cid <=? ROHC_LARGE_CID_MAX)); [| discriminate]. run.
    destruct (assert _); [| discriminate]. run.
    destruct (_ || _); [intros [= <- <-]; auto |].
    destruct (_ >? 30); [intros [= <- <-]; auto |].
    destruct (assert _); [| discriminate]. run.
    destruct (move_data _ _ _) as [d1 |]; [| discriminate]. run.
    destruct (negb acid_alloc); [intros [= <- <-]; auto |].
    destruct (c_encodeSdvl cid) as [acid |]; [| intros [= <- <-]; auto].
    destruct (copy_to _ _ _) as [d2 |]; [| discriminate]. run.
    intros [= <- <-]. auto.
  - destruct (assert (cid <=? ROHC_SMALL_CID_MAX)); [| discriminate]. run.
    destruct (negb (cid =? 0)); [| intros [= <- <-]; auto].
    destruct (assert _); [| discriminate]. run.
    destruct (move_data _ _ _) as [d1 |]; [| discriminate]. run.
    destruct (set_data 0 224 _) as [f1 |] eqn:E1; [| discriminate]. run.
    apply set_data_inv in E1 as (_ & ->). cbn [data type size].
    destruct (load _ 0) as [d0 |]; [| discriminate]. run.
    destruct (set_data 0 _ _) as [f2 |] eqn:E2; [| discriminate]. run.
    apply set_data_inv in E2 as (_ & ->). cbn [data type size].
    intros [= <- <-]. auto.
Qed.

Section WrapFeedbackProperties.

Variable crc_calculate : rohc_crc_type_t -> list Z -> Z -> Z -> list Z -> Z.

(** X10: a large CID that does not fit. When the packet and the SDVL-encoded
    CID take more than 30 bytes together, [f_append_cid] returns 0 and
    writes nothing, and [f_wrap_feedback] returns NULL and empties the
    feedback. *)
Theorem f_append_cid_large_no_room (acid_alloc packet_alloc : bool)
    (fb : d_feedback) (cid with_crc : Z) (crc_table : list Z) :
  0 <= cid <= ROHC_LARGE_CID_MAX -> size fb + c_bytesSdvl cid > 30 ->
  f_append_cid acid_alloc fb cid ROHC_LARGE_CID = Ok (0, fb) /\
  f_wrap_feedback crc_calculate acid_alloc packet_alloc fb cid ROHC_LARGE_CID
    with_crc crc_table = Ok (None, set_size 0 fb).
Proof.
  intros Hcid Hroom.
  destruct (sdvl_large_cid_prefix cid Hcid) as (_ & _ & Hk12).
  assert (Hrun : f_append_cid acid_alloc fb cid ROHC_LARGE_CID = Ok (0, fb)).
  { unfold f_append_cid.
    destruct (Z.leb_spec cid ROHC_LARGE_CID_MAX); [| lia].
    destruct (Z.gtb_spec (c_bytesSdvl cid) 0); [| lia].
    destruct (Z.leb_spec (c_bytesSdvl cid) 5); [| lia].
    destruct (Z.leb_spec (c_bytesSdvl cid) 0); [lia |].
    destruct (Z.gtb_spec (c_bytesSdvl cid) 4); [lia |].
    destruct (Z.gtb_spec (size fb + c_bytesSdvl cid) 30); [| lia].
    reflexivity. }
  split; [exact Hrun |].
  unfold f_wrap_feedback. rewrite Hrun. reflexivity.
Qed.

(** X11: whatever it returns, a packet or NULL, [f_wrap_feedback] leaves the
    feedback structure empty: its size is 0 after every run. *)
Theorem f_wrap_feedback_resets_size (acid_alloc packet_alloc : bool)
    (fb fb' : d_feedback) (cid : Z) (cid_type : rohc_cid_type_t)
    (with_crc : Z) (crc_table : list Z) (r : option (list Z * Z)) :
  f_wrap_feedback crc_calculate acid_alloc packet_alloc fb cid cid_type
    with_crc crc_table = Ok (r, fb') ->
  size fb' = 0.
Proof.
  unfold f_wrap_feedback.
  destruct (f_append_cid acid_alloc fb cid cid_type) as [[appended f1] |];
    [| discriminate].
  run. destruct (appended =? 0); [intros [= <- <-]; reflexivity |].
  destruct (negb (with_crc =? 0)).
  - destruct (f_add_option f1 OPT_TYPE_CRC None 0) as [[[|] f2] |];
      [| intros [= <- <-]; reflexivity | discriminate].
    destruct (negb packet_alloc); [intros [= <- <-]; reflexivity |].
    destruct (memcpy _ _) as [p |]; [| discriminate]. run.
    destruct (store _ _ _) as [p' |]; [| discriminate]. run.
    intros [= <- <-]. reflexivity.
  - destruct (negb packet_alloc); [intros [= <- <-]; reflexivity |].
    destruct (memcpy _ _) as [p |]; [| discriminate]. run.
    intros [= <- <-]. reflexivity.
Qed.

(** [f_wrap_feedback] without the CRC option. *)
Lemma wrap_without_crc_run (acid_alloc : bool) (fb : d_feedback) (cid : Z)
    (cid_type : rohc_cid_type_t) (crc_table : list Z) :
  data_is_array fb -> 1 <= size fb -> 0 <= cid <= cid_max cid_type ->
  size fb + Z.of_nat (length (cid_prefix cid cid_type))
  <= FEEDBACK_DATA_MAX_LEN ->
  (cid_type = ROHC_LARGE_CID -> acid_alloc = true) ->
  exists fb',
    f_wrap_feedback crc_calculate acid_alloc true fb cid cid_type 0 crc_table
    = Ok (Some (cid_prefix cid cid_type ++ packet_bytes fb,
                size fb + Z.of_nat (length (cid_prefix cid cid_type))),
          fb') /\
    type fb' = type fb /\ size fb' = 0.
Proof.
  intros Harr Hsz Hcid Hroom Halloc.
  destruct (append_cid_prefix_run acid_alloc fb cid cid_type Harr Hsz Hcid
              Hroom Halloc) as (f1 & Hrun & Hty & Harr1 & Hsize & Hbytes).
  unfold f_wrap_feedback. rewrite Hrun. run.
  change (1 =? 0) with false. change (negb (0 =? 0)) with false.
  cbv beta iota delta [negb].
  unfold data_is_array, FEEDBACK_DATA_MAX_LEN in *.
  unfold memcpy.
  destruct (Z.ltb_spec (size f1) 0); [lia |].
  destruct (Z.ltb_spec (Z.of_nat (length (data f1))) (size f1)); [lia |].
  cbv beta iota delta [orb]. run.
  fold (packet_bytes f1). rewrite Hbytes, Hsize.
  eexists. split; [reflexivity |]. split; [exact Hty | reflexivity].
Qed.

(** X12: [f_wrap_feedback] without the CRC option, for a feedback of either
    type that is not empty and leaves room for the CID: the packet it
    returns is the CID (nothing for the small CID 0, the add-CID octet, or
    the SDVL-encoded large CID) followed by the bytes of the feedback, and
    [final_size] is its length. *)
Theorem f_wrap_feedback_without_crc (fb : d_feedback) (cid : Z)
    (cid_type : rohc_cid_type_t) (crc_table : list Z) :
  data_is_array fb -> 1 <= size fb <= FEEDBACK_DATA_MAX_LEN ->
  0 <= cid <= cid_max cid_type ->
  size fb + Z.of_nat (length (cid_prefix cid cid_type))
  <= FEEDBACK_DATA_MAX_LEN ->
  exists packet fb',
    f_wrap_feedback crc_calculate true true fb cid cid_type 0 crc_table
    = Ok (Some (packet, Z.of_nat (length packet)), fb') /\
    packet = cid_prefix cid cid_type ++ packet_bytes fb /\
    size fb' = 0.
Proof.
  intros Harr Hsz Hcid Hroom.
  destruct (wrap_without_crc_run true fb cid cid_type crc_table Harr
              ltac:(lia) Hcid Hroom ltac:(reflexivity))
    as (fb' & Hrun & _ & Hsize).
  exists (cid_prefix cid cid_type ++ packet_bytes fb), fb'.
  split; [| split; [reflexivity | exact Hsize]].
  rewrite Hrun. do 4 f_equal.
  unfold packet_bytes, data_is_array, FEEDBACK_DATA_MAX_LEN in *.
  rewrite length_app, length_firstn. lia.
Qed.

(** X13: the CRC option is for FEEDBACK-2 only. With [with_crc] set and a
    feedback whose type is not 2, [f_wrap_feedback] never returns a packet:
    once the CID is appended, the assertion of [f_add_option] fails. *)
Theorem f_wrap_feedback_crc_feedback2_only (acid_alloc packet_alloc : bool)
    (fb : d_feedback) (cid : Z) (cid_type : rohc_cid_type_t)
    (with_crc : Z) (crc_table : list Z) :
  type fb <> 2 -> with_crc <> 0 ->
  (forall packet fb',
     f_wrap_feedback crc_calculate acid_alloc packet_alloc fb cid cid_type
       with_crc crc_table <> Ok (Some packet, fb')) /\
  (forall f1,
     f_append_cid acid_alloc fb cid cid_type = Ok (1, f1) ->
     f_wrap_feedback crc_calculate acid_alloc packet_alloc fb cid cid_type
       with_crc crc_table = Fault AssertFailure).
Proof.
  intros Hty Hcrc.
  assert (Hopt : forall f1 r,
            f_append_cid acid_alloc fb cid cid_type = Ok (r, f1) ->
            f_add_option f1 OPT_TYPE_CRC None 0 = Fault AssertFailure).
  { intros f1 r Hrun. apply append_cid_type in Hrun as (Ht1 & _).
    unfold f_add_option. rewrite Ht1.
    destruct (Z.eqb_spec (type fb) 2); [contradiction |]. reflexivity. }
  split.
  - intros packet fb'. unfold f_wrap_feedback.
    destruct (f_append_cid acid_alloc fb cid cid_type) as [[appended f1] |]
      eqn:Hrun; [| discriminate].
    run. destruct (appended =? 0); [discriminate |].
    destruct (Z.eqb_spec with_crc 0); [contradiction |].
    cbv beta iota delta [negb]. rewrite (Hopt f1 appended eq_refl).
    discriminate.
  - intros f1 Hrun. unfold f_wrap_feedback. rewrite Hrun. run.
    change (1 =? 0) with false. cbv beta iota.
    destruct (Z.eqb_spec with_crc 0); [contradiction |].
    cbv beta iota delta [negb]. rewrite (Hopt f1 1 Hrun). reflexivity.
Qed.

(** [f_feedback1] on an array. *)
Lemma f_feedback1_run (sn : Z) (fb : d_feedback) :
  data_is_array fb ->
  f_feedback1 sn fb
  = Ok (1, mk_feedback 1 (list_set (data fb) 0 (Z.land sn 0xff)) 1).
Proof.
  unfold data_is_array, FEEDBACK_DATA_MAX_LEN. intros Harr.
  unfold f_feedback1. rewrite set_data_at by in_array. run. fb_simpl.
  rewrite (wrap8_small _ (land_ff_uint8 sn)). reflexivity.
Qed.

(** X14: a FEEDBACK-1 from end to end. [f_feedback1] builds the single
    octet with the low 8 bits of the SN, and [f_wrap_feedback] without CRC
    returns the CID followed by that octet. *)
Theorem f_feedback1_wrapped (sn : Z) (fb : d_feedback) (cid : Z)
    (cid_type : rohc_cid_type_t) (crc_table : list Z) :
  data_is_array fb -> 0 <= cid <= cid_max cid_type ->
  exists fb1 fb2,
    f_feedback1 sn fb = Ok (1, fb1) /\
    type fb1 = 1 /\
    packet_bytes fb1 = [Z.land sn 0xff] /\
    f_wrap_feedback crc_calculate true true fb1 cid cid_type 0 crc_table
    = Ok (Some (cid_prefix cid cid_type ++ [Z.land sn 0xff],
                1 + Z.of_nat (length (cid_prefix cid cid_type))),
          fb2).
Proof.
  intros Harr Hcid. rewrite (f_feedback1_run sn fb Harr).
  set (fb1 := mk_feedback 1 (list_set (data fb) 0 (Z.land sn 255)) 1).
  assert (Harr1 : data_is_array fb1).
  { unfold data_is_array, fb1 in *. cbn [data]. rewrite length_list_set.
    exact Harr. }
  assert (Hbytes : packet_bytes fb1 = [Z.land sn 255]).
  { unfold packet_bytes, fb1. cbn [data size].
    unfold data_is_array, FEEDBACK_DATA_MAX_LEN in Harr.
    destruct (data fb) as [| h t]; [cbn [length] in Harr; lia |].
    reflexivity. }
  assert (Hlen : Z.of_nat (length (cid_prefix cid cid_type)) <= 2).
  { destruct cid_type; cbn [cid_max] in Hcid.
    - destruct (sdvl_large_cid_prefix cid Hcid) as (_ & Hk & Hk12). lia.
    - unfold cid_prefix. destruct (cid =? 0); cbn [length]; lia. }
  destruct (wrap_without_crc_run true fb1 cid cid_type crc_table Harr1)
    as (fb2 & Hrun & _);
    [ unfold fb1; cbn [size]; lia
    | exact Hcid
    | unfold fb1, FEEDBACK_DATA_MAX_LEN; cbn [size]; lia
    | reflexivity | ].
  exists fb1, fb2. rewrite Hbytes in Hrun.
  split; [reflexivity |]. split; [reflexivity |]. split; [exact Hbytes |].
  exact Hrun.
Qed.

(** [f_feedback2] returns ROHC_OK for every 32-bit SN and leaves a
    FEEDBACK-2 element of 2 to 8 bytes. *)
Lemma f_feedback2_runs (acktype mode sn : Z) (fb : d_feedback) :
  uint32 sn -> data_is_array fb ->
  exists fb',
    f_feedback2 acktype mode sn fb = Ok (ROHC_OK, fb') /\
    type fb' = 2 /\ data_is_array fb' /\ 2 <= size fb' <= 8.
Proof.
  intros Hsn Harr. destruct fb as [ty d sz].
  unfold data_is_array, FEEDBACK_DATA_MAX_LEN in *. cbn [data] in *.
  unfold f_feedback2. fb_simpl.
  rewrite set_data_at by in_array. run. fb_simpl.
  rewrite (wrap8_small _ (ack_mode_uint8 acktype mode)).
  destruct (sn <? Z.shiftl 1 12);
    [| destruct (sn <? Z.shiftl 1 (12 + 8));
       [| destruct (sn <? Z.shiftl 1 (12 + 8 + 8)) ] ];
    unfold or_data0; fb_simpl;
    rewrite load_at by lia; run;
    rewrite set_data_at by in_array; run; fb_simpl;
    rewrite list_set_twice;
    rewrite set_data_at by in_array; run; fb_simpl;
    unwrap_bytes.
  - eexists. split; [reflexivity |]. fb_simpl. rewrite !length_list_set.
    repeat split; lia.
  - add_sn_step.
    eexists. split; [reflexivity |]. fb_simpl. rewrite !length_list_set.
    repeat split; lia.
  - do 2 add_sn_step.
    eexists. split; [reflexivity |]. fb_simpl. rewrite !length_list_set.
    repeat split; lia.
  - do 3 add_sn_step.
    eexists. split; [reflexivity |]. fb_simpl. rewrite !length_list_set.
    repeat split; lia.
Qed.

(** X15: a FEEDBACK-2 always fits. For every 32-bit SN, the element that
    [f_feedback2] builds can be wrapped by [f_wrap_feedback] with a small or
    a large CID, with or without the CRC option: when the allocations
    succeed a packet is returned, and [final_size] is its length. *)
Theorem f_feedback2_always_wraps (acktype mode sn : Z) (fb : d_feedback)
    (cid : Z) (cid_type : rohc_cid_type_t) (with_crc : Z)
    (crc_table : list Z) :
  uint32 sn -> data_is_array fb -> 0 <= cid <= cid_max cid_type ->
  exists fb2 packet fb',
    f_feedback2 acktype mode sn fb = Ok (ROHC_OK, fb2) /\
    f_wrap_feedback crc_calculate true true fb2 cid cid_type with_crc
      crc_table = Ok (Some (packet, Z.of_nat (length packet)), fb') /\
    size fb' = 0.
Proof.
  intros Hsn Harr Hcid.
  destruct (f_feedback2_runs acktype mode sn fb Hsn Harr)
    as (fb2 & Hrun & Hty & Harr2 & Hsize).
  assert (Hlen : Z.of_nat (length (cid_prefix cid cid_type))
                 <= cid_bytes_max cid_type).
  { destruct cid_type; cbn [cid_max cid_bytes_max] in *.
    - destruct (sdvl_large_cid_prefix cid Hcid) as (_ & Hk & Hk12). lia.
    - unfold cid_prefix. destruct (cid =? 0); cbn [length]; lia. }
  assert (Hmax : cid_bytes_max cid_type <= 2)
    by (destruct cid_type; simpl; lia).
  exists fb2. destruct (Z.eq_dec with_crc 0) as [-> | Hcrc].
  - destruct (wrap_without_crc_run true fb2 cid cid_type crc_table Harr2)
      as (fb' & Hwrap & _ & Hzero);
      [ lia | exact Hcid | unfold FEEDBACK_DATA_MAX_LEN; lia | reflexivity | ].
    eexists. exists fb'. split; [exact Hrun |]. split; [| exact Hzero].
    rewrite Hwrap. do 4 f_equal.
    unfold packet_bytes, data_is_array, FEEDBACK_DATA_MAX_LEN in *.
    rewrite length_app, length_firstn. lia.
  - destruct (wrap_feedback_returns crc_calculate fb2 cid cid_type with_crc
                crc_table Hty Harr2) as (packet & n & fb' & Hwrap);
      [ lia | unfold FEEDBACK_DATA_MAX_LEN; lia | exact Hcid | exact Hcrc | ].
    destruct (wrap_feedback_crc_returned crc_calculate true true fb2 fb' cid
                cid_type with_crc crc_table packet n Hcrc Hwrap)
      as ((body & _ & Hn) & Hzero).
    exists packet, fb'. split; [exact Hrun |]. split; [| exact Hzero].
    rewrite Hwrap, Hn. reflexivity.
Qed.

End WrapFeedbackProperties.

(** The witness of X10: a packet of 29 bytes and a large CID of 2 bytes. *)
Lemma f_append_cid_large_no_room_witness :
  f_append_cid true nearly_full_feedback 300 ROHC_LARGE_CID
  = Ok (0, nearly_full_feedback) /\
  f_wrap_feedback crc_calculate_tables true true nearly_full_feedback 300
    ROHC_LARGE_CID 1 (crc_init_table 0xe0)
  = Ok (None, set_size 0 nearly_full_feedback).
Proof.
  apply (f_append_cid_large_no_room crc_calculate_tables true true
           nearly_full_feedback 300 1 (crc_init_table 0xe0)).
  - unfold ROHC_LARGE_CID_MAX. lia.
  - simpl. lia.
Defined.

(** The witness of X11: a packet wrapped with the CRC option. *)
Lemma f_wrap_feedback_resets_size_witness :
  f_wrap_feedback crc_calculate_tables true true
    (mk_feedback 2 ([0x51; 0x23; 0x41; 0x45] ++ repeat 0 26) 4) 3
    ROHC_SMALL_CID 1 (crc_init_table 0xe0)
  = Ok (Some ([0xe3; 0x51; 0x23; 0x41; 0x45; 0x11; 0x24], 7),
        mk_feedback 2 ([0xe3; 0x51; 0x23; 0x41; 0x45; 0x11] ++ repeat 0 24)
          0) /\
  size (mk_feedback 2 ([0xe3; 0x51; 0x23; 0x41; 0x45; 0x11] ++ repeat 0 24) 0)
  = 0.
Proof.
  assert (Hrun :
    f_wrap_feedback crc_calculate_tables true true
      (mk_feedback 2 ([0x51; 0x23; 0x41; 0x45] ++ repeat 0 26) 4) 3
      ROHC_SMALL_CID 1 (crc_init_table 0xe0)
    = Ok (Some ([0xe3; 0x51; 0x23; 0x41; 0x45; 0x11; 0x24], 7),
          mk_feedback 2 ([0xe3; 0x51; 0x23; 0x41; 0x45; 0x11] ++ repeat 0 24)
            0)) by (vm_compute; reflexivity).
  split; [exact Hrun |].
  exact (f_wrap_feedback_resets_size crc_calculate_tables true true _ _ 3
           ROHC_SMALL_CID 1 (crc_init_table 0xe0) _ Hrun).
Defined.

(** The witness of X12: a FEEDBACK-2 element behind the large CID 300. *)
Lemma f_wrap_feedback_without_crc_witness :
  exists packet fb',
    f_wrap_feedback crc_calculate_tables true true ack_feedback 300
      ROHC_LARGE_CID 0 (crc_init_table 0xe0)
    = Ok (Some (packet, Z.of_nat (length packet)), fb') /\
    packet = cid_prefix 300 ROHC_LARGE_CID ++ packet_bytes ack_feedback /\
    size fb' = 0.
Proof.
  apply (f_wrap_feedback_without_crc crc_calculate_tables ack_feedback 300
           ROHC_LARGE_CID (crc_init_table 0xe0)).
  - reflexivity.
  - unfold FEEDBACK_DATA_MAX_LEN. simpl. lia.
  - simpl. unfold ROHC_LARGE_CID_MAX. lia.
  - unfold FEEDBACK_DATA_MAX_LEN. simpl. lia.
Defined.

Example f_wrap_feedback_large_cid_bytes :
  f_wrap_feedback crc_calculate_tables true true ack_feedback 300
    ROHC_LARGE_CID 0 (crc_init_table 0xe0)
  = Ok (Some ([0x81; 0x2c; 0x51; 0x23], 4),
        mk_feedback 2 ([0x81; 0x2c; 0x51; 0x23] ++ repeat 0 26) 0).
Proof. vm_compute. reflexivity. Qed.

(** A FEEDBACK-1 element for the SN 42. *)
Example f_feedback1_bytes :
  f_feedback1 42 zero_feedback
  = Ok (1, mk_feedback 1 ([42] ++ repeat 0 29) 1).
Proof. vm_compute. reflexivity. Qed.

(** The witness of X13: the CRC option asked for a FEEDBACK-1 element. *)
Lemma f_wrap_feedback_crc_feedback2_only_witness :
  f_append_cid true (mk_feedback 1 ([42] ++ repeat 0 29) 1) 3 ROHC_SMALL_CID
  = Ok (1, mk_feedback 1 ([0xe3; 42] ++ repeat 0 28) 2) /\
  f_wrap_feedback crc_calculate_tables true true
    (mk_feedback 1 ([42] ++ repeat 0 29) 1) 3 ROHC_SMALL_CID 1
    (crc_init_table 0xe0) = Fault AssertFailure.
Proof.
  assert (Hrun :
    f_append_cid true (mk_feedback 1 ([42] ++ repeat 0 29) 1) 3 ROHC_SMALL_CID
    = Ok (1, mk_feedback 1 ([0xe3; 42] ++ repeat 0 28) 2))
    by (vm_compute; reflexivity).
  split; [exact Hrun |].
  exact (proj2 (f_wrap_feedback_crc_feedback2_only crc_calculate_tables true
                  true (mk_feedback 1 ([42] ++ repeat 0 29) 1) 3
                  ROHC_SMALL_CID 1 (crc_init_table 0xe0)
                  ltac:(discriminate) ltac:(discriminate)) _ Hrun).
Defined.

(** The witness of X14: the FEEDBACK-1 for the SN 0x12a behind the small
    CID 3. *)
Lemma f_feedback1_wrapped_witness :
  exists fb1 fb2,
    f_feedback1 0x12a zero_feedback = Ok (1, fb1) /\
    type fb1 = 1 /\
    packet_bytes fb1 = [Z.land 0x12a 0xff] /\
    f_wrap_feedback crc_calculate_tables true true fb1 3 ROHC_SMALL_CID 0
      (crc_init_table 0xe0)
    = Ok (Some (cid_prefix 3 ROHC_SMALL_CID ++ [Z.land 0x12a 0xff],
                1 + Z.of_nat (length (cid_prefix 3 ROHC_SMALL_CID))),
          fb2).
Proof.
  apply (f_feedback1_wrapped crc_calculate_tables 0x12a zero_feedback 3
           ROHC_SMALL_CID (crc_init_table 0xe0)).
  - reflexivity.
  - simpl. unfold ROHC_SMALL_CID_MAX. lia.
Defined.

(** The witness of X15: an ACK for the SN 0x12345678 behind the large CID
    300, with the CRC option. *)
Lemma f_feedback2_always_wraps_witness :
  exists fb2 packet fb',
    f_feedback2 0 1 0x12345678 zero_feedback = Ok (ROHC_OK, fb2) /\
    f_wrap_feedback crc_calculate_tables true true fb2 300 ROHC_LARGE_CID 1
      (crc_init_table 0xe0)
    = Ok (Some (packet, Z.of_nat (length packet)), fb') /\
    size fb' = 0.
Proof.
  apply (f_feedback2_always_wraps crc_calculate_tables 0 1 0x12345678
           zero_feedback 300 ROHC_LARGE_CID 1 (crc_init_table 0xe0)).
  - unfold uint32. lia.
  - reflexivity.
  - simpl. unfold ROHC_LARGE_CID_MAX. lia.
Defined.

Example f_feedback2_wrapped_bytes :
  ('(_, fb2) <- f_feedback2 0 1 0x12345678 zero_feedback ;;
   '(packet, _) <- f_wrap_feedback crc_calculate_tables true true fb2 300
                     ROHC_LARGE_CID 1 (crc_init_table 0xe0) ;;
   Ok packet)
  = Ok (Some ([0x81; 0x2c; 0x10; 0x12; 0x41; 0x34; 0x41; 0x56; 0x41; 0x78;
               0x11; 0xa2], 12)).
Proof. vm_compute. reflexivity. Qed.

End FeedbackProperties.

(** * The IP header walker: further properties *)

Module IpProperties.

Import Ip IpSpec IpFields IpTheory.

(** ** The lengths of a packet that [ip_create] accepts *)

Lemma hdr_byte_uint8 (ip : ip_packet) (i : nat) :
  Forall uint8 (header ip) -> uint8 (hdr_byte ip i).
Proof.
  intros Hall. unfold hdr_byte.
  destruct (Nat.lt_ge_cases i (length (header ip))) as [Hlt | Hge].
  - rewrite Forall_forall in Hall. apply Hall. apply nth_In. exact Hlt.
  - rewrite nth_overflow by exact Hge. unfold uint8. lia.
Qed.

Lemma hdr_ntoh16_uint16 (ip : ip_packet) (i : nat) :
  Forall uint8 (header ip) -> uint16 (hdr_ntoh16 ip i).
Proof.
  intros Hall. unfold hdr_ntoh16.
  pose proof (hdr_byte_uint8 ip i Hall) as H0.
  pose proof (hdr_byte_uint8 ip (S i) Hall) as H1.
  unfold uint8, uint16 in *. lia.
Qed.

Lemma copy_header_inv (packet : list Z) (n : Z) (ip ip1 : ip_packet) :
  copy_header packet n ip = Ok ip1 ->
  0 <= n <= Z.of_nat (length packet) /\
  ip1 = mk_ip (version ip)
          (firstn (Z.to_nat n) packet ++ skipn (Z.to_nat n) (header ip))
          (data ip) (size ip).
Proof.
  unfold copy_header, memcpy.
  destruct (Z.ltb_spec n 0); [discriminate |].
  destruct (Z.ltb_spec (Z.of_nat (length packet)) n); [discriminate |].
  cbv beta iota delta [orb bind]. intros [= <-]. split; [lia | reflexivity].
Qed.

(** What [ip_create] has checked when it leaves the version IPV4. *)
Lemma ip_create_ipv4_inv (ip ip' : ip_packet) (packet : list Z) (size : Z) :
  ip_create ip packet size = Ok (1, ip') -> version ip' = IPV4 ->
  20 <= size /\ 20 <= Z.of_nat (length packet) /\
  ip' = mk_ip IPV4 (firstn 20 packet ++ skipn 20 (header ip)) packet size /\
  20 <= v4_ihl ip' * 4 <= size /\
  wrap16 (v4_tot_len ip') = size.
Proof.
  unfold ip_create.
  destruct (get_ip_version packet size) as [[ver |] |];
    cbv beta iota delta [bind]; try discriminate.
  destruct ver; unfold ip_create_malformed; cbn [version set_version];
    try (intros [= <-]; discriminate).
  - destruct (Z.ltb_spec size sizeof_ipv4_hdr);
      [intros [= <-]; discriminate |].
    destruct (copy_header packet sizeof_ipv4_hdr _) as [ip1 |] eqn:Ecopy;
      [| discriminate].
    apply copy_header_inv in Ecopy as (Hn & ->).
    cbv beta iota delta [bind ip_get_hdrlen version set_version].
    unfold sizeof_ipv4_hdr in *. change (Z.to_nat 20) with 20%nat.
    match goal with
    | |- context [v4_ihl ?p] => set (ip1 := p)
    end.
    destruct (Z.ltb_spec (v4_ihl ip1 * 4) 20);
      [intros [= <-]; discriminate |].
    destruct (Z.gtb_spec (v4_ihl ip1 * 4) size);
      [intros [= <-]; discriminate |].
    cbv beta iota delta [orb].
    destruct (Z.eqb_spec (ip_get_totlen ip1) size) as [Etot | Etot];
      [| intros [= <-]; discriminate].
    cbv beta iota delta [negb]. intros [= <-] _.
    unfold ip_get_totlen, v4_ihl, v4_tot_len, hdr_ntoh16, hdr_byte,
      set_data_size, ip1 in *.
    cbn [version header data Ip.size] in *.
    repeat split; try lia; exact Etot.
  - destruct (size <? sizeof_ipv6_hdr); [intros [= <-]; discriminate |].
    destruct (copy_header packet sizeof_ipv6_hdr _) as [ip1 |] eqn:Ecopy;
      [| discriminate].
    apply copy_header_inv in Ecopy as (_ & ->).
    cbv beta iota delta [bind version set_version].
    destruct (negb _); intros [= <-]; discriminate.
Qed.

(** What [ip_create] has checked when it leaves the version IPV6. *)
Lemma ip_create_ipv6_inv (ip ip' : ip_packet) (packet : list Z) (size : Z) :
  ip_create ip packet size = Ok (1, ip') -> version ip' = IPV6 ->
  40 <= size /\ 40 <= Z.of_nat (length packet) /\
  ip' = mk_ip IPV6 (firstn 40 packet ++ skipn 40 (header ip)) packet size /\
  wrap16 (40 + v6_ip6_plen ip') = size.
Proof.
  unfold ip_create.
  destruct (get_ip_version packet size) as [[ver |] |];
    cbv beta iota delta [bind]; try discriminate.
  destruct ver; unfold ip_create_malformed; cbn [version set_version];
    try (intros [= <-]; discriminate).
  - destruct (size <? sizeof_ipv4_hdr); [intros [= <-]; discriminate |].
    destruct (copy_header packet sizeof_ipv4_hdr _) as [ip1 |] eqn:Ecopy;
      [| discriminate].
    apply copy_header_inv in Ecopy as (_ & ->).
    cbv beta iota delta [bind ip_get_hdrlen version set_version].
    destruct (_ || _); [intros [= <-]; discriminate |].
    destruct (negb _); intros [= <-]; discriminate.
  - destruct (Z.ltb_spec size sizeof_ipv6_hdr);
      [intros [= <-]; discriminate |].
    destruct (copy_header packet sizeof_ipv6_hdr _) as [ip1 |] eqn:Ecopy;
      [| discriminate].
    apply copy_header_inv in Ecopy as (Hn & ->).
    cbv beta iota delta [bind version set_version].
    unfold sizeof_ipv6_hdr in *. change (Z.to_nat 40) with 40%nat.
    match goal with
    | |- context [ip_get_totlen ?p] => set (ip1 := p)
    end.
    destruct (Z.eqb_spec (ip_get_totlen ip1) size) as [Etot | Etot];
      [| intros [= <-]; discriminate].
    cbv beta iota delta [negb]. intros [= <-] _.
    unfold ip_get_totlen, v6_ip6_plen, hdr_ntoh16, hdr_byte,
      set_data_size, sizeof_ipv6_hdr, ip1 in *.
    cbn [version header data Ip.size] in *.
    repeat split; try lia; exact Etot.
Qed.

Lemma nth_uint8 (p : list Z) (i : nat) : Forall uint8 p -> uint8 (nth i p 0).
Proof.
  intros Hall.
  destruct (Nat.lt_ge_cases i (length p)) as [Hlt | Hge].
  - rewrite Forall_forall in Hall. apply Hall. apply nth_In. exact Hlt.
  - rewrite nth_overflow by exact Hge. unfold uint8. lia.
Qed.

(** The lengths of an IPv4 packet that [ip_create] accepts. *)
Lemma accepted_ipv4_lengths (ip ip' : ip_packet) (packet : list Z)
    (size : Z) :
  Forall uint8 packet -> ip_create ip packet size = Ok (1, ip') ->
  version ip' = IPV4 ->
  exists hdrlen,
    ip_get_hdrlen ip' = Ok hdrlen /\ 20 <= hdrlen <= size /\
    size <= 65535 /\ ip_get_totlen ip' = size /\
    ip_get_plen ip' = Ok (size - hdrlen).
Proof.
  intros Hall Hrun Hver.
  destruct (ip_create_ipv4_inv ip ip' packet size Hrun Hver)
    as (Hsize & Hlen & -> & Hihl & Htot).
  unfold ip_get_hdrlen, ip_get_totlen, ip_get_plen. cbn [version].
  unfold v4_ihl, v4_tot_len, hdr_ntoh16, hdr_byte in *. cbn [header] in *.
  rewrite !nth_firstn_app in * by lia.
  pose proof (nth_uint8 packet 2 Hall) as H2.
  pose proof (nth_uint8 packet 3 Hall) as H3.
  unfold uint8, wrap16, wrap32 in *.
  rewrite Z.mod_small in Htot by lia.
  eexists. split; [reflexivity |].
  rewrite Htot. rewrite (Z.mod_small size) by lia.
  repeat split; try lia.
  rewrite Z.mod_small by lia. reflexivity.
Qed.

(** The lengths of an IPv6 packet that [ip_create] accepts. *)
Lemma accepted_ipv6_lengths (ip ip' : ip_packet) (packet : list Z)
    (size : Z) :
  Forall uint8 packet -> ip_create ip packet size = Ok (1, ip') ->
  version ip' = IPV6 ->
  ip_get_hdrlen ip' = Ok 40 /\ 40 <= size <= 65535 /\
  ip_get_totlen ip' = size /\ v6_ip6_plen ip' = size - 40.
Proof.
  intros Hall Hrun Hver.
  destruct (ip_create_ipv6_inv ip ip' packet size Hrun Hver)
    as (Hsize & Hlen & -> & Htot).
  unfold ip_get_hdrlen, ip_get_totlen. cbn [version].
  unfold v6_ip6_plen, hdr_ntoh16, hdr_byte, sizeof_ipv6_hdr in *.
  cbn [header] in *.
  rewrite !nth_firstn_app in * by lia.
  pose proof (nth_uint8 packet 4 Hall) as H4.
  pose proof (nth_uint8 packet 5 Hall) as H5.
  unfold uint8, wrap16 in *.
  change (2 ^ 8) with 256 in *. change (2 ^ 16) with 65536 in *.
  assert (Hnowrap : 40 + (nth 4 packet 0 * 256 + nth 5 packet 0) < 65536).
  { destruct (Z_lt_le_dec (40 + (nth 4 packet 0 * 256 + nth 5 packet 0))
                65536) as [Hlt | Hge]; [exact Hlt |].
    exfalso.
    assert (Hw : (40 + (nth 4 packet 0 * 256 + nth 5 packet 0)) mod 65536
                 = 40 + (nth 4 packet 0 * 256 + nth 5 packet 0) - 65536).
    { symmetry. apply Z.mod_unique with 1; lia. }
    lia. }
  rewrite Z.mod_small in Htot by lia.
  rewrite Z.mod_small by lia.
  repeat split; lia.
Qed.

(** X16: the lengths of an accepted packet. When [ip_create] leaves the
    version IPV4 for a buffer of bytes, the header length is between 20 and
    the size, the total length is the size, and [ip_get_plen] is the size
    minus the header length; when it leaves the version IPV6, the size is at
    least 40 and the Payload Length field is the size minus 40. In both
    cases the size fits 16 bits and no length computation wraps around. *)
Theorem ip_create_accepted_lengths (ip ip' : ip_packet) (packet : list Z)
    (size : Z) :
  Forall uint8 packet -> ip_create ip packet size = Ok (1, ip') ->
  (version ip' = IPV4 ->
   exists hdrlen,
     ip_get_hdrlen ip' = Ok hdrlen /\ 20 <= hdrlen <= size /\
     size <= 65535 /\ ip_get_totlen ip' = size /\
     ip_get_plen ip' = Ok (size - hdrlen)) /\
  (version ip' = IPV6 ->
   ip_get_hdrlen ip' = Ok 40 /\ 40 <= size <= 65535 /\
   ip_get_totlen ip' = size /\ v6_ip6_plen ip' = size - 40).
Proof.
  intros Hall Hrun. split; intros Hver.
  - destruct (accepted_ipv4_lengths ip ip' packet size Hall Hrun Hver)
      as (hdrlen & Hhdr & Hbounds & Hmax & Htot & Hplen).
    exists hdrlen. auto.
  - destruct (accepted_ipv6_lengths ip ip' packet size Hall Hrun Hver)
      as (Hhdr & Hbounds & Htot & Hfield).
    auto.
Qed.

(** The witness of X16: an IPv4 packet of 28 bytes. *)
Lemma ip_create_accepted_lengths_witness :
  Forall uint8 ipv4_esp_packet /\
  ip_create ip_uninitialized ipv4_esp_packet 28 = Ok (1, ipv4_esp) /\
  exists hdrlen,
    ip_get_hdrlen ipv4_esp = Ok hdrlen /\ 20 <= hdrlen <= 28 /\
    28 <= 65535 /\ ip_get_totlen ipv4_esp = 28 /\
    ip_get_plen ipv4_esp = Ok (28 - hdrlen).
Proof.
  assert (Hall : Forall uint8 ipv4_esp_packet).
  { unfold ipv4_esp_packet. cbn [app].
    repeat (apply Forall_cons; [unfold uint8; lia |]). apply Forall_nil. }
  assert (Hrun : ip_create ip_uninitialized ipv4_esp_packet 28
                 = Ok (1, ipv4_esp)) by reflexivity.
  split; [exact Hall |]. split; [exact Hrun |].
  exact (proj1 (ip_create_accepted_lengths ip_uninitialized ipv4_esp
                  ipv4_esp_packet 28 Hall Hrun) eq_refl).
Defined.

(** X17: IPv4 options. For an IPv4 packet that [ip_create] accepts and that
    fills its buffer, [ip_get_next_layer] points 20 bytes after the start of
    the packet whatever the header length, while [ip_get_plen] counts the
    bytes after the whole header: the two describe the same payload exactly
    when the header has no options. *)
Theorem ipv4_next_layer_ignores_options (ip ip' : ip_packet)
    (packet : list Z) (size : Z) :
  Forall uint8 packet -> Z.of_nat (length packet) = size ->
  ip_create ip packet size = Ok (1, ip') -> version ip' = IPV4 ->
  exists plen,
    ip_get_next_layer ip' = Ok (ptr_add packet 20) /\
    ip_get_plen ip' = Ok plen /\
    (Z.of_nat (length (ptr_add packet 20)) = plen <->
     ip_get_hdrlen ip' = Ok 20).
Proof.
  intros Hall Hlen Hrun Hver.
  destruct (accepted_ipv4_lengths ip ip' packet size Hall Hrun Hver)
    as (hdrlen & Hhdr & Hbounds & _ & _ & Hplen).
  destruct (ip_create_ipv4_inv ip ip' packet size Hrun Hver)
    as (_ & _ & -> & _).
  exists (size - hdrlen). split; [reflexivity |]. split; [exact Hplen |].
  rewrite Hhdr. unfold ptr_add. rewrite length_skipn.
  change (Z.to_nat 20) with 20%nat.
  split.
  - intros H. f_equal. lia.
  - intros [= ->]. lia.
Qed.

(** The witness of X17: an IPv4 packet without options. *)
Lemma ipv4_next_layer_ignores_options_witness :
  exists plen,
    ip_get_next_layer ipv4_esp = Ok (ptr_add ipv4_esp_packet 20) /\
    ip_get_plen ipv4_esp = Ok plen /\
    (Z.of_nat (length (ptr_add ipv4_esp_packet 20)) = plen <->
     ip_get_hdrlen ipv4_esp = Ok 20).
Proof.
  apply (ipv4_next_layer_ignores_options ip_uninitialized ipv4_esp
           ipv4_esp_packet 28).
  - unfold ipv4_esp_packet. cbn [app].
    repeat (apply Forall_cons; [unfold uint8; lia |]). apply Forall_nil.
  - reflexivity.
  - reflexivity.
  - reflexivity.
Defined.

(** An IPv4 packet of 32 bytes with 4 bytes of options: the pointer of
    [ip_get_next_layer] leaves 12 bytes, [ip_get_plen] counts 8. *)
Example ipv4_with_options :
  let packet :=
    [0x46; 0; 0; 32; 0; 0; 0; 0; 64; 50; 0; 0; 10; 0; 0; 1; 10; 0; 0; 2]
    ++ [1; 1; 1; 1] ++ [0xde; 0xad; 0xbe; 0xef; 0; 0; 0; 1] in
  exists ip',
    ip_create ip_uninitialized packet 32 = Ok (1, ip') /\
    version ip' = IPV4 /\
    ip_get_plen ip' = Ok 8 /\
    ip_get_next_layer ip'
    = Ok ([1; 1; 1; 1] ++ [0xde; 0xad; 0xbe; 0xef; 0; 0; 0; 1]).
Proof.
  eexists. split; [reflexivity |]. repeat split; reflexivity.
Qed.

(** ** The walk along the IPv6 extension headers *)

Lemma ext_get_protocol_not_ext (fuel : nat) (p : list Z) (proto : Z) :
  ext_get_protocol fuel p = Ok proto -> is_ipv6_ext proto = false.
Proof.
  revert p. induction fuel as [| fuel IH]; intros p; cbn [ext_get_protocol];
    destruct (load p 0) as [t |]; cbv beta iota delta [bind];
    try discriminate;
    destruct (load p 1) as [len |]; cbv beta iota delta [bind];
    try discriminate;
    destruct (is_ipv6_ext t) eqn:Et; try discriminate.
  - intros [= <-]. exact Et.
  - apply IH.
  - intros [= <-]. exact Et.
Qed.

Lemma load_app_nth (a b : list Z) (i : nat) :
  (i < length a)%nat -> load (a ++ b) (Z.of_nat i) = Ok (nth i a 0).
Proof.
  intros H. apply FeedbackTheory.load_ok.
  rewrite nth_error_app1 by exact H. apply nth_error_nth'. exact H.
Qed.

Lemma ext_chain_length (exts : list (list Z)) :
  forall t, ext_chain t exts -> (length exts <= length (concat exts))%nat.
Proof.
  induction exts as [| ext exts IH]; intros t; cbn [ext_chain concat length];
    [lia |].
  intros (_ & Hmin & _ & Hrest). rewrite length_app.
  pose proof (IH _ Hrest). lia.
Qed.

Lemma ext_chain_nonempty (t : Z) (exts : list (list Z)) :
  is_ipv6_ext t = true -> ext_chain t exts -> exts <> [].
Proof.
  intros Ht Hchain ->. cbn [ext_chain] in Hchain. congruence.
Qed.

(** The recursion of [ext_get_protocol] along a chain of extension
    headers: one call for each header, and the answer is the type that the
    last one announces. *)
Lemma ext_get_protocol_chain (exts : list (list Z)) :
  forall (ext : list Z) (t : Z) (rest : list Z) (fuel : nat),
    ext_chain t (ext :: exts) -> (length exts <= fuel)%nat ->
    ext_get_protocol fuel (ext ++ concat exts ++ rest)
    = Ok (chain_protocol t (ext :: exts)).
Proof.
  induction exts as [| ext' exts IH]; intros ext t rest fuel;
    cbn [ext_chain chain_protocol concat length];
    intros (Ht & Hmin & Hlen & Hrest) Hfuel.
  - destruct fuel; cbn [ext_get_protocol];
      rewrite (load_app_nth ext _ 0), (load_app_nth ext _ 1) by lia;
      cbv beta iota delta [bind]; rewrite Hrest; reflexivity.
  - specialize (Hlen ltac:(discriminate)).
    pose proof Hrest as (Ht' & _).
    destruct fuel as [| fuel]; [lia |]. cbn [ext_get_protocol].
    rewrite (load_app_nth ext _ 0), (load_app_nth ext _ 1) by lia.
    cbv beta iota delta [bind]. rewrite Ht'.
    unfold ptr_add. rewrite <- Hlen, Nat2Z.id.
    rewrite skipn_app, skipn_all, Nat.sub_diag. cbn [skipn app].
    rewrite <- app_assoc.
    apply (IH ext' (nth 0 ext 0) rest fuel); [exact Hrest | lia].
Qed.

Lemma nth_firstn_lt (p : list Z) (i n : nat) :
  (i < n)%nat -> nth i (firstn n p) 0 = nth i p 0.
Proof.
  revert i n. induction p as [| x p IH]; intros i n H.
  - rewrite firstn_nil. reflexivity.
  - destruct n as [| n]; [lia |].
    destruct i as [| i]; cbn [firstn nth]; [reflexivity |]. apply IH. lia.
Qed.

Lemma load_nth (p : list Z) (i : nat) (b : Z) :
  load p (Z.of_nat i) = Ok b -> (i < length p)%nat /\ nth i p 0 = b.
Proof.
  unfold load. destruct (Z.ltb_spec (Z.of_nat i) 0); [discriminate |].
  rewrite Nat2Z.id.
  destruct (nth_error p i) as [x |] eqn:E; [| discriminate].
  intros [= <-]. split.
  - apply nth_error_Some. congruence.
  - apply nth_error_nth. exact E.
Qed.

(** What [ext_get_protocol] has walked along when it answers: a chain of
    extension headers, of which it returns the type that the last one
    announces. *)
Lemma ext_get_protocol_inv (fuel : nat) :
  forall (p : list Z) (t proto : Z),
    Forall uint8 p -> is_ipv6_ext t = true ->
    ext_get_protocol fuel p = Ok proto ->
    exists exts rest,
      p = concat exts ++ rest /\ ext_chain t exts /\
      chain_protocol t exts = proto.
Proof.
  induction fuel as [| fuel IH]; intros p t proto Hall Ht;
    cbn [ext_get_protocol];
    destruct (load p 0) as [t' |] eqn:E0; cbv beta iota delta [bind];
    try discriminate;
    destruct (load p 1) as [len |] eqn:E1; cbv beta iota delta [bind];
    try discriminate;
    pose proof (load_byte p 1 _ Hall E1) as Hb;
    apply (load_nth p 0) in E0 as (_ & E0);
    apply (load_nth p 1) in E1 as (H2 & E1);
    unfold uint8 in Hb;
    destruct (is_ipv6_ext t') eqn:Et'; try discriminate.
  - intros [= <-]. exists [firstn 2 p], (skipn 2 p).
    cbn [concat ext_chain chain_protocol]. rewrite app_nil_r.
    rewrite firstn_skipn, length_firstn, (nth_firstn_lt p 0 2) by lia.
    rewrite E0. repeat split; try assumption; try lia. congruence.
  - intros Hrun.
    destruct (IH _ t' proto (ptr_add_bytes p _ Hall) Et' Hrun)
      as (exts & rest & Hp & Hchain & Hproto).
    pose proof (ext_chain_nonempty t' exts Et' Hchain) as Hne.
    set (n := Z.to_nat ((len + 1) * 8)) in *.
    assert (Hn : (n < length p)%nat).
    { destruct (Nat.lt_ge_cases n (length p)) as [Hlt | Hge];
        [exact Hlt | exfalso].
      unfold ptr_add in Hp. fold n in Hp. rewrite skipn_all2 in Hp by lia.
      destruct exts as [| e exts]; [contradiction |].
      destruct Hchain as (_ & Hmin & _).
      destruct e; [cbn [length] in Hmin; lia | discriminate]. }
    exists (firstn n p :: exts), rest.
    cbn [concat ext_chain chain_protocol].
    rewrite <- app_assoc, <- Hp. unfold ptr_add. fold n.
    rewrite firstn_skipn, length_firstn.
    rewrite (nth_firstn_lt p 0 n), (nth_firstn_lt p 1 n) by lia.
    rewrite E0, E1. repeat split; try assumption; try lia.
  - intros [= <-]. exists [firstn 2 p], (skipn 2 p).
    cbn [concat ext_chain chain_protocol]. rewrite app_nil_r.
    rewrite firstn_skipn, length_firstn, (nth_firstn_lt p 0 2) by lia.
    rewrite E0. repeat split; try assumption; try lia. congruence.
Qed.

(** X18: for an IPv6 packet, [ip_get_protocol] never answers with the type
    of an extension header it knows (Hop-by-Hop, Destination, Routing,
    Authentication). When the base header is followed by a chain of such
    extension headers it does answer, with the type that the last header of
    the chain announces (the Next Header of the base header when there is no
    extension header); and on a buffer of bytes every answer it gives is
    the one of such a chain. *)
Theorem ip_get_protocol_skips_extensions (ip : ip_packet) :
  version ip = IPV6 ->
  (forall proto,
     ip_get_protocol ip = Ok proto ->
     is_ipv6_ext proto = false /\
     proto <> IPV6_EXT_HOP_BY_HOP /\ proto <> IPV6_EXT_DESTINATION /\
     proto <> IPV6_EXT_ROUTING /\ proto <> IPV6_EXT_AUTH) /\
  (forall exts rest,
     ptr_add (data ip) sizeof_ipv6_hdr = concat exts ++ rest ->
     ext_chain (v6_ip6_nxt ip) exts ->
     ip_get_protocol ip = Ok (chain_protocol (v6_ip6_nxt ip) exts)) /\
  (Forall uint8 (data ip) ->
   forall proto,
     ip_get_protocol ip = Ok proto ->
     exists exts rest,
       ptr_add (data ip) sizeof_ipv6_hdr = concat exts ++ rest /\
       ext_chain (v6_ip6_nxt ip) exts /\
       chain_protocol (v6_ip6_nxt ip) exts = proto).
Proof.
  intros Hver. split; [| split].
  - intros proto Hrun.
    assert (Hext : is_ipv6_ext proto = false).
    { revert Hrun. unfold ip_get_protocol. rewrite Hver.
      destruct (is_ipv6_ext (v6_ip6_nxt ip)) eqn:Et.
      - apply ext_get_protocol_not_ext.
      - intros [= <-]. exact Et. }
    split; [exact Hext |]. unfold is_ipv6_ext in Hext.
    repeat split; intros ->; revert Hext; vm_compute; discriminate.
  - intros exts rest Hdata Hchain. unfold ip_get_protocol. rewrite Hver.
    destruct exts as [| ext exts].
    + cbn [ext_chain chain_protocol] in *. rewrite Hchain. reflexivity.
    + pose proof Hchain as (Ht & _ & _ & Hrest). rewrite Ht, Hdata.
      cbn [concat]. rewrite <- app_assoc.
      apply ext_get_protocol_chain; [exact Hchain |].
      pose proof (ext_chain_length exts _ Hrest).
      rewrite !length_app. lia.
  - intros Hall proto. unfold ip_get_protocol. rewrite Hver.
    destruct (is_ipv6_ext (v6_ip6_nxt ip)) eqn:Et.
    + apply ext_get_protocol_inv; [apply ptr_add_bytes; exact Hall | exact Et].
    + intros [= <-]. exists [], (ptr_add (data ip) sizeof_ipv6_hdr).
      cbn [concat app ext_chain chain_protocol]. auto.
Qed.

(** The witness of X18: ESP behind a Hop-by-Hop and a Routing extension
    header. *)
Lemma ip_get_protocol_skips_extensions_witness :
  ptr_add (data ipv6_ext_esp) sizeof_ipv6_hdr
  = concat ipv6_ext_esp_chain ++ [0xde; 0xad; 0xbe; 0xef; 0; 0; 0; 1] /\
  ext_chain (v6_ip6_nxt ipv6_ext_esp) ipv6_ext_esp_chain /\
  chain_protocol (v6_ip6_nxt ipv6_ext_esp) ipv6_ext_esp_chain = 50 /\
  ip_get_protocol ipv6_ext_esp
  = Ok (chain_protocol (v6_ip6_nxt ipv6_ext_esp) ipv6_ext_esp_chain) /\
  is_ipv6_ext 50 = false.
Proof.
  assert (Hdata : ptr_add (data ipv6_ext_esp) sizeof_ipv6_hdr
                  = concat ipv6_ext_esp_chain
                    ++ [0xde; 0xad; 0xbe; 0xef; 0; 0; 0; 1])
    by reflexivity.
  assert (Hchain : ext_chain (v6_ip6_nxt ipv6_ext_esp) ipv6_ext_esp_chain).
  { cbn [ext_chain ipv6_ext_esp_chain length nth].
    repeat split; try reflexivity; try lia; intros; reflexivity. }
  pose proof (ip_get_protocol_skips_extensions ipv6_ext_esp eq_refl)
    as (Hnever & Hlast & _).
  split; [exact Hdata |]. split; [exact Hchain |].
  split; [reflexivity |].
  split; [exact (Hlast _ _ Hdata Hchain) |].
  exact (proj1 (Hnever 50 (Hlast _ _ Hdata Hchain))).
Defined.

Lemma skip_extensions_not_ext (fuel : nat) (t : Z) (p : list Z) :
  is_ipv6_ext t = false -> skip_extensions fuel t p = Ok p.
Proof.
  intros H. destruct fuel; cbn [skip_extensions]; rewrite H; reflexivity.
Qed.

Lemma sum_extensions_none (fuel : nat) (acc : Z) :
  sum_extensions fuel None acc = Ok acc.
Proof. destruct fuel; reflexivity. Qed.

Lemma sum_extensions_fuel (fuel : nat) (p : list Z) (acc : Z) :
  Forall uint8 p -> (length p < fuel)%nat ->
  sum_extensions fuel (Some p) acc <> Fault OutOfFuel.
Proof.
  revert p acc. induction fuel as [| fuel IH]; intros p acc Hall Hlen; [lia |].
  cbn [sum_extensions]. unfold ip_get_extension_size, ip_get_next_ext_from_ext.
  load_cases E1. load_cases E0.
  match goal with
  | |- context [is_ipv6_ext ?t] => destruct (is_ipv6_ext t)
  end.
  - cbv beta iota delta [bind].
    pose proof (load_second_length p _ E1) as H2.
    pose proof (load_byte p 1 _ Hall E1) as Hb.
    apply IH; [apply ptr_add_bytes; exact Hall |].
    pose proof (ptr_add_shorter p _ Hb H2). lia.
  - cbv beta iota delta [bind]. rewrite sum_extensions_none. discriminate.
Qed.

(** X19: the loops over the IPv6 extension headers always stop. Every turn
    moves at least 8 bytes forward, so on a buffer of bytes
    [ip_get_next_layer], [ip_get_total_extension_size], [ip_get_plen] and
    [ip_get_protocol] end within as many turns as the buffer has bytes: each
    of them returns or reads past the end of the buffer, none runs on. *)
Theorem extension_walks_stop (ip : ip_packet) :
  Forall uint8 (data ip) ->
  ip_get_next_layer ip <> Fault OutOfFuel /\
  ip_get_total_extension_size ip <> Fault OutOfFuel /\
  ip_get_plen ip <> Fault OutOfFuel /\
  ip_get_protocol ip <> Fault OutOfFuel.
Proof.
  intros Hall.
  assert (Htotal : ip_get_total_extension_size ip <> Fault OutOfFuel).
  { unfold ip_get_total_extension_size, ip_get_next_ext_from_ip,
      ip_get_next_header.
    destruct (version ip); cbv beta iota delta [bind]; try discriminate.
    destruct (is_ipv6_ext (v6_ip6_nxt ip)); [| discriminate].
    apply sum_extensions_fuel; [apply ptr_add_bytes; exact Hall |].
    unfold ptr_add. rewrite length_skipn. lia. }
  split; [| split; [exact Htotal | split]].
  - unfold ip_get_next_layer, ip_get_next_header.
    destruct (version ip); cbv beta iota delta [bind]; try discriminate.
    apply skip_extensions_fuel; [apply ptr_add_bytes; exact Hall | lia].
  - unfold ip_get_plen.
    destruct (version ip); try discriminate.
    destruct (ip_get_total_extension_size ip) as [total | f];
      cbv beta iota delta [bind]; [discriminate | exact Htotal].
  - unfold ip_get_protocol.
    destruct (version ip); try discriminate.
    destruct (is_ipv6_ext (v6_ip6_nxt ip)); [| discriminate].
    apply ext_get_protocol_fuel; [apply ptr_add_bytes; exact Hall | lia].
Qed.

Lemma ipv6_ext_esp_bytes : Forall uint8 ipv6_ext_esp_packet.
Proof.
  unfold ipv6_ext_esp_packet. cbn [app repeat].
  repeat (apply Forall_cons; [unfold uint8; lia |]). apply Forall_nil.
Qed.

(** The witness of X19: ESP behind two extension headers. *)
Lemma extension_walks_stop_witness :
  Forall uint8 (data ipv6_ext_esp) /\
  ip_get_next_layer ipv6_ext_esp <> Fault OutOfFuel /\
  ip_get_total_extension_size ipv6_ext_esp <> Fault OutOfFuel /\
  ip_get_plen ipv6_ext_esp <> Fault OutOfFuel /\
  ip_get_protocol ipv6_ext_esp <> Fault OutOfFuel.
Proof.
  split; [exact ipv6_ext_esp_bytes |].
  exact (extension_walks_stop ipv6_ext_esp ipv6_ext_esp_bytes).
Defined.

Lemma load_nil (i : Z) : load [] i = Fault OutOfBounds.
Proof.
  unfold load. destruct (i <? 0); [reflexivity |].
  destruct (Z.to_nat i); reflexivity.
Qed.

Lemma skip_extensions_nil (fuel : nat) (t : Z) (q : list Z) :
  is_ipv6_ext t = true -> skip_extensions fuel t [] <> Ok q.
Proof.
  intros H. destruct fuel; cbn [skip_extensions]; rewrite H; [discriminate |].
  rewrite load_nil. discriminate.
Qed.

(** The two loops of the walker in step: the bytes that the loop of
    [ip_get_next_layer] skips are the ones that the loop of
    [ip_get_total_extension_size] counts. *)
Lemma walk_agree (f1 : nat) :
  forall (f2 : nat) (t : Z) (p : list Z) (acc : Z) (q : list Z),
    Forall uint8 p -> is_ipv6_ext t = true -> (length p < f2)%nat ->
    0 <= acc -> acc + Z.of_nat (length p) < 2 ^ 16 ->
    skip_extensions f1 t p = Ok q -> q <> [] ->
    sum_extensions f2 (Some p) acc
    = Ok (acc + Z.of_nat (length p) - Z.of_nat (length q)) /\
    (length q <= length p)%nat /\
    q = skipn (length p - length q) p.
Proof.
  induction f1 as [| f1 IH]; intros f2 t p acc q Hall Hext Hfuel Hacc Hmax;
    cbn [skip_extensions]; rewrite Hext; [discriminate |].
  destruct (load p 0) as [t' |] eqn:E0; cbv beta iota delta [bind];
    [| discriminate].
  destruct (load p 1) as [len |] eqn:E1; cbv beta iota delta [bind];
    [| discriminate].
  intros Hrun Hq.
  pose proof (load_second_length p _ E1) as H2.
  pose proof (load_byte p 1 _ Hall E1) as Hb.
  set (p' := ptr_add p ((len + 1) * 8)) in *.
  assert (Hp' : p' <> []).
  { intros E. rewrite E in Hrun.
    destruct (is_ipv6_ext t') eqn:Et.
    - exact (skip_extensions_nil f1 t' q Et Hrun).
    - rewrite skip_extensions_not_ext in Hrun by exact Et.
      injection Hrun as <-. contradiction. }
  assert (Hlen' : Z.of_nat (length p')
                  = Z.of_nat (length p) - (len + 1) * 8
                  /\ (0 < length p')%nat).
  { assert (0 < length p')%nat
      by (destruct p'; [contradiction | cbn [length]; lia]).
    split; [| assumption].
    unfold p', ptr_add in *. rewrite length_skipn in *. unfold uint8 in Hb.
    lia. }
  destruct Hlen' as (Hlen' & Hpos').
  assert (Hnat : length p' = (length p - Z.to_nat ((len + 1) * 8))%nat
                 /\ (Z.to_nat ((len + 1) * 8) < length p)%nat).
  { assert (E : length p' = (length p - Z.to_nat ((len + 1) * 8))%nat)
      by (unfold p', ptr_add; apply length_skipn).
    split; [exact E | lia]. }
  destruct Hnat as (Hnat & Hnatlt).
  unfold uint8 in Hb. change (2 ^ 8) with 256 in Hb.
  change (2 ^ 16) with 65536 in *.
  assert (Hsz : wrap16 ((len + 1) * 8) = (len + 1) * 8)
    by (apply Z.mod_small; change (2 ^ 16) with 65536; lia).
  assert (Hacc' : wrap16 (acc + (len + 1) * 8) = acc + (len + 1) * 8)
    by (apply Z.mod_small; change (2 ^ 16) with 65536; lia).
  destruct f2 as [| f2]; [lia |].
  cbn [sum_extensions].
  unfold ip_get_extension_size, ip_get_next_ext_from_ext.
  rewrite E1, E0. cbv beta iota delta [bind]. rewrite Hsz, Hacc'.
  destruct (is_ipv6_ext t') eqn:Et.
  - rewrite ?E1. cbv beta iota delta [bind]. fold p'.
    destruct (IH f2 t' p' (acc + (len + 1) * 8) q) as (Hsum & Hle & Hsuf);
      try assumption; try lia.
    { apply ptr_add_bytes. exact Hall. }
    split; [rewrite Hsum; f_equal; lia |].
    split; [lia |].
    rewrite Hsuf at 1. rewrite Hnat. unfold p', ptr_add.
    rewrite skipn_skipn. f_equal. lia.
  - cbv beta iota delta [bind]. rewrite sum_extensions_none.
    rewrite skip_extensions_not_ext in Hrun by exact Et.
    injection Hrun as <-.
    split; [f_equal; lia |].
    split; [lia |].
    rewrite Hnat. unfold p', ptr_add. f_equal. lia.
Qed.

(** X20: the pointer and the length of the extension headers agree. For an
    IPv6 packet in a buffer of less than 65536 bytes, when
    [ip_get_next_layer] returns a pointer inside the buffer,
    [ip_get_total_extension_size] returns the number of bytes between the
    end of the base header and that pointer: next layer = data + 40 +
    total extension size. *)
Theorem next_layer_after_extensions (ip : ip_packet) (q : list Z) :
  version ip = IPV6 -> Forall uint8 (data ip) ->
  Z.of_nat (length (data ip)) < 2 ^ 16 ->
  ip_get_next_layer ip = Ok q -> q <> [] ->
  exists total,
    ip_get_total_extension_size ip = Ok total /\
    0 <= total /\
    q = ptr_add (data ip) (sizeof_ipv6_hdr + total) /\
    Z.of_nat (length q)
    = Z.of_nat (length (data ip)) - sizeof_ipv6_hdr - total.
Proof.
  intros Hver Hall Hmax. unfold ip_get_next_layer,
    ip_get_total_extension_size, ip_get_next_ext_from_ip, ip_get_next_header.
  rewrite Hver. cbv beta iota delta [bind]. unfold sizeof_ipv6_hdr.
  set (p := ptr_add (data ip) 40).
  assert (Hp : length p = (length (data ip) - 40)%nat).
  { unfold p, ptr_add. rewrite length_skipn. reflexivity. }
  destruct (is_ipv6_ext (v6_ip6_nxt ip)) eqn:Et.
  - intros Hrun Hq.
    destruct (walk_agree (S (length p)) (S (length (data ip)))
                (v6_ip6_nxt ip) p 0 q) as (Hsum & Hle & Hsuf);
      try assumption; try lia.
    { apply ptr_add_bytes. exact Hall. }
    assert (Hqpos : (0 < length q)%nat)
      by (destruct q; [contradiction | cbn [length]; lia]).
    exists (Z.of_nat (length p) - Z.of_nat (length q)).
    split; [rewrite Hsum; f_equal; lia |].
    split; [lia |].
    split; [| lia].
    rewrite Hsuf at 1. unfold ptr_add.
    replace (Z.to_nat (40 + (Z.of_nat (length p) - Z.of_nat (length q))))
      with (length p - length q + 40)%nat by lia.
    rewrite <- skipn_skipn. reflexivity.
  - rewrite skip_extensions_not_ext by exact Et. intros [= <-] Hq.
    rewrite sum_extensions_none. exists 0.
    assert (Hqpos : (0 < length p)%nat)
      by (destruct p; [contradiction | cbn [length]; lia]).
    split; [reflexivity |]. split; [lia |]. split; [reflexivity |]. lia.
Qed.

(** The witness of X20: two extension headers of 8 bytes each. *)
Lemma next_layer_after_extensions_witness :
  ip_get_next_layer ipv6_ext_esp = Ok [0xde; 0xad; 0xbe; 0xef; 0; 0; 0; 1] /\
  exists total,
    ip_get_total_extension_size ipv6_ext_esp = Ok total /\
    0 <= total /\
    [0xde; 0xad; 0xbe; 0xef; 0; 0; 0; 1]
    = ptr_add (data ipv6_ext_esp) (sizeof_ipv6_hdr + total) /\
    Z.of_nat (length [0xde; 0xad; 0xbe; 0xef; 0; 0; 0; 1])
    = Z.of_nat (length (data ipv6_ext_esp)) - sizeof_ipv6_hdr - total.
Proof.
  assert (Hrun : ip_get_next_layer ipv6_ext_esp
                 = Ok [0xde; 0xad; 0xbe; 0xef; 0; 0; 0; 1]) by reflexivity.
  split; [exact Hrun |].
  apply (next_layer_after_extensions ipv6_ext_esp _ eq_refl
           ipv6_ext_esp_bytes).
  - simpl. lia.
  - exact Hrun.
  - discriminate.
Defined.

Example total_extension_size_of_two :
  ip_get_total_extension_size ipv6_ext_esp = Ok 16 /\
  ip_get_plen ipv6_ext_esp = Ok 8.
Proof. split; reflexivity. Qed.

(** ** The setters of the header fields *)

Lemma nth_list_set_same (l : list Z) (n : nat) (v : Z) :
  (n < length l)%nat -> nth n (Feedback.list_set l n v) 0 = v.
Proof.
  revert n. induction l as [| h t IH]; intros [| n]; simpl; intros H;
    try lia; auto. apply IH. lia.
Qed.

Lemma nth_list_set_other (l : list Z) (n m : nat) (v : Z) :
  n <> m -> nth m (Feedback.list_set l n v) 0 = nth m l 0.
Proof.
  revert n m. induction l as [| h t IH]; intros [| n] [| m]; simpl;
    intros H; try congruence; auto.
Qed.

Lemma length_hdr_set (l : list Z) (n : nat) (v : Z) :
  length (Feedback.list_set l n v) = length l.
Proof.
  revert n. induction l as [| h t IH]; intros [| n]; simpl; auto.
Qed.

Lemma nth_error_hdr_set_other (l : list Z) (n m : nat) (v : Z) :
  m <> n -> nth_error (Feedback.list_set l n v) m = nth_error l m.
Proof.
  revert n m. induction l as [| h t IH]; intros [| n] [| m]; simpl;
    intros H; try congruence; auto.
Qed.

(** A store of one octet in the header image leaves the rest of the
    structure as it was. *)
Lemma set_hdr_byte_frame (i : nat) (v : Z) (ip : ip_packet) :
  same_but_octet i (set_hdr_byte i v ip) ip.
Proof.
  unfold same_but_octet, set_hdr_byte. cbn [version header data Ip.size].
  repeat split; [apply length_hdr_set |].
  intros j Hj. apply nth_error_hdr_set_other. exact Hj.
Qed.

(** X21: the setters write one field of the header copy and nothing else.
    [ip_set_ttl] on an IPv4 or IPv6 packet leaves the version, the packet
    data, the size and every octet of the header image but the one of the
    TTL as they were, and so the protocol; [ip_set_protocol] after it does
    the same but for the octet of the protocol. After the two,
    [ip_get_ttl] returns the low 8 bits of the TTL that was set and
    [ip_get_protocol] returns the low 8 bits of the protocol that was set
    (for IPv6, when that is not the type of an extension header, which sends
    [ip_get_protocol] to the packet data); the version, the packet data, the
    total length and the header length are the ones of before. *)
Theorem ip_set_ttl_protocol (ip ip1 ip2 : ip_packet) (ttl proto : Z) :
  header_filled ip ->
  ip_set_ttl ip ttl = Ok ip1 -> ip_set_protocol ip1 proto = Ok ip2 ->
  (ip_get_ttl ip2 = Ok (Z.land ttl 0xff) /\
   (version ip = IPV4 \/ is_ipv6_ext (Z.land proto 0xff) = false ->
    ip_get_protocol ip2 = Ok (Z.land proto 0xff)) /\
   ip_get_version ip2 = ip_get_version ip /\
   ip_get_raw_data ip2 = ip_get_raw_data ip /\
   ip_get_totlen ip2 = ip_get_totlen ip /\
   ip_get_hdrlen ip2 = ip_get_hdrlen ip) /\
  same_but_octet (ttl_offset (version ip)) ip1 ip /\
  same_but_octet (protocol_offset (version ip)) ip2 ip1 /\
  hdr_byte ip2 (ttl_offset (version ip)) = Z.land ttl 0xff /\
  hdr_byte ip2 (protocol_offset (version ip)) = Z.land proto 0xff /\
  ip_get_ttl ip1 = Ok (Z.land ttl 0xff) /\
  ip_get_protocol ip1 = ip_get_protocol ip.
Proof.
  intros Hfilled Httl Hproto. split.
  - revert Hfilled Httl Hproto.
    unfold header_filled, ip_set_ttl, ip_set_protocol, ip_get_ttl,
      ip_get_protocol, ip_get_version, ip_get_raw_data, ip_get_totlen,
      ip_get_hdrlen.
    destruct ip as [ver hdr d sz]. cbn [version header].
    destruct ver; try discriminate; intros Hlen; cbv beta iota in Hlen;
      intros [= <-]; cbn [version];
      intros [= <-]; unfold set_hdr_byte; cbn [version header data Ip.size];
      unfold v4_ttl, v6_ip6_hlim, v4_protocol, v6_ip6_nxt, v4_tot_len,
        v6_ip6_plen, v4_ihl, hdr_ntoh16, hdr_byte; cbn [header].
    + rewrite (nth_list_set_other _ 9 8) by lia.
      rewrite (nth_list_set_same _ 8) by lia.
      rewrite (nth_list_set_same _ 9) by (rewrite length_hdr_set; lia).
      rewrite !(nth_list_set_other _ 9), !(nth_list_set_other _ 8) by lia.
      repeat split.
    + rewrite (nth_list_set_other _ 6 7) by lia.
      rewrite (nth_list_set_same _ 7) by lia.
      rewrite (nth_list_set_same _ 6) by (rewrite length_hdr_set; lia).
      rewrite !(nth_list_set_other _ 6), !(nth_list_set_other _ 7) by lia.
      repeat split.
      intros [H | H]; [discriminate |]. rewrite H. reflexivity.
  - revert Hfilled Httl Hproto.
    unfold header_filled, ip_set_ttl, ip_set_protocol.
    destruct (version ip) eqn:Hver; try discriminate; intros Hlen;
      intros [= <-]; unfold set_hdr_byte at 1; cbn [version]; rewrite Hver;
      intros [= <-]; cbn [ttl_offset protocol_offset].
    + split; [apply set_hdr_byte_frame |].
      split; [apply set_hdr_byte_frame |].
      unfold ip_get_ttl, ip_get_protocol, v4_ttl, v4_protocol, hdr_byte,
        set_hdr_byte.
      cbn [version header data Ip.size]. rewrite Hver.
      rewrite (nth_list_set_other _ 9 8) by lia.
      rewrite (nth_list_set_same _ 8) by lia.
      rewrite (nth_list_set_same _ 9) by (rewrite length_hdr_set; lia).
      rewrite (nth_list_set_other _ 8 9) by lia.
      repeat split.
    + split; [apply set_hdr_byte_frame |].
      split; [apply set_hdr_byte_frame |].
      unfold ip_get_ttl, ip_get_protocol, v6_ip6_hlim, v6_ip6_nxt, hdr_byte,
        set_hdr_byte.
      cbn [version header data Ip.size]. rewrite Hver.
      rewrite (nth_list_set_other _ 6 7) by lia.
      rewrite (nth_list_set_same _ 7) by lia.
      rewrite (nth_list_set_same _ 6) by (rewrite length_hdr_set; lia).
      rewrite (nth_list_set_other _ 7 6) by lia.
      repeat split.
Qed.

(** The witness of X21: TTL 63 and protocol 17 on an IPv4 packet. *)
Lemma ip_set_ttl_protocol_witness :
  exists ip1 ip2,
    ip_set_ttl ipv4_esp 63 = Ok ip1 /\ ip_set_protocol ip1 17 = Ok ip2 /\
    ip_get_ttl ip2 = Ok (Z.land 63 0xff) /\
    ip_get_raw_data ip2 = ip_get_raw_data ipv4_esp /\
    same_but_octet 8 ip1 ipv4_esp /\ same_but_octet 9 ip2 ip1.
Proof.
  eexists. eexists. split; [reflexivity |]. split; [reflexivity |].
  assert (Hfilled : header_filled ipv4_esp) by (vm_compute; lia).
  destruct (ip_set_ttl_protocol ipv4_esp _ _ 63 17 Hfilled eq_refl eq_refl)
    as ((Httl & _ & _ & Hdata & _) & Hframe1 & Hframe2 & _).
  split; [exact Httl |]. split; [exact Hdata |].
  split; [exact Hframe1 | exact Hframe2].
Defined.

(** The header image after the two setters on the IPv4 packet: the octets 8
    and 9 are the new ones, the addresses and all the rest are the old
    ones. *)
Example ip_set_ttl_protocol_bytes :
  (ip1 <- ip_set_ttl ipv4_esp 63 ;; ip_set_protocol ip1 17)
  = Ok (mk_ip IPV4
          [0x45; 0; 0; 28; 0; 0; 0; 0; 63; 17; 0; 0; 10; 0; 0; 1; 10; 0; 0; 2]
          ipv4_esp_packet 28).
Proof. reflexivity. Qed.

End IpProperties.

(** * The ESP profile: further properties *)

Module EspProperties.

Import Ip Esp EspSpec IpFields EspParts.

(** ** The static and dynamic parts of the ESP header *)

Lemma memcpy_ok (p : list Z) (n : Z) :
  0 <= n <= Z.of_nat (length p) -> memcpy p n = Ok (firstn (Z.to_nat n) p).
Proof.
  intros H. unfold memcpy.
  destruct (Z.ltb_spec n 0); [lia |].
  destruct (Z.ltb_spec (Z.of_nat (length p)) n); [lia |].
  reflexivity.
Qed.

Lemma esp_spi_ok (esp : list Z) :
  (4 <= length esp)%nat -> esp_spi esp = Ok (firstn 4 esp).
Proof. intros H. unfold esp_spi. rewrite memcpy_ok by lia. reflexivity. Qed.

Lemma esp_sn_ok (esp : list Z) :
  (8 <= length esp)%nat -> esp_sn esp = Ok (firstn 4 (skipn 4 esp)).
Proof.
  intros H. unfold esp_sn, ptr_add. change (Z.to_nat 4) with 4%nat.
  rewrite memcpy_ok by (rewrite length_skipn; lia). reflexivity.
Qed.

Lemma memcpy_to_ok (dest src : list Z) (counter : Z) :
  0 <= counter ->
  counter + Z.of_nat (length src) <= Z.of_nat (length dest) ->
  memcpy_to dest counter src
  = Ok (firstn (Z.to_nat counter) dest ++ src
        ++ skipn (Z.to_nat counter + length src) dest).
Proof.
  intros Hc Hlen. unfold memcpy_to.
  rewrite <- (Z2Nat.id counter) at 1 by lia.
  apply FeedbackProperties.copy_to_prefix. lia.
Qed.

Lemma read_esphdr_ok (esp : list Z) :
  (8 <= length esp)%nat ->
  read_esphdr esp = Ok (mk_esphdr (firstn 4 esp) (firstn 4 (skipn 4 esp))).
Proof.
  intros H. unfold read_esphdr, sizeof_esphdr.
  rewrite memcpy_ok by lia. cbv beta iota delta [bind].
  change (Z.to_nat 8) with 8%nat. rewrite firstn_firstn.
  change (Nat.min 4 8) with 4%nat.
  rewrite skipn_firstn_comm. reflexivity.
Qed.

(** A copy onto the middle of a buffer. *)
Lemma memcpy_to_app (pre old post src : list Z) :
  length old = length src ->
  memcpy_to (pre ++ old ++ post) (Z.of_nat (length pre)) src
  = Ok (pre ++ src ++ post).
Proof.
  intros H. unfold memcpy_to.
  rewrite FeedbackProperties.copy_to_prefix
    by (rewrite !length_app; lia).
  rewrite firstn_app, firstn_all, Nat.sub_diag. cbn [firstn].
  rewrite app_nil_r.
  rewrite skipn_app, skipn_all2 by lia.
  replace (length pre + length src - length pre)%nat with (length old)
    by lia.
  rewrite skipn_app, skipn_all, Nat.sub_diag. reflexivity.
Qed.

Lemma firstn_app_exact (a b : list Z) (n : nat) :
  length a = n -> firstn n (a ++ b) = a.
Proof.
  intros <-. rewrite firstn_app, firstn_all, Nat.sub_diag. cbn [firstn].
  apply app_nil_r.
Qed.

Lemma skipn_app_exact (a b : list Z) (n : nat) :
  length a = n -> skipn n (a ++ b) = b.
Proof.
  intros <-. rewrite skipn_app, skipn_all, Nat.sub_diag. reflexivity.
Qed.

Lemma firstn_8_split (l : list Z) :
  firstn 8 l = firstn 4 l ++ firstn 4 (skipn 4 l).
Proof.
  rewrite <- (firstn_skipn 4 (firstn 8 l)).
  rewrite firstn_firstn. change (Nat.min 4 8) with 4%nat.
  rewrite skipn_firstn_comm. reflexivity.
Qed.

(** The static part followed by the dynamic part of an ESP header, written
    over the 8 bytes [m1 ++ m2] of a buffer. *)
Lemma static_then_dynamic_run (esp pre m1 m2 post : list Z) :
  (8 <= length esp)%nat -> length m1 = 4%nat -> length m2 = 4%nat ->
  esp_code_static_esp_part esp (pre ++ m1 ++ m2 ++ post)
    (Z.of_nat (length pre))
  = Ok (Z.of_nat (length pre) + 4, pre ++ firstn 4 esp ++ m2 ++ post) /\
  esp_code_dynamic_esp_part esp (pre ++ firstn 4 esp ++ m2 ++ post)
    (Z.of_nat (length pre) + 4)
  = Ok (Z.of_nat (length pre) + 4 + 4, pre ++ firstn 8 esp ++ post).
Proof.
  intros Hesp H1 H2.
  assert (H4 : length (firstn 4 esp) = 4%nat) by (rewrite length_firstn; lia).
  assert (H4' : length (firstn 4 (skipn 4 esp)) = 4%nat)
    by (rewrite length_firstn, length_skipn; lia).
  split.
  - unfold esp_code_static_esp_part. rewrite esp_spi_ok by lia.
    cbv beta iota delta [bind].
    rewrite memcpy_to_app by lia. reflexivity.
  - unfold esp_code_dynamic_esp_part. rewrite esp_sn_ok by lia.
    cbv beta iota delta [bind].
    replace (Z.of_nat (length pre) + 4)
      with (Z.of_nat (length (pre ++ firstn 4 esp)))
      by (rewrite length_app; lia).
    rewrite (app_assoc pre (firstn 4 esp)).
    rewrite memcpy_to_app by lia. cbv beta iota delta [bind].
    rewrite firstn_8_split, <- !app_assoc. reflexivity.
Qed.

(** X22: the ESP header goes through. [esp_code_static_esp_part] followed
    by [esp_code_dynamic_esp_part] copies the 8 bytes of the ESP header (the
    SPI, then the sequence number) to the packet under build at [counter],
    moves the position by 4 bytes each, and changes no other byte of the
    buffer; parsed back from there, the ESP header is the one of the
    packet. *)
Theorem esp_static_then_dynamic (esp dest : list Z) (counter : Z) :
  0 <= counter -> counter + 8 <= Z.of_nat (length dest) ->
  (8 <= length esp)%nat ->
  exists dest1 dest2,
    esp_code_static_esp_part esp dest counter = Ok (counter + 4, dest1) /\
    esp_code_dynamic_esp_part esp dest1 (counter + 4)
    = Ok (counter + 4 + 4, dest2) /\
    dest2 = firstn (Z.to_nat counter) dest ++ firstn 8 esp
            ++ skipn (Z.to_nat counter + 8) dest /\
    length dest2 = length dest /\
    read_esphdr (ptr_add dest2 counter) = read_esphdr esp.
Proof.
  intros Hc Hlen Hesp.
  set (c := Z.to_nat counter).
  set (pre := firstn c dest).
  set (m1 := firstn 4 (skipn c dest)).
  set (m2 := firstn 4 (skipn 4 (skipn c dest))).
  set (post := skipn (c + 8) dest).
  assert (Hpre : length pre = c) by (unfold pre; rewrite length_firstn; lia).
  assert (Hm1 : length m1 = 4%nat)
    by (unfold m1; rewrite length_firstn, length_skipn; lia).
  assert (Hm2 : length m2 = 4%nat)
    by (unfold m2; rewrite length_firstn, !length_skipn; lia).
  assert (Hdest : dest = pre ++ m1 ++ m2 ++ post).
  { unfold pre, m1, m2, post.
    rewrite <- (firstn_skipn c dest) at 1. f_equal.
    rewrite <- (firstn_skipn 4 (skipn c dest)) at 1. f_equal.
    rewrite <- (firstn_skipn 4 (skipn 4 (skipn c dest))) at 1. f_equal.
    rewrite !skipn_skipn. f_equal. lia. }
  assert (Hcounter : counter = Z.of_nat (length pre)) by lia.
  destruct (static_then_dynamic_run esp pre m1 m2 post Hesp Hm1 Hm2)
    as (Hstatic & Hdynamic).
  rewrite <- Hcounter, <- Hdest in Hstatic. rewrite <- Hcounter in Hdynamic.
  eexists. eexists. split; [exact Hstatic |]. split; [exact Hdynamic |].
  split; [reflexivity |].
  assert (H8 : length (firstn 8 esp) = 8%nat) by (rewrite length_firstn; lia).
  split.
  - rewrite !length_app, Hpre, H8. unfold post. rewrite length_skipn. lia.
  - unfold ptr_add. fold c. rewrite <- Hpre at 1.
    rewrite skipn_app, skipn_all, Nat.sub_diag. cbn [skipn app].
    rewrite (read_esphdr_ok esp Hesp).
    rewrite read_esphdr_ok by (rewrite length_app, H8; lia).
    assert (H4 : length (firstn 4 esp) = 4%nat)
      by (rewrite length_firstn; lia).
    assert (H4' : length (firstn 4 (skipn 4 esp)) = 4%nat)
      by (rewrite length_firstn, length_skipn; lia).
    rewrite firstn_8_split, <- app_assoc.
    rewrite (firstn_app_exact _ _ 4 H4), (skipn_app_exact _ _ 4 H4),
      (firstn_app_exact _ _ 4 H4').
    reflexivity.
Qed.

(** The witness of X22: the ESP header of [ipv6_esp_packet] written at
    position 2 of a buffer of 12 bytes. *)
Lemma esp_static_then_dynamic_witness :
  exists dest1 dest2,
    esp_code_static_esp_part [0xde; 0xad; 0xbe; 0xef; 0; 0; 0; 1]
      (repeat 0xff 12) 2 = Ok (2 + 4, dest1) /\
    esp_code_dynamic_esp_part [0xde; 0xad; 0xbe; 0xef; 0; 0; 0; 1] dest1
      (2 + 4) = Ok (2 + 4 + 4, dest2) /\
    dest2 = firstn (Z.to_nat 2) (repeat 0xff 12)
            ++ firstn 8 [0xde; 0xad; 0xbe; 0xef; 0; 0; 0; 1]
            ++ skipn (Z.to_nat 2 + 8) (repeat 0xff 12) /\
    length dest2 = length (repeat 0xff 12) /\
    read_esphdr (ptr_add dest2 2)
    = read_esphdr [0xde; 0xad; 0xbe; 0xef; 0; 0; 0; 1].
Proof.
  apply (esp_static_then_dynamic [0xde; 0xad; 0xbe; 0xef; 0; 0; 0; 1]
           (repeat 0xff 12) 2).
  - lia.
  - simpl. lia.
  - simpl. lia.
Defined.

Example esp_parts_bytes :
  ('(counter, dest) <- esp_code_static_esp_part
                         [0xde; 0xad; 0xbe; 0xef; 0; 0; 0; 1]
                         (repeat 0xff 12) 2 ;;
   esp_code_dynamic_esp_part [0xde; 0xad; 0xbe; 0xef; 0; 0; 0; 1] dest
     counter)
  = Ok (10, [0xff; 0xff; 0xde; 0xad; 0xbe; 0xef; 0; 0; 0; 1; 0xff; 0xff]).
Proof. reflexivity. Qed.

(** ** The sequence number *)

Lemma skipn_bytes (p : list Z) (n : nat) :
  Forall uint8 p -> Forall uint8 (skipn n p).
Proof.
  intros H. rewrite Forall_forall in *. intros x Hx. apply H.
  rewrite <- (firstn_skipn n p). apply in_or_app. right. exact Hx.
Qed.

Lemma rohc_ntoh32_uint32 (bytes : list Z) :
  length bytes = 4%nat -> Forall uint8 bytes -> uint32 (rohc_ntoh32 bytes).
Proof.
  intros Hlen Hall.
  destruct bytes as [| a [| b [| c [| d [| ? ?]]]]]; try discriminate.
  inversion Hall as [| ? ? Ha Hall1]; subst.
  inversion Hall1 as [| ? ? Hb Hall2]; subst.
  inversion Hall2 as [| ? ? Hc Hall3]; subst.
  inversion Hall3 as [| ? ? Hd _]; subst.
  unfold rohc_ntoh32, uint8, uint32 in *. cbn [fold_left].
  change (2 ^ 8) with 256 in *. change (2 ^ 32) with 4294967296. lia.
Qed.

Lemma firstn_bytes (p : list Z) (n : nat) :
  Forall uint8 p -> Forall uint8 (firstn n p).
Proof.
  intros H. rewrite Forall_forall in *. intros x Hx. apply H.
  rewrite <- (firstn_skipn n p). apply in_or_app. left. exact Hx.
Qed.

(** X23: the sequence number of the profile is the one that is sent. For
    the ESP header that follows the last IP header of the packet,
    [c_esp_get_next_sn] returns the 32-bit number that the four bytes
    written by [esp_code_dynamic_esp_part] hold in network byte order. *)
Theorem c_esp_get_next_sn_is_sent (nr_of_ip_hdr : Z)
    (outer_ip last : ip_packet) (inner_ip : option ip_packet)
    (esp dest : list Z) (counter : Z) :
  (nr_of_ip_hdr <= 1 /\ last = outer_ip) \/
  (nr_of_ip_hdr > 1 /\ inner_ip = Some last) ->
  ip_get_next_layer last = Ok esp ->
  (8 <= length esp)%nat -> Forall uint8 esp ->
  0 <= counter -> counter + 4 <= Z.of_nat (length dest) ->
  exists sn dest',
    c_esp_get_next_sn nr_of_ip_hdr outer_ip inner_ip = Ok sn /\
    esp_code_dynamic_esp_part esp dest counter = Ok (counter + 4, dest') /\
    uint32 sn /\
    rohc_ntoh32 (firstn 4 (ptr_add dest' counter)) = sn.
Proof.
  intros Hlast Hlayer Hesp Hall Hc Hroom.
  assert (H4 : length (firstn 4 (skipn 4 esp)) = 4%nat)
    by (rewrite length_firstn, length_skipn; lia).
  assert (Hsn : c_esp_get_next_sn nr_of_ip_hdr outer_ip inner_ip
                = Ok (rohc_ntoh32 (firstn 4 (skipn 4 esp)))).
  { unfold c_esp_get_next_sn.
    destruct Hlast as [(Hnr & ->) | (Hnr & ->)].
    - destruct (Z.gtb_spec nr_of_ip_hdr 1); [lia |].
      rewrite Hlayer. cbv beta iota delta [bind].
      rewrite esp_sn_ok by exact Hesp. reflexivity.
    - destruct (Z.gtb_spec nr_of_ip_hdr 1); [| lia].
      rewrite Hlayer. cbv beta iota delta [bind].
      rewrite esp_sn_ok by exact Hesp. reflexivity. }
  eexists. eexists. split; [exact Hsn |].
  unfold esp_code_dynamic_esp_part. rewrite esp_sn_ok by exact Hesp.
  cbv beta iota delta [bind].
  rewrite memcpy_to_ok by (rewrite ?H4; lia).
  cbv beta iota delta [bind].
  split; [reflexivity |].
  split.
  - apply rohc_ntoh32_uint32; [exact H4 |].
    apply firstn_bytes. apply (skipn_bytes esp 4 Hall).
  - unfold ptr_add.
    rewrite skipn_app_exact by (rewrite length_firstn; lia).
    rewrite (firstn_app_exact _ _ 4 H4). reflexivity.
Qed.

Lemma ipv4_esp_header_bytes :
  Forall uint8 [0xde; 0xad; 0xbe; 0xef; 0; 0; 0; 1].
Proof.
  repeat (apply Forall_cons; [unfold uint8; lia |]). apply Forall_nil.
Qed.

(** The witness of X23: the sequence number 1 of an IPv4/ESP packet. *)
Lemma c_esp_get_next_sn_is_sent_witness :
  exists sn dest',
    c_esp_get_next_sn 1 ipv4_esp None = Ok sn /\
    esp_code_dynamic_esp_part [0xde; 0xad; 0xbe; 0xef; 0; 0; 0; 1]
      (repeat 0xff 12) 6 = Ok (6 + 4, dest') /\
    uint32 sn /\
    rohc_ntoh32 (firstn 4 (ptr_add dest' 6)) = sn.
Proof.
  apply (c_esp_get_next_sn_is_sent 1 ipv4_esp ipv4_esp None
           [0xde; 0xad; 0xbe; 0xef; 0; 0; 0; 1] (repeat 0xff 12) 6).
  - left. split; [lia | reflexivity].
  - reflexivity.
  - simpl. lia.
  - exact ipv4_esp_header_bytes.
  - lia.
  - simpl. lia.
Defined.

Example c_esp_get_next_sn_value :
  c_esp_get_next_sn 1 ipv4_esp None = Ok 1 /\
  c_esp_get_next_sn 1 ipv6_ext_esp None = Ok 1.
Proof. split; reflexivity. Qed.

(** ** The profile check *)

Section CheckProfileProperties.

Variable K : Type.
Variable c_generic_check_profile :
  ip_packet -> option ip_packet -> Z -> K -> result (bool * K).
Variable ctxt_key_xor : K -> list Z -> K.

(** X24: [c_esp_check_profile] stays inside a packet without extension
    headers. When the last IP header is one that [ip_create] accepted, IPv4
    or IPv6 with a Next Header that is no extension header, the function
    returns (given that the generic check does); and when it answers true,
    the protocol is ESP, the generic check passed, and the ESP header whose
    SPI is mixed into the context key lies with its 8 bytes inside the
    buffer. *)
Theorem c_esp_check_profile_in_bounds (ip0 last outer_ip : ip_packet)
    (inner_ip : option ip_packet) (packet : list Z) (size protocol : Z)
    (ctxt_key key' : K) (ip_check : bool) :
  Forall uint8 packet -> size <= Z.of_nat (length packet) ->
  ip_create ip0 packet size = Ok (1, last) ->
  version last = IPV4 \/
  (version last = IPV6 /\ is_ipv6_ext (v6_ip6_nxt last) = false) ->
  last = match inner_ip with Some inner => inner | None => outer_ip end ->
  c_generic_check_profile outer_ip inner_ip protocol ctxt_key
  = Ok (ip_check, key') ->
  exists b key'',
    c_esp_check_profile K c_generic_check_profile ctxt_key_xor outer_ip
      inner_ip protocol ctxt_key = Ok (b, key'') /\
    (b = true ->
     protocol = ROHC_IPPROTO_ESP /\ ip_check = true /\
     exists esp,
       ip_get_next_layer last = Ok esp /\ (8 <= length esp)%nat /\
       key'' = ctxt_key_xor key' (firstn 4 esp)).
Proof.
  intros Hall Hsize Hcreate Hver Hlast Hgen.
  unfold c_esp_check_profile.
  destruct (Z.eqb_spec protocol ROHC_IPPROTO_ESP) as [Hproto | Hproto];
    cbv beta iota delta [negb];
    [| eexists; eexists; split; [reflexivity | discriminate]].
  rewrite Hgen. cbv beta iota delta [bind].
  destruct ip_check; cbv beta iota delta [negb];
    [| eexists; eexists; split; [reflexivity | discriminate]].
  rewrite <- Hlast. clear Hlast Hgen.
  pose proof (IpProperties.accepted_ipv4_lengths ip0 last packet size Hall
                Hcreate) as H4.
  pose proof (IpProperties.accepted_ipv6_lengths ip0 last packet size Hall
                Hcreate) as H6.
  unfold sizeof_esphdr.
  destruct Hver as [Hv4 | (Hv6 & Hnxt)].
  - destruct (H4 Hv4) as (hdrlen & Hhdr & Hbounds & _ & _ & Hplen).
    destruct (IpProperties.ip_create_ipv4_inv ip0 last packet size Hcreate
                Hv4) as (_ & _ & Hshape & _).
    rewrite Hplen. cbv beta iota delta [bind].
    destruct (Z.ltb_spec (size - hdrlen) 8);
      [eexists; eexists; split; [reflexivity | discriminate] |].
    assert (Hlayer : ip_get_next_layer last = Ok (ptr_add packet 20))
      by (rewrite Hshape; reflexivity).
    assert (Hesp : (8 <= length (ptr_add packet 20))%nat)
      by (unfold ptr_add; rewrite length_skipn; lia).
    rewrite Hlayer. cbv beta iota delta [bind].
    rewrite esp_spi_ok by lia. cbv beta iota delta [bind].
    eexists. eexists. split; [reflexivity |]. intros _.
    split; [exact Hproto |]. split; [reflexivity |].
    exists (ptr_add packet 20). auto.
  - destruct (H6 Hv6) as (_ & Hbounds & _ & Hfield).
    destruct (IpProperties.ip_create_ipv6_inv ip0 last packet size Hcreate
                Hv6) as (_ & _ & Hshape & _).
    assert (Hlayer : ip_get_next_layer last = Ok (ptr_add packet 40)).
    { unfold ip_get_next_layer, ip_get_next_header. rewrite Hv6.
      cbv beta iota delta [bind].
      rewrite IpProperties.skip_extensions_not_ext by exact Hnxt.
      rewrite Hshape. reflexivity. }
    assert (Hplen : ip_get_plen last = Ok (size - 40)).
    { unfold ip_get_plen, ip_get_total_extension_size,
        ip_get_next_ext_from_ip, ip_get_next_header.
      rewrite Hv6. cbv beta iota delta [bind]. rewrite Hnxt.
      rewrite IpProperties.sum_extensions_none. rewrite Hfield.
      unfold wrap32. rewrite Z.sub_0_r.
      rewrite Z.mod_small by lia. reflexivity. }
    rewrite Hplen. cbv beta iota delta [bind].
    destruct (Z.ltb_spec (size - 40) 8);
      [eexists; eexists; split; [reflexivity | discriminate] |].
    assert (Hesp : (8 <= length (ptr_add packet 40))%nat)
      by (unfold ptr_add; rewrite length_skipn; lia).
    rewrite Hlayer. cbv beta iota delta [bind].
    rewrite esp_spi_ok by lia. cbv beta iota delta [bind].
    eexists. eexists. split; [reflexivity |]. intros _.
    split; [exact Hproto |]. split; [reflexivity |].
    exists (ptr_add packet 40). auto.
Qed.

End CheckProfileProperties.

(** The witness of X24: an IPv4/ESP packet of 28 bytes, on a little-endian
    host. *)
Lemma c_esp_check_profile_in_bounds_witness :
  exists b key'',
    c_esp_check_profile Z generic_check_passes (key_xor_spi false) ipv4_esp
      None 50 0 = Ok (b, key'') /\
    (b = true ->
     50 = ROHC_IPPROTO_ESP /\ true = true /\
     exists esp,
       ip_get_next_layer ipv4_esp = Ok esp /\ (8 <= length esp)%nat /\
       key'' = key_xor_spi false 0 (firstn 4 esp)).
Proof.
  apply (c_esp_check_profile_in_bounds Z generic_check_passes
           (key_xor_spi false) ip_uninitialized ipv4_esp ipv4_esp None
           ipv4_esp_packet 28 50 0 0 true).
  - unfold ipv4_esp_packet. cbn [app].
    repeat (apply Forall_cons; [unfold uint8; lia |]). apply Forall_nil.
  - simpl. lia.
  - reflexivity.
  - left. reflexivity.
  - reflexivity.
  - reflexivity.
Defined.

(** The key of the packet with the SPI bytes DE AD BE EF: the SPI is mixed
    in as the host loads it, so the key depends on the byte order of the
    host. *)
Example c_esp_check_profile_key :
  c_esp_check_profile Z generic_check_passes (key_xor_spi false) ipv4_esp
    None 50 0 = Ok (true, 0xefbeadde) /\
  c_esp_check_profile Z generic_check_passes (key_xor_spi true) ipv4_esp
    None 50 0 = Ok (true, 0xdeadbeef).
Proof. split; reflexivity. Qed.

(** ** The context check *)

Lemma bytes_eqb_eq (a b : list Z) : bytes_eqb a b = true -> a = b.
Proof.
  revert b. induction a as [| x a IH]; intros [| y b]; simpl;
    try discriminate; [reflexivity |].
  intros H. apply andb_prop in H as (Hx & Hab).
  apply Z.eqb_eq in Hx. subst. f_equal. apply IH. exact Hab.
Qed.

Lemma bytes_eqb_refl (a : list Z) : bytes_eqb a a = true.
Proof.
  induction a as [| x a IH]; simpl; [reflexivity |].
  rewrite Z.eqb_refl. exact IH.
Qed.

Lemma ip_version_eqb_eq (a b : ip_version) :
  ip_version_eqb a b = true -> a = b.
Proof. destruct a, b; simpl; congruence. Qed.

Lemma memcpy_inv (p bytes : list Z) (n : Z) :
  memcpy p n = Ok bytes ->
  0 <= n <= Z.of_nat (length p) /\ bytes = firstn (Z.to_nat n) p.
Proof.
  unfold memcpy.
  destruct (Z.ltb_spec n 0); [discriminate |].
  destruct (Z.ltb_spec (Z.of_nat (length p)) n); [discriminate |].
  cbv beta iota delta [orb]. intros [= <-]. split; [lia | reflexivity].
Qed.

Lemma read_esphdr_inv (esp : list Z) (hdr : esphdr) :
  read_esphdr esp = Ok hdr ->
  (8 <= length esp)%nat /\ spi hdr = firstn 4 esp.
Proof.
  unfold read_esphdr, sizeof_esphdr.
  destruct (memcpy esp 8) as [bytes |] eqn:E; [| discriminate].
  apply memcpy_inv in E as (Hlen & ->).
  cbv beta iota delta [bind]. intros [= <-]. split; [lia |].
  change (firstn 4 (firstn 8 esp) = firstn 4 esp).
  rewrite firstn_firstn. reflexivity.
Qed.

Section CheckContextProperties.

Variable G : Type.
Variable ip_flags : G -> ip_header_info.
Variable ip2_flags : G -> ip_header_info.
Variable is_ip2_initialized : G -> bool.
Variable IPV6_ADDR_CMP : list Z -> list Z -> bool.
Variable IPV6_GET_FLOW_LABEL : list Z -> Z.

(** What the tests on one IP header have found when they pass. *)
Lemma same_ip_header_true (flags : ip_header_info) (ip : ip_packet) :
  same_ip_header IPV6_ADDR_CMP IPV6_GET_FLOW_LABEL flags ip = Ok true ->
  version ip = info_version flags /\
  (version ip = IPV4 \/ version ip = IPV6) /\
  (version ip = IPV4 ->
   v4_saddr (header ip) = v4_saddr (info_v4_old_ip flags) /\
   v4_daddr (header ip) = v4_daddr (info_v4_old_ip flags)) /\
  (version ip = IPV6 ->
   IPV6_ADDR_CMP (v6_ip6_src (info_v6_old_ip flags)) (v6_ip6_src (header ip))
   = true /\
   IPV6_ADDR_CMP (v6_ip6_dst (info_v6_old_ip flags)) (v6_ip6_dst (header ip))
   = true /\
   IPV6_GET_FLOW_LABEL (header ip)
   = IPV6_GET_FLOW_LABEL (info_v6_old_ip flags)).
Proof.
  unfold same_ip_header, ip_get_version, ipv4_get_saddr,
    ipv4_get_daddr, ipv6_get_saddr, ipv6_get_daddr, ipv6_get_flow_label.
  destruct (ip_version_eqb (version ip) (info_version flags)) eqn:Ever;
    cbv beta iota delta [negb]; [| discriminate].
  apply ip_version_eqb_eq in Ever.
  destruct (version ip) eqn:Eip; cbv beta iota delta [bind];
    try discriminate.
  - destruct (bytes_eqb _ _) eqn:Es; [| discriminate].
    destruct (bytes_eqb (v4_daddr _) _) eqn:Ed; cbv beta iota delta [negb];
      [| discriminate].
    intros _. apply bytes_eqb_eq in Es, Ed.
    split; [exact Ever |]. split; [left; reflexivity |].
    split; [auto | discriminate].
  - destruct (IPV6_ADDR_CMP _ _) eqn:Es; [| discriminate].
    destruct (IPV6_ADDR_CMP (v6_ip6_dst _) _) eqn:Ed;
      cbv beta iota delta [negb]; [| discriminate].
    intros [= Hlabel]. apply Z.eqb_eq in Hlabel.
    split; [exact Ever |]. split; [right; reflexivity |].
    split; [discriminate | auto].
Qed.

(** The last IP header that [c_esp_check_context] finds is the one that
    [c_esp_encode] finds. *)
Lemma check_ip_headers_last (context : c_context G) (ip : ip_packet)
    (last : ip_packet) (ip_proto : Z) :
  check_ip_headers G ip_flags ip2_flags is_ip2_initialized IPV6_ADDR_CMP
    IPV6_GET_FLOW_LABEL context ip = Ok (Some (last, ip_proto)) ->
  same_ip_header IPV6_ADDR_CMP IPV6_GET_FLOW_LABEL
    (ip_flags (generic context)) ip = Ok true /\
  last_ip_header_of ip = Ok (Some (last, ip_proto)) /\
  (is_ip2_initialized (generic context) = false -> last = ip) /\
  (is_ip2_initialized (generic context) = true ->
   same_ip_header IPV6_ADDR_CMP IPV6_GET_FLOW_LABEL
     (ip2_flags (generic context)) last = Ok true).
Proof.
  unfold check_ip_headers, last_ip_header_of.
  destruct (same_ip_header IPV6_ADDR_CMP IPV6_GET_FLOW_LABEL
              (ip_flags (generic context)) ip) as [[|] |];
    cbv beta iota delta [bind negb]; try discriminate.
  destruct (ip_get_protocol ip) as [proto |]; cbv beta iota delta [bind];
    [| discriminate].
  destruct ((proto =? ROHC_IPPROTO_IPIP) || (proto =? ROHC_IPPROTO_IPV6)).
  - destruct (is_ip2_initialized (generic context));
      cbv beta iota delta [negb]; [| discriminate].
    destruct (ip_get_inner_packet ip ip_uninitialized) as [[created ip2] |];
      cbv beta iota delta [bind]; [| discriminate].
    destruct (created =? 0); [discriminate |].
    destruct (same_ip_header IPV6_ADDR_CMP IPV6_GET_FLOW_LABEL
                (ip2_flags (generic context)) ip2)
      as [[|] |] eqn:E2; cbv beta iota delta [bind negb]; try discriminate.
    destruct (ip_get_protocol ip2) as [proto2 |];
      cbv beta iota delta [bind]; [| discriminate].
    intros [= <- <-]. repeat split; try discriminate. intros _. exact E2.
  - destruct (is_ip2_initialized (generic context)); [discriminate |].
    intros [= <- <-]. repeat split; try discriminate.
Qed.

(** X25: what an accepted packet shares with its context. When
    [c_esp_check_context] answers true, the version of the first IP header
    is the one of the context and is IPv4 or IPv6, the IPv4 addresses of the
    header are the ones kept in the context, the protocol after the last IP
    header is ESP, and the SPI of the ESP header of the packet is the
    reference SPI of the context. *)
Theorem c_esp_check_context_true (context : c_context G) (ip : ip_packet) :
  c_esp_check_context G ip_flags ip2_flags is_ip2_initialized IPV6_ADDR_CMP
    IPV6_GET_FLOW_LABEL context ip = Ok true ->
  version ip = info_version (ip_flags (generic context)) /\
  (version ip = IPV4 \/ version ip = IPV6) /\
  (version ip = IPV4 ->
   v4_saddr (header ip)
   = v4_saddr (info_v4_old_ip (ip_flags (generic context))) /\
   v4_daddr (header ip)
   = v4_daddr (info_v4_old_ip (ip_flags (generic context)))) /\
  exists last esp,
    last_ip_header_of ip = Ok (Some (last, ROHC_IPPROTO_ESP)) /\
    (is_ip2_initialized (generic context) = false -> last = ip) /\
    ip_get_next_layer last = Ok esp /\
    esp_spi esp = Ok (reference_spi context).
Proof.
  unfold c_esp_check_context, reference_spi.
  destruct (check_ip_headers G ip_flags ip2_flags is_ip2_initialized
              IPV6_ADDR_CMP IPV6_GET_FLOW_LABEL context ip)
    as [[[last proto] |] |] eqn:Echeck;
    cbv beta iota delta [bind]; try discriminate.
  apply check_ip_headers_last in Echeck as (Hsame & Hlast & Hone & _).
  apply same_ip_header_true in Hsame as (Hver & H46 & Hv4 & _).
  destruct (Z.eqb_spec proto ROHC_IPPROTO_ESP) as [-> | Hproto];
    cbv beta iota delta [negb]; [| discriminate].
  destruct (ip_get_next_layer last) as [esp |] eqn:Elayer;
    cbv beta iota delta [bind]; [| discriminate].
  destruct (esp_spi esp) as [packet_spi |] eqn:Espi;
    cbv beta iota delta [bind]; [| discriminate].
  intros [= Heq]. apply bytes_eqb_eq in Heq.
  split; [exact Hver |]. split; [exact H46 |]. split; [exact Hv4 |].
  exists last, esp. rewrite Heq. auto.
Qed.

Section AfterEncode.

Variable c_generic_encode :
  c_context G -> ip_packet -> Z -> list Z -> Z -> rohc_packet_t -> Z ->
  result (encoded G).

(** X26: after an IR or IR-DYN packet, the SPI cannot be what keeps the
    packet out of its context. When [c_esp_encode] has encoded a packet as
    IR or IR-DYN, [c_esp_check_context] on the context it leaves and on the
    same packet answers true as soon as the tests on the IP headers pass:
    the protocol is ESP and the SPI of the packet is the reference SPI. *)
Theorem c_esp_check_context_after_ir (context : c_context G)
    (ip : ip_packet) (packet_size : Z) (dest : list Z) (dest_size : Z)
    (packet_type : rohc_packet_t) (payload_offset : Z) (e : encoded G)
    (last : ip_packet) (ip_proto : Z) :
  c_esp_encode G c_generic_encode context ip packet_size dest dest_size
    packet_type payload_offset = Ok e ->
  0 <= enc_size e ->
  is_ir_or_ir_dyn (tmp_packet_type (enc_context e)) = true ->
  check_ip_headers G ip_flags ip2_flags is_ip2_initialized IPV6_ADDR_CMP
    IPV6_GET_FLOW_LABEL (enc_context e) ip = Ok (Some (last, ip_proto)) ->
  c_esp_check_context G ip_flags ip2_flags is_ip2_initialized IPV6_ADDR_CMP
    IPV6_GET_FLOW_LABEL (enc_context e) ip = Ok true /\
  ip_proto = ROHC_IPPROTO_ESP /\
  exists esp,
    ip_get_next_layer last = Ok esp /\
    esp_spi esp = Ok (reference_spi (enc_context e)).
Proof.
  intros Hencode Hsize Hir Hcheck.
  pose proof (check_ip_headers_last _ _ _ _ Hcheck) as (_ & Hlast & _).
  revert Hencode. unfold c_esp_encode. rewrite Hlast.
  cbv beta iota delta [bind].
  destruct (Z.eqb_spec ip_proto ROHC_IPPROTO_ESP) as [-> | Hproto];
    cbv beta iota delta [negb];
    [| intros [= <-]; cbn [enc_size] in Hsize; lia].
  destruct (ip_get_next_layer last) as [esp |] eqn:Elayer;
    cbv beta iota delta [bind]; [| discriminate].
  destruct (c_generic_encode context ip packet_size dest dest_size
              packet_type payload_offset) as [g |];
    cbv beta iota delta [bind]; [| discriminate].
  destruct (Z.ltb_spec (enc_size g) 0); [intros [= <-]; lia |].
  destruct (is_ir_or_ir_dyn (tmp_packet_type (enc_context g))) eqn:Eir;
    [| intros [= <-]; congruence].
  destruct (read_esphdr esp) as [hdr |] eqn:Ehdr;
    cbv beta iota delta [bind]; [| discriminate].
  intros [= <-]. cbn [enc_context] in *.
  apply read_esphdr_inv in Ehdr as (Hlen & Hspi).
  assert (Href : esp_spi esp
                 = Ok (reference_spi (set_old_esp hdr (enc_context g)))).
  { unfold reference_spi, set_old_esp. cbn [specific old_esp].
    rewrite Hspi. apply esp_spi_ok. lia. }
  split; [| split; [reflexivity | exists esp; auto]].
  unfold c_esp_check_context. rewrite Hcheck.
  cbv beta iota delta [bind].
  change (negb (ROHC_IPPROTO_ESP =? ROHC_IPPROTO_ESP)) with false.
  cbv beta iota. rewrite Elayer. cbv beta iota delta [bind].
  rewrite Href. cbv beta iota delta [bind].
  unfold reference_spi. rewrite bytes_eqb_refl. reflexivity.
Qed.

End AfterEncode.

End CheckContextProperties.

(** The witness of X25: the IPv4/ESP packet against the context of its
    flow. *)
Lemma c_esp_check_context_true_witness :
  c_esp_check_context generic_fields gf_ip_flags gf_ip2_flags
    gf_is_ip2_initialized bytes_eqb flow_label_of ipv4_esp_context ipv4_esp
  = Ok true /\
  exists last esp,
    last_ip_header_of ipv4_esp = Ok (Some (last, ROHC_IPPROTO_ESP)) /\
    (gf_is_ip2_initialized (generic ipv4_esp_context) = false ->
     last = ipv4_esp) /\
    ip_get_next_layer last = Ok esp /\
    esp_spi esp = Ok (reference_spi ipv4_esp_context).
Proof.
  assert (Hrun :
    c_esp_check_context generic_fields gf_ip_flags gf_ip2_flags
      gf_is_ip2_initialized bytes_eqb flow_label_of ipv4_esp_context ipv4_esp
    = Ok true) by reflexivity.
  split; [exact Hrun |].
  exact (proj2 (proj2 (proj2
           (c_esp_check_context_true generic_fields gf_ip_flags gf_ip2_flags
              gf_is_ip2_initialized bytes_eqb flow_label_of ipv4_esp_context
              ipv4_esp Hrun)))).
Defined.

(** A packet of the same flow with another SPI is kept out. *)
Example c_esp_check_context_other_spi :
  c_esp_check_context generic_fields gf_ip_flags gf_ip2_flags
    gf_is_ip2_initialized bytes_eqb flow_label_of
    (set_old_esp (mk_esphdr [1; 2; 3; 4] [0; 0; 0; 0]) ipv4_esp_context)
    ipv4_esp
  = Ok false.
Proof. reflexivity. Qed.

(** The witness of X26: an IR packet for the IPv4/ESP packet, encoded with
    a context that held another SPI. *)
Lemma c_esp_check_context_after_ir_witness :
  exists e,
    c_esp_encode generic_fields ir_generic_encode
      (set_old_esp (mk_esphdr [1; 2; 3; 4] [0; 0; 0; 0]) ipv4_esp_context)
      ipv4_esp 28 [] 0 PACKET_UNKNOWN 0 = Ok e /\
    c_esp_check_context generic_fields gf_ip_flags gf_ip2_flags
      gf_is_ip2_initialized bytes_eqb flow_label_of (enc_context e) ipv4_esp
    = Ok true /\
    reference_spi (enc_context e) = [0xde; 0xad; 0xbe; 0xef].
Proof.
  eexists. split; [reflexivity |]. split; [| reflexivity].
  refine (proj1 (c_esp_check_context_after_ir generic_fields gf_ip_flags
                   gf_ip2_flags gf_is_ip2_initialized bytes_eqb flow_label_of
                   ir_generic_encode
                   (set_old_esp (mk_esphdr [1; 2; 3; 4] [0; 0; 0; 0])
                      ipv4_esp_context)
                   ipv4_esp 28 [] 0 PACKET_UNKNOWN 0 _ ipv4_esp
                   ROHC_IPPROTO_ESP eq_refl _ eq_refl eq_refl)).
  simpl. lia.
Defined.

End EspProperties.

(** * The fuzzer: properties *)

Module FuzzerProperties.

Import Fuzzer.

Lemma length_row_set (rows : list (list Z)) (n : nat) (row : list Z) :
  length (row_set rows n row) = length rows.
Proof.
  revert n. induction rows as [| h t IH]; intros [| n]; simpl; auto.
Qed.

Lemma nth_row_set_same (rows : list (list Z)) (n : nat) (row : list Z) :
  (n < length rows)%nat -> nth n (row_set rows n row) [] = row.
Proof.
  revert n. induction rows as [| h t IH]; intros [| n]; simpl; intros H;
    try lia; auto. apply IH. lia.
Qed.

Lemma nth_row_set_other (rows : list (list Z)) (n m : nat) (row : list Z) :
  n <> m -> nth m (row_set rows n row) [] = nth m rows [].
Proof.
  revert n m. induction rows as [| h t IH]; intros [| n] [| m]; simpl;
    intros H; try congruence; auto.
Qed.

(** X27: the ring buffer of the last traces. On a ring buffer that satisfies
    its invariant, as the one set up by [main] does, [print_rohc_traces]
    writes inside the array and keeps the invariant; the trace, cut to 300
    characters, is in the row of the new last index, the other rows are as
    before, and the number of traces kept grows by one until it stays at
    5000. *)
Theorem print_rohc_traces_ring (formatted : list Z) (r : trace_ring) :
  ring_inv r ->
  exists r',
    print_rohc_traces formatted r = Ok r' /\
    ring_inv r' /\
    nth (Z.to_nat (last_traces_last r')) (last_traces r') []
    = c_string (firstn (Z.to_nat MAX_TRACE_LEN) formatted) /\
    (forall i, i <> Z.to_nat (last_traces_last r') ->
               nth i (last_traces r') [] = nth i (last_traces r) []) /\
    traces_kept r' = Z.min (traces_kept r + 1) MAX_LAST_TRACES.
Proof.
  intros (Hrows & Hidx). destruct r as [rows fi la].
  unfold print_rohc_traces, traces_kept, ring_inv, store_row in *.
  cbn [last_traces last_traces_first last_traces_last] in *.
  unfold MAX_LAST_TRACES in *.
  assert (Hrem : forall x, 0 <= x -> Z.rem x 5000 = x mod 5000)
    by (intros x Hx; apply Z.rem_mod_nonneg; lia).
  destruct Hidx as [(-> & ->) | (Hfirst & Hlast & Hrel)].
  - change (-1 =? -1) with true. cbv beta iota.
    destruct (Z.ltb_spec 0 0); [lia |].
    destruct (Z.leb_spec (Z.of_nat (length rows)) 0); [lia |].
    cbv beta iota delta [orb bind].
    eexists. split; [reflexivity |].
    cbn [last_traces last_traces_first last_traces_last].
    rewrite length_row_set.
    split; [split; [exact Hrows | right; lia] |].
    split; [apply nth_row_set_same; lia |].
    split; [intros i Hi; apply nth_row_set_other; lia |].
    reflexivity.
  - destruct (Z.eqb_spec la (-1)); [lia |].
    destruct (Z.eqb_spec fi (-1)); [lia |].
    rewrite !Hrem by lia.
    pose proof (Z.mod_pos_bound (la + 1) 5000 ltac:(lia)) as Hl.
    pose proof (Z.mod_pos_bound (fi + 1) 5000 ltac:(lia)) as Hf.
    set (la' := (la + 1) mod 5000) in *.
    destruct (Z.ltb_spec la' 0); [lia |].
    destruct (Z.leb_spec (Z.of_nat (length rows)) la'); [lia |].
    cbv beta iota delta [orb bind].
    eexists. split; [reflexivity |].
    cbn [last_traces last_traces_first last_traces_last].
    rewrite length_row_set.
    assert (Hlast' : la' = la + 1 \/ (la = 4999 /\ la' = 0)).
    { unfold la'. destruct (Z.eq_dec la 4999) as [-> | Hne].
      - right. split; reflexivity.
      - left. apply Z.mod_small. lia. }
    destruct (Z.eqb_spec fi la') as [Efirst | Efirst].
    + set (fi' := (fi + 1) mod 5000) in *.
      assert (Hfirst' : fi' = (la' + 1) mod 5000)
        by (unfold fi'; rewrite Efirst; reflexivity).
      split; [split; [exact Hrows | right; lia] |].
      split; [apply nth_row_set_same; lia |].
      split; [intros i Hi; apply nth_row_set_other; lia |].
      assert (Hkept' : (la' - fi') mod 5000 = 4999).
      { rewrite Hfirst'.
        destruct (Z.eq_dec la' 4999) as [E | Hne].
        - rewrite E. reflexivity.
        - rewrite (Z.mod_small (la' + 1)) by lia.
          replace (la' - (la' + 1)) with (-1) by lia. reflexivity. }
      assert (Hkept : (la - fi) mod 5000 = 4999).
      { destruct Hlast' as [E | (E1 & E2)].
        - replace (la - fi) with (-1) by lia. reflexivity.
        - replace (la - fi) with 4999 by lia. reflexivity. }
      destruct (Z.eqb_spec fi' (-1)); [lia |].
      rewrite Hkept', Hkept. lia.
    + split; [split; [exact Hrows | right] |].
      { split; [lia |]. split; [lia |].
        destruct Hrel as [Hrel | Hrel]; [left; exact Hrel |].
        fold la' in Hrel. contradiction. }
      split; [apply nth_row_set_same; lia |].
      split; [intros i Hi; apply nth_row_set_other; lia |].
      destruct Hrel as [-> | Hrel]; [| fold la' in Hrel; contradiction].
      rewrite !Z.sub_0_r.
      destruct Hlast' as [E | (E1 & E2)]; [| lia].
      change (0 =? -1) with false. cbv beta iota.
      rewrite (Z.mod_small la) by lia.
      rewrite (Z.mod_small la') by lia. lia.
Qed.

Lemma no_traces_inv : ring_inv no_traces.
Proof. split; [reflexivity | left; split; reflexivity]. Qed.

(** The witness of X27: the first trace in the ring buffer of [main]. *)
Lemma print_rohc_traces_ring_witness :
  exists r',
    print_rohc_traces [111; 107] no_traces = Ok r' /\
    ring_inv r' /\
    nth (Z.to_nat (last_traces_last r')) (last_traces r') []
    = c_string (firstn (Z.to_nat MAX_TRACE_LEN) [111; 107]) /\
    (forall i, i <> Z.to_nat (last_traces_last r') ->
               nth i (last_traces r') [] = nth i (last_traces no_traces) []) /\
    traces_kept r' = Z.min (traces_kept no_traces + 1) MAX_LAST_TRACES.
Proof.
  exact (print_rohc_traces_ring [111; 107] no_traces no_traces_inv).
Defined.

(** X28: what the fuzzer never generates. Whatever [rand()] returns, the
    packet of an iteration has 2047 bytes at most and holds no byte above
    254: the length is drawn modulo 2048 and every byte modulo 0xff, so a
    packet of 2048 bytes and the byte 0xFF never reach the decompressor. *)
Theorem create_crazy_packet_range (rand : nat -> Z) (calls : nat) :
  (forall k, 0 <= rand k) ->
  let '(rohc_packet, rohc_len, calls') := create_crazy_packet rand calls in
  0 <= rohc_len <= PACKET_MAX_SIZE - 1 /\
  Z.of_nat (length rohc_packet) = rohc_len /\
  Forall (fun b => 0 <= b <= 254) rohc_packet /\
  calls' = (calls + 1 + length rohc_packet)%nat.
Proof.
  intros Hrand. unfold create_crazy_packet, PACKET_MAX_SIZE.
  assert (Hlen : 0 <= Z.rem (rand calls) 2048 <= 2047).
  { rewrite Z.rem_mod_nonneg by (try apply Hrand; lia).
    pose proof (Z.mod_pos_bound (rand calls) 2048 ltac:(lia)). lia. }
  split; [lia |].
  split; [rewrite length_map, length_seq; lia |].
  split; [| rewrite length_map, length_seq; lia].
  apply Forall_forall. intros b Hb. apply in_map_iff in Hb as (i & <- & _).
  rewrite Z.rem_mod_nonneg by (try apply Hrand; lia).
  pose proof (Z.mod_pos_bound (rand (S calls + i)%nat) 255 ltac:(lia)) as Hm.
  unfold wrap8. rewrite Z.mod_small by lia. lia.
Qed.

Lemma example_rand_nonneg (k : nat) : 0 <= example_rand k.
Proof. unfold example_rand. apply Z.mod_pos_bound. lia. Qed.

(** The witness of X28: the packet of the first iteration for an example
    generator. *)
Lemma create_crazy_packet_range_witness :
  let '(rohc_packet, rohc_len, calls') :=
    create_crazy_packet example_rand 0 in
  0 <= rohc_len <= PACKET_MAX_SIZE - 1 /\
  Z.of_nat (length rohc_packet) = rohc_len /\
  Forall (fun b => 0 <= b <= 254) rohc_packet /\
  calls' = (0 + 1 + length rohc_packet)%nat.
Proof.
  exact (create_crazy_packet_range example_rand 0 example_rand_nonneg).
Defined.

End FuzzerProperties.
